(** * aitool-json SDK: the tool model, the execution engine and the registry

    A shallow embedding of [sdk/aitool.py], and of the commands [init],
    [list] and [registry] of [cli/aitool-cli.py].

    Python objects are modelled at the types the source declares for them:
    the two dataclasses ([ToolManifest], [ErrorRecovery]) are records over
    their annotated field types, a JSON document is a record whose fields
    are the keys the code reads, each of them optional (a key read with
    [d['k']] raises [KeyError] when it is absent, a key read with
    [d.get('k', default)] falls back to the default).  Values of another
    JSON type than the code expects are outside the model.

    Exceptions are values: a call either returns or raises.  Code that
    mutates the tool (the cached callable), calls the underlying callable,
    sleeps or logs runs in a state-and-exception monad whose state records
    what an observer of the process sees.  Code that reads files takes
    the file system as an argument and returns what it logged; a command
    returns its exit status with what it logged, printed and wrote. *)

From Stdlib Require Import String Ascii List Bool ZArith QArith Lia.
From Stdlib Require Import Permutation DecimalString.
Import ListNotations.

#[local] Open Scope string_scope.
#[local] Open Scope list_scope.

(* ================================================================== *)
(** ** Python strings *)

(** [needle in haystack] on [str]: [needle] occurs as a contiguous run. *)
Fixpoint str_contains (needle haystack : string) : bool :=
  if String.prefix needle haystack then true
  else match haystack with
       | EmptyString => false
       | String _ rest => str_contains needle rest
       end.

(** [c.isupper()] on an ASCII letter and the [str.lower] conversion of one
    character.  This is [str.lower] on ASCII strings; the bytes of other
    characters are left alone, where Python follows Unicode. *)
Definition lower_ascii (c : ascii) : ascii :=
  let n := nat_of_ascii c in
  if (65 <=? n)%nat && (n <=? 90)%nat then ascii_of_nat (n + 32) else c.

(** [s.lower()] *)
Fixpoint lower (s : string) : string :=
  match s with
  | EmptyString => EmptyString
  | String c rest => String (lower_ascii c) (lower rest)
  end.

(** [c.isspace()] on ASCII: tab, line feed, vertical tab, form feed,
    carriage return, the four separators 0x1c..0x1f, and space.  The
    whitespace of Unicode beyond ASCII is not recognized. *)
Definition isspace (c : ascii) : bool :=
  let n := nat_of_ascii c in
  ((9 <=? n)%nat && (n <=? 13)%nat) || ((28 <=? n)%nat && (n <=? 32)%nat).

(** [s.split()] with no argument: the maximal runs of non-whitespace
    characters, in order; [word] is the run being read (reversed). *)
Fixpoint split_from (word : list ascii) (s : string) : list string :=
  let flush := match word with
               | [] => []
               | _ => [string_of_list_ascii (rev word)]
               end in
  match s with
  | EmptyString => flush
  | String c rest =>
      if isspace c then flush ++ split_from [] rest
      else split_from (c :: word) rest
  end.

Definition split (s : string) : list string := split_from [] s.

(** [str(n)] for an [int]. *)
Definition str_of_int (n : Z) : string := NilEmpty.string_of_int (Z.to_int n).

(** [x in xs] for a list of strings. *)
Definition list_contains (x : string) (xs : list string) : bool :=
  existsb (String.eqb x) xs.

(* ================================================================== *)
(** ** JSON values: parameters, results and schemas *)

#[warnings="-register-all"]
Inductive json :=
| JNull
| JBool (b : bool)
| JInt (n : Z)
| JStr (s : string)
| JArr (items : list json)
| JObj (members : list (string * json)).

(** A [dict] with string keys. *)
Definition dict := list (string * json).

(** Truth value of a schema argument ([if schema:]): [None] and the empty
    dict are false. *)
Definition truthy (j : json) : bool :=
  match j with
  | JNull => false
  | JBool b => b
  | JInt n => negb (n =? 0)%Z
  | JStr s => negb (s =? "")
  | JArr l => match l with [] => false | _ => true end
  | JObj l => match l with [] => false | _ => true end
  end.

(* ================================================================== *)
(** ** Exceptions *)

(** The classes the program names in an [except] clause.  The name
    [JSONSchemaValidationError] is bound at import time, to [jsonschema]'s
    [ValidationError] or, when that package is missing, to [Exception]. *)
Inductive pyclass :=
| Exception
| ImportError
| AttributeError
| JsonschemaValidationError.

Definition pyclass_eqb (a b : pyclass) : bool :=
  match a, b with
  | Exception, Exception
  | ImportError, ImportError
  | AttributeError, AttributeError
  | JsonschemaValidationError, JsonschemaValidationError => true
  | _, _ => false
  end.

(** An exception object: [type(e).__name__], the classes among [pyclass]
    it is an instance of, and [str(e)]. *)
Record exn := {
  exn_name : string;
  exn_bases : list pyclass;
  exn_str : string
}.

Definition isinstance (e : exn) (c : pyclass) : bool :=
  existsb (pyclass_eqb c) (exn_bases e).

(** [s.isascii()]: every character is below 128.  The string methods
    below are those of Python on such strings; on others, where Python
    follows Unicode, they are not, and the statements about them are
    made for ASCII strings. *)
Definition isascii (s : string) : bool :=
  forallb (fun c => (nat_of_ascii c <? 128)%nat) (list_ascii_of_string s).

(** [repr(s)] for a [str]: in single quotes, or in double quotes when
    [s] has a single quote and no double quote; the quote, the
    backslash, tab, line feed and carriage return are escaped with a
    backslash, the other control characters as [\xNN]. *)
Definition double_quote : ascii := ascii_of_nat 34.

Definition backslash : ascii := ascii_of_nat 92.

Definition hex_digit (n : nat) : ascii :=
  nth n (list_ascii_of_string "0123456789abcdef") "0"%char.

Definition repr_char (quote c : ascii) : string :=
  let n := nat_of_ascii c in
  if Ascii.eqb c quote || Ascii.eqb c backslash then String backslash (String c "")
  else if (n =? 9)%nat then String backslash "t"
  else if (n =? 10)%nat then String backslash "n"
  else if (n =? 13)%nat then String backslash "r"
  else if (n <? 32)%nat || (n =? 127)%nat then
    String backslash
      (String "x" (String (hex_digit (n / 16)) (String (hex_digit (n mod 16)) "")))
  else String c "".

Fixpoint repr_chars (quote : ascii) (s : string) : string :=
  match s with
  | EmptyString => EmptyString
  | String c rest => repr_char quote c ++ repr_chars quote rest
  end.

Definition repr (s : string) : string :=
  let quote :=
    if str_contains "'" s && negb (str_contains (String double_quote "") s)
    then double_quote else "'"%char in
  String quote (repr_chars quote s ++ String quote "").

Definition KeyError (key : string) : exn :=
  {| exn_name := "KeyError"; exn_bases := [Exception]; exn_str := repr key |}.
Definition ValueError (msg : string) : exn :=
  {| exn_name := "ValueError"; exn_bases := [Exception]; exn_str := msg |}.
Definition NotImplementedError (msg : string) : exn :=
  {| exn_name := "NotImplementedError"; exn_bases := [Exception]; exn_str := msg |}.
Definition OverflowError (msg : string) : exn :=
  {| exn_name := "OverflowError"; exn_bases := [Exception]; exn_str := msg |}.

(** The SDK's own classes, both derived from [Exception]. *)
Definition ToolExecutionError (msg : string) : exn :=
  {| exn_name := "ToolExecutionError"; exn_bases := [Exception]; exn_str := msg |}.
Definition ValidationError (msg : string) : exn :=
  {| exn_name := "ValidationError"; exn_bases := [Exception]; exn_str := msg |}.

(** A call returns a value or raises. *)
Inductive result (A : Type) :=
| Return (a : A)
| Raise (e : exn).
Arguments Return {A} a.
Arguments Raise {A} e.

Definition rbind {A B} (c : result A) (k : A -> result B) : result B :=
  match c with
  | Return a => k a
  | Raise e => Raise e
  end.

Declare Scope result_scope.
Delimit Scope result_scope with result.
Notation "x <- c ;; k" := (rbind c (fun x => k))
  (at level 61, c at next level, right associativity) : result_scope.

(** [d[key]] on a dict the model holds as an optional field. *)
Definition getitem {A} (key : string) (field : option A) : result A :=
  match field with
  | Some a => Return a
  | None => Raise (KeyError key)
  end.

(** [d.get(key, default)] *)
Definition get {A} (field : option A) (default : A) : A :=
  match field with
  | Some a => a
  | None => default
  end.

(** A list comprehension whose element expression may raise. *)
Fixpoint comprehension {A B} (f : A -> result B) (xs : list A) : result (list B) :=
  match xs with
  | [] => Return []
  | x :: rest =>
      (y <- f x ;;
       ys <- comprehension f rest ;;
       Return (y :: ys))%result
  end.

(* ================================================================== *)
(** ** Tool documents *)

Module Doc.

Record Manifest := {
  id : option string;
  name : option string;
  version : option string;
  display_name : option string;
  description : option string;
  category : option string;
  tags : option (list string);
  provider : option (list (string * string))
}.

Record Recovery := {
  strategy : option string;
  max_retries : option Z;
  backoff_ms : option (list Z);
  wait_seconds : option Q;
  fallback_tool : option string;
  message_to_user : option string
}.

Record Rule := {
  error_type : option string;
  error_code : option string;
  recovery : option Recovery
}.

Record Endpoint := {
  type : option string;
  module : option string;
  function : option string
}.

Record Returns := {
  success_schema : option json
}.

Record Execution := {
  endpoint : option Endpoint;
  parameters : option json;
  returns : option Returns
}.

Record Trigger := {
  trigger : option string;
  examples : option (list string)
}.

Record UsageGuidance := {
  when_to_use : option (list Trigger)
}.

Record Tool := {
  manifest : option Manifest;
  capabilities : option json;
  execution : option Execution;
  usage_guidance : option UsageGuidance;
  error_handling : option (list Rule)
}.

End Doc.

(* ================================================================== *)
(** ** The data model *)

Inductive RecoveryStrategy :=
| RETRY
| RETRY_WITH_BACKOFF
| WAIT_AND_RETRY
| ALTERNATE_TOOL
| FAIL
| PROMPT_USER.

(** [strategy.value] *)
Definition strategy_value (s : RecoveryStrategy) : string :=
  match s with
  | RETRY => "retry"
  | RETRY_WITH_BACKOFF => "retry_with_backoff"
  | WAIT_AND_RETRY => "wait_and_retry"
  | ALTERNATE_TOOL => "alternate_tool"
  | FAIL => "fail"
  | PROMPT_USER => "prompt_user"
  end.

Definition all_strategies : list RecoveryStrategy :=
  [RETRY; RETRY_WITH_BACKOFF; WAIT_AND_RETRY; ALTERNATE_TOOL; FAIL; PROMPT_USER].

(** [RecoveryStrategy(value)]: the member with that value, [ValueError]
    when there is none. *)
Definition RecoveryStrategy_of_value (value : string) : result RecoveryStrategy :=
  match find (fun s => strategy_value s =? value) all_strategies with
  | Some s => Return s
  | None => Raise (ValueError (repr value ++ " is not a valid RecoveryStrategy"))
  end.

Module ToolManifest.

Record t := {
  id : string;
  name : string;
  version : string;
  display_name : option string;
  description : string;
  category : string;
  tags : list string;
  provider : list (string * string)
}.

Definition from_dict (data : Doc.Manifest) : result t :=
  (id <- getitem "id" (Doc.id data) ;;
   name <- getitem "name" (Doc.name data) ;;
   version <- getitem "version" (Doc.version data) ;;
   category <- getitem "category" (Doc.category data) ;;
   Return {| id := id;
             name := name;
             version := version;
             display_name := Doc.display_name data;
             description := get (Doc.description data) "";
             category := category;
             tags := get (Doc.tags data) [];
             provider := get (Doc.provider data) [] |})%result.

End ToolManifest.

Module ErrorRecovery.

Record t := {
  error_type : string;
  error_code : option string;
  strategy : RecoveryStrategy;
  max_retries : option Z;
  backoff_ms : option (list Z);
  wait_seconds : option Q;
  fallback_tool : option string;
  message_to_user : option string
}.

Definition from_dict (data : Doc.Rule) : result t :=
  (recovery_data <- getitem "recovery" (Doc.recovery data) ;;
   error_type <- getitem "error_type" (Doc.error_type data) ;;
   strategy_name <- getitem "strategy" (Doc.strategy recovery_data) ;;
   strategy <- RecoveryStrategy_of_value strategy_name ;;
   Return {| error_type := error_type;
             error_code := Doc.error_code data;
             strategy := strategy;
             max_retries := Doc.max_retries recovery_data;
             backoff_ms := Doc.backoff_ms recovery_data;
             wait_seconds := Doc.wait_seconds recovery_data;
             fallback_tool := Doc.fallback_tool recovery_data;
             message_to_user := Doc.message_to_user recovery_data |})%result.

End ErrorRecovery.

(* ================================================================== *)
(** ** The process an execution runs in *)

Inductive level := INFO | WARNING | ERROR.

(** What an observer of the process sees, in order: an attempt to import
    the endpoint's function (and whether it was found), an invocation of
    the resolved callable, a [time.sleep], a log record. *)
Inductive event :=
| Import (module function : string) (found : bool)
| Invoke (params : dict)
| Sleep (seconds : Q)
| Log (lvl : level) (message : string).

(** The behaviour of a Python function is not fixed by its arguments: it
    may fail now and succeed later.  A callable is given by what its n-th
    invocation in the process does on given keyword arguments. *)
Definition callable := nat -> dict -> result json.

(** The mutable part of one [Tool] instance and of its process. *)
Record state := {
  _cached_function : option callable;
  invocations : nat;
  trace : list event
}.

Definition M (A : Type) : Type := state -> result A * state.

Definition ret {A} (a : A) : M A := fun s => (Return a, s).

Definition raise {A} (e : exn) : M A := fun s => (Raise e, s).

Definition bind {A B} (c : M A) (k : A -> M B) : M B :=
  fun s =>
    match c s with
    | (Return a, s') => k a s'
    | (Raise e, s') => (Raise e, s')
    end.

Definition lift {A} (r : result A) : M A := fun s => (r, s).

(** [try: body  except <classes> as e: handler] *)
Definition try_except {A} (body : M A) (catches : exn -> bool)
    (handler : exn -> M A) : M A :=
  fun s =>
    match body s with
    | (Return a, s') => (Return a, s')
    | (Raise e, s') => if catches e then handler e s' else (Raise e, s')
    end.

Declare Scope exec_scope.
Delimit Scope exec_scope with exec.
Notation "x <- c ;; k" := (bind c (fun x => k))
  (at level 61, c at next level, right associativity) : exec_scope.
Notation "c ;; k" := (bind c (fun _ => k))
  (at level 61, right associativity) : exec_scope.

Definition emit (ev : event) : M unit :=
  fun s => (Return tt,
            {| _cached_function := _cached_function s;
               invocations := invocations s;
               trace := trace s ++ [ev] |}).

Definition log (lvl : level) (message : string) : M unit := emit (Log lvl message).

(** [time.sleep(seconds)] first converts the length to a count of
    nanoseconds in 64 bits, which raises [OverflowError] when it does
    not fit, and then refuses a negative length with [ValueError].
    The count is computed as a float and must lie in [[-2^63, 2^63)];
    the products that round to a float of that interval are those from
    [-2^63 - 1024] up to, and not including, [2^63 - 512].  (For an
    [int] length the test is that of the exact product, and no integer
    number of seconds lies between the two bounds.)
    [sleep_error] is the exception that a length meets, if any. *)
Definition sleep_in_range (seconds : Q) : bool :=
  Qle_bool (inject_Z (- 2 ^ 63 - 1024)) (seconds * inject_Z (10 ^ 9))
  && negb (Qle_bool (inject_Z (2 ^ 63 - 512)) (seconds * inject_Z (10 ^ 9))).

Definition sleep_error (seconds : Q) : option exn :=
  if negb (sleep_in_range seconds) then
    Some (OverflowError "timestamp too large to convert to C _PyTime_t")
  else if Qle_bool 0 seconds then None
  else Some (ValueError "sleep length must be non-negative").

Definition sleep (seconds : Q) : M unit :=
  match sleep_error seconds with
  | Some e => raise e
  | None => emit (Sleep seconds)
  end.

(** [a / b] on two [int]s is a [float]: it raises [OverflowError] when
    the quotient, rounded, is beyond the largest one. *)
Definition truediv (a : Z) (b : positive) : result Q :=
  if (Z.abs a <? Zpos b * (2 ^ 1024 - 2 ^ 970))%Z then Return (a # b)
  else Raise (OverflowError "integer division result too large for a float").

(** [func( **params )] *)
Definition call (func : callable) (params : dict) : M json :=
  fun s => (func (invocations s) params,
            {| _cached_function := _cached_function s;
               invocations := S (invocations s);
               trace := trace s ++ [Invoke params] |}).

Definition get_cached : M (option callable) := fun s => (Return (_cached_function s), s).

Definition set_cached (func : callable) : M unit :=
  fun s => (Return tt,
            {| _cached_function := Some func;
               invocations := invocations s;
               trace := trace s |}).

(** The object handed to the schema validator: the tool's own document,
    or a JSON value. *)
Inductive instance :=
| OfSpec (spec : Doc.Tool)
| OfValue (value : json).

(** The two names imported from [jsonschema]: [validate], which returns
    or raises, and the class caught as [JSONSchemaValidationError]. *)
Record jsonschema := {
  validate : instance -> json -> option exn;
  JSONSchemaValidationError : pyclass
}.

(** The bindings made when the import of [jsonschema] fails. *)
Definition jsonschema_missing : jsonschema :=
  {| validate := fun _ _ => None;
     JSONSchemaValidationError := Exception |}.

(** [x or default] on the optional numbers and lists of a recovery rule. *)
Definition or_int (x : option Z) (default : Z) : Z :=
  match x with
  | Some n => if (n =? 0)%Z then default else n
  | None => default
  end.

Definition or_list (x : option (list Z)) (default : list Z) : list Z :=
  match x with
  | Some [] => default
  | Some l => l
  | None => default
  end.

Definition or_float (x : option Q) (default : Q) : Q :=
  match x with
  | Some q => if Qeq_bool q 0 then default else q
  | None => default
  end.

Definition or_str (x : option string) (default : string) : string :=
  match x with
  | Some s => if s =? "" then default else s
  | None => default
  end.

(** [a == b] for an optional string against a string. *)
Definition eq_opt_str (a : option string) (b : string) : bool :=
  match a with
  | Some s => s =? b
  | None => false
  end.

(* ================================================================== *)
(** ** Files *)

(** A registry index file, [registry.json]: the keys
    [load_from_registry_file] reads. *)
Module RegistryDoc.

Record Entry := {
  id : option string;
  name : option string;
  version : option string;
  display_name : option string;
  category : option string;
  aitool_file : option string;
  status : option string
}.

Record t := {
  tools : option (list Entry);
  categories : option (list (string * list string))
}.

End RegistryDoc.

(** What [json.load] makes of a file that is there: a JSON object, seen
    through the keys that [Tool] reads and through the keys that the
    registry reads, or the exception that [open] or [json.load] raises.
    Files that hold other JSON values are not modelled. *)
Inductive file :=
| Json (spec : Doc.Tool) (registry_data : RegistryDoc.t)
| Unreadable (e : exn).

(** The file system as the SDK and the command line use it.  A path is
    its string; [read path] is [None] when [path.exists()] is false,
    [join a b] is [a / b], [parent] is [.parent], [name] is [.name],
    [glob directory pattern] lists [directory.glob(pattern)] in the
    order the scan visits it, and [writable path] is the exception that
    [open(path, 'w')] raises, if any. *)
Record files := {
  read : string -> option file;
  join : string -> string -> string;
  parent : string -> string;
  name : string -> string;
  glob : string -> string -> list string;
  writable : string -> option exn
}.

(** An object without any of the keys of a tool document, and one
    without the keys of a registry index. *)
Definition no_document : Doc.Tool :=
  {| Doc.manifest := None;
     Doc.capabilities := None;
     Doc.execution := None;
     Doc.usage_guidance := None;
     Doc.error_handling := None |}.

Definition no_index : RegistryDoc.t :=
  {| RegistryDoc.tools := None; RegistryDoc.categories := None |}.

(** A file that holds a tool document, and one that holds a registry
    index. *)
Definition ToolFile (spec : Doc.Tool) : file := Json spec no_index.

Definition RegistryFile (registry_data : RegistryDoc.t) : file :=
  Json no_document registry_data.

Definition FileNotFoundError (msg : string) : exn :=
  {| exn_name := "FileNotFoundError"; exn_bases := [Exception]; exn_str := msg |}.

(** One record of the [logging] module. *)
Definition log_record : Type := level * string.

(* ================================================================== *)
(** ** Tool *)

Module Tool.

Record t := {
  spec : Doc.Tool;
  manifest : ToolManifest.t;
  capabilities : json;
  execution : Doc.Execution;
  usage_guidance : Doc.UsageGuidance;
  error_handlers : list ErrorRecovery.t
}.

(** [Tool(spec)]; the cached callable starts out as [None], see
    [initial]. *)
Definition __init__ (spec : Doc.Tool) : result t :=
  (manifest_data <- getitem "manifest" (Doc.manifest spec) ;;
   manifest <- ToolManifest.from_dict manifest_data ;;
   capabilities <- getitem "capabilities" (Doc.capabilities spec) ;;
   execution <- getitem "execution" (Doc.execution spec) ;;
   usage_guidance <- getitem "usage_guidance" (Doc.usage_guidance spec) ;;
   error_handlers <- comprehension ErrorRecovery.from_dict
                       (get (Doc.error_handling spec) []) ;;
   Return {| spec := spec;
             manifest := manifest;
             capabilities := capabilities;
             execution := execution;
             usage_guidance := usage_guidance;
             error_handlers := error_handlers |})%result.

Definition from_dict (spec : Doc.Tool) : result t := __init__ spec.

(** The state of a freshly constructed tool in a fresh process. *)
Definition initial : state :=
  {| _cached_function := None; invocations := 0; trace := [] |}.

(** The loop of [_handle_error] that looks for the handler. *)
Fixpoint find_handler (error : exn) (handlers : list ErrorRecovery.t)
    : option ErrorRecovery.t :=
  match handlers with
  | [] => None
  | h :: rest =>
      if eq_opt_str (ErrorRecovery.error_code h) (exn_name error)
         || str_contains (ErrorRecovery.error_type h) (exn_str error)
      then Some h
      else find_handler error rest
  end.

(** The loop of [matches_trigger]. *)
Fixpoint matches_trigger_in (triggers : list Doc.Trigger) (user_query : string)
    : result bool :=
  match triggers with
  | [] => Return false
  | trigger_spec :: rest =>
      (trigger_text <- getitem "trigger" (Doc.trigger trigger_spec) ;;
       let trigger := lower trigger_text in
       let examples := map lower (get (Doc.examples trigger_spec) []) in
       if existsb (fun keyword => str_contains keyword (lower user_query))
            (split trigger)
       then Return true
       else if existsb (fun ex => str_contains ex (lower user_query)) examples
       then Return true
       else matches_trigger_in rest user_query)%result
  end.

(** [Tool.from_file(filepath)] *)
Definition from_file (fs : files) (filepath : string) : result t :=
  match read fs filepath with
  | None => Raise (FileNotFoundError ("Tool file not found: " ++ filepath))
  | Some (Unreadable e) => Raise e
  | Some (Json spec _) => __init__ spec
  end.

Definition get_description (self : t) : string :=
  or_str (ToolManifest.display_name (manifest self)) (ToolManifest.name (manifest self))
  ++ ": " ++ ToolManifest.description (manifest self).

Definition to_dict (self : t) : Doc.Tool := spec self.

Section Methods.

Variable lib : jsonschema.

(** [getattr(importlib.import_module(module), function)] *)
Variable import_function : string -> string -> result callable.

Variable self : t.

Definition run_validate (inst : instance) (schema : json) : M unit :=
  match validate lib inst schema with
  | None => ret tt
  | Some e => raise e
  end.

Definition is_JSONSchemaValidationError (e : exn) : bool :=
  isinstance e (JSONSchemaValidationError lib).

Definition validate_spec (schema : option json) : M bool :=
  match schema with
  | Some schema' =>
      if truthy schema' then
        try_except
          (run_validate (OfSpec (spec self)) schema' ;;
           log INFO ("Tool " ++ ToolManifest.name (manifest self)
                       ++ " validated successfully") ;;
           ret true)%exec
          is_JSONSchemaValidationError
          (fun e => raise (ValidationError
                             ("Invalid tool specification: " ++ exn_str e)))
      else ret true
  | None => ret true
  end.

Definition validate_input (params : dict) : M bool :=
  (param_schema <- lift (getitem "parameters" (Doc.parameters (execution self))) ;;
   try_except
     (run_validate (OfValue (JObj params)) param_schema ;;
      ret true)
     is_JSONSchemaValidationError
     (fun e => raise (ValidationError
                        ("Invalid input parameters: " ++ exn_str e))))%exec.

Definition validate_output (result : json) : M bool :=
  match Doc.returns (execution self) with
  | Some returns =>
      match Doc.success_schema returns with
      | Some success_schema =>
          try_except
            (run_validate (OfValue result) success_schema ;;
             ret true)%exec
            is_JSONSchemaValidationError
            (fun e =>
               log WARNING ("Output validation failed: " ++ exn_str e) ;;
               ret false)%exec
      | None => ret true
      end
  | None => ret true
  end.

Definition import (module_name function_name : string) : M callable :=
  fun s =>
    let r := import_function module_name function_name in
    (r,
     {| _cached_function := _cached_function s;
        invocations := invocations s;
        trace := trace s ++ [Import module_name function_name
                               match r with Return _ => true | Raise _ => false end] |}).

Definition _load_function : M callable :=
  (cached <- get_cached ;;
   match cached with
   | Some func => ret func
   | None =>
       endpoint <- lift (getitem "endpoint" (Doc.endpoint (execution self))) ;;
       endpoint_type <- lift (getitem "type" (Doc.type endpoint)) ;;
       if endpoint_type =? "python_function" then
         module_name <- lift (getitem "module" (Doc.module endpoint)) ;;
         function_name <- lift (getitem "function" (Doc.function endpoint)) ;;
         try_except
           (func <- import module_name function_name ;;
            set_cached func ;;
            ret func)
           (fun e => isinstance e ImportError || isinstance e AttributeError)
           (fun e => raise (ToolExecutionError
                              ("Could not load function " ++ module_name ++ "."
                                 ++ function_name ++ ": " ++ exn_str e)))
       else
         raise (NotImplementedError
                  ("Protocol " ++ endpoint_type ++ " not yet supported"))
   end)%exec.

(** [execute], with the call to [self._handle_error] left open: the
    handler itself calls [execute] again, always with
    [handle_errors=False], where [execute] does not reach it. *)
Definition execute_with (_handle_error : exn -> dict -> M json)
    (params : dict) (validate_input' validate_output' handle_errors : bool)
    : M json :=
  ((if validate_input' then validate_input params else ret true) ;;
   func <- _load_function ;;
   try_except
     (log INFO ("Executing tool: " ++ ToolManifest.name (manifest self)) ;;
      result <- call func params ;;
      (if validate_output' then validate_output result else ret true) ;;
      log INFO ("Tool " ++ ToolManifest.name (manifest self)
                  ++ " executed successfully") ;;
      ret result)
     (fun e => isinstance e Exception)
     (fun e => if handle_errors then _handle_error e params else raise e))%exec.

(** [self.execute(params, handle_errors=False)] *)
Definition execute_unhandled (params : dict) : M json :=
  execute_with (fun e _ => raise e) params true true false.

(** The [for attempt in range(max_retries)] loop, with [remaining]
    iterations to go; falling off its end returns [None]. *)
Fixpoint retry_attempts (params : dict) (max_retries : Z) (backoff_ms : list Z)
    (remaining : nat) (attempt : Z) : M json :=
  match remaining with
  | O => ret JNull
  | S remaining' =>
      try_except
        ((if (attempt >? 0)%Z then
            let sleep_ms :=
              nth (Z.to_nat (Z.min (attempt - 1)
                               (Z.of_nat (length backoff_ms) - 1)))
                backoff_ms 0%Z in
            log INFO ("Retry attempt " ++ str_of_int (attempt + 1) ++ "/"
                        ++ str_of_int max_retries ++ " after "
                        ++ str_of_int sleep_ms ++ "ms") ;;
            seconds <- lift (truediv sleep_ms 1000) ;;
            sleep seconds
          else ret tt) ;;
         execute_unhandled params)
        (fun e => isinstance e Exception)
        (fun e =>
           if (attempt =? max_retries - 1)%Z then
             log ERROR ("All " ++ str_of_int max_retries
                          ++ " retry attempts failed") ;;
             raise e
           else retry_attempts params max_retries backoff_ms remaining'
                  (attempt + 1))
  end%exec.

Definition _retry_with_backoff (params : dict) (handler : ErrorRecovery.t)
    : M json :=
  let max_retries := or_int (ErrorRecovery.max_retries handler) 3 in
  let backoff_ms := or_list (ErrorRecovery.backoff_ms handler)
                      [1000; 2000; 4000]%Z in
  retry_attempts params max_retries backoff_ms (Z.to_nat max_retries) 0.

Definition _handle_error (error : exn) (params : dict) : M json :=
  let error_type := exn_name error in
  match find_handler error (error_handlers self) with
  | None =>
      (log ERROR ("No error handler found for " ++ error_type) ;;
       raise error)%exec
  | Some handler =>
      (log INFO ("Handling error with strategy: "
                   ++ strategy_value (ErrorRecovery.strategy handler)) ;;
       match ErrorRecovery.strategy handler with
       | RETRY_WITH_BACKOFF => _retry_with_backoff params handler
       | WAIT_AND_RETRY =>
           match ErrorRecovery.message_to_user handler with
           | Some message => if message =? "" then ret tt else log INFO message
           | None => ret tt
           end ;;
           sleep (or_float (ErrorRecovery.wait_seconds handler) 1) ;;
           execute_unhandled params
       | PROMPT_USER =>
           log WARNING (or_str (ErrorRecovery.message_to_user handler)
                          (exn_str error)) ;;
           raise error
       | FAIL => raise error
       | _ => raise error
       end)%exec
  end.

Definition execute (params : dict)
    (validate_input' validate_output' handle_errors : bool) : M json :=
  execute_with _handle_error params validate_input' validate_output' handle_errors.

Definition matches_trigger (user_query : string) : result bool :=
  let triggers := get (Doc.when_to_use (usage_guidance self)) [] in
  matches_trigger_in triggers user_query.

End Methods.

End Tool.

(* ================================================================== *)
(** ** ToolRegistry *)

Module ToolRegistry.

(** A [dict] keeps its keys in insertion order; assigning to a key that
    is present replaces the value where it stands. *)
Fixpoint setitem {A} (key : string) (value : A) (d : list (string * A))
    : list (string * A) :=
  match d with
  | [] => [(key, value)]
  | (k, v) :: rest =>
      if k =? key then (k, value) :: rest
      else (k, v) :: setitem key value rest
  end.

Fixpoint lookup {A} (key : string) (d : list (string * A)) : option A :=
  match d with
  | [] => None
  | (k, v) :: rest => if k =? key then Some v else lookup key rest
  end.

Definition values {A} (d : list (string * A)) : list A := map snd d.

Record t := {
  tools : list (string * Tool.t);
  categories : list (string * list string)
}.

Definition __init__ : t := {| tools := []; categories := [] |}.

Definition register_tool (self : t) (tool : Tool.t) : t :=
  let tool_id := ToolManifest.id (Tool.manifest tool) in
  let tools' := setitem tool_id tool (tools self) in
  let category := ToolManifest.category (Tool.manifest tool) in
  let categories' :=
    match lookup category (categories self) with
    | None => setitem category [] (categories self)
    | Some _ => categories self
    end in
  let bucket := get (lookup category categories') [] in
  {| tools := tools';
     categories := setitem category (bucket ++ [tool_id]) categories' |}.

Definition get_tool (self : t) (tool_id : string) : option Tool.t :=
  lookup tool_id (tools self).

Definition get_tool_by_name (self : t) (name : string) : option Tool.t :=
  find (fun tool => ToolManifest.name (Tool.manifest tool) =? name)
    (values (tools self)).

(** An optional string argument that is given and not empty. *)
Definition given (x : option string) : option string :=
  match x with
  | Some s => if s =? "" then None else Some s
  | None => None
  end.

(** The body of the [for tool in self.tools.values()] loop of
    [find_tools]; [results] is the list built so far. *)
Fixpoint find_tools_loop (candidates : list Tool.t)
    (category : option string) (tags : option (list string))
    (query : option string) (results : list Tool.t) : result (list Tool.t) :=
  match candidates with
  | [] => Return results
  | tool :: rest =>
      let continue := find_tools_loop rest category tags query in
      if match given category with
         | Some c => negb (ToolManifest.category (Tool.manifest tool) =? c)
         | None => false
         end
      then continue results
      else if match tags with
              | Some (tag :: more) =>
                  negb (forallb
                          (fun tag' => list_contains tag'
                                         (ToolManifest.tags (Tool.manifest tool)))
                          (tag :: more))
              | _ => false
              end
      then continue results
      else match given query with
           | Some q =>
               (matched <- Tool.matches_trigger tool q ;;
                if negb matched then continue results
                else continue (results ++ [tool]))%result
           | None => continue (results ++ [tool])
           end
  end.

Definition find_tools (self : t) (category : option string)
    (tags : option (list string)) (query : option string)
    : result (list Tool.t) :=
  find_tools_loop (values (tools self)) category tags query [].

Definition get_categories (self : t) : list (string * nat) :=
  map (fun entry => (fst entry, length (snd entry))) (categories self).

(** One entry of [list_tools]: a dict from five keys to a string or
    [None]. *)
Definition list_tools (self : t) : list (list (string * option string)) :=
  map (fun tool =>
         [("id", Some (ToolManifest.id (Tool.manifest tool)));
          ("name", Some (ToolManifest.name (Tool.manifest tool)));
          ("display_name", ToolManifest.display_name (Tool.manifest tool));
          ("category", Some (ToolManifest.category (Tool.manifest tool)));
          ("description", Some (ToolManifest.description (Tool.manifest tool)))])
    (values (tools self)).

(** The [for tool_info in registry_data['tools']] loop of
    [load_from_registry_file]: the call raises or not, and the registry
    is what the loop made of it up to there. *)
Fixpoint load_entries (fs : files) (base_dir : string)
    (entries : list RegistryDoc.Entry) (self : t) (logged : list log_record)
    : result unit * (t * list log_record) :=
  match entries with
  | [] => (Return tt, (self, logged))
  | tool_info :: rest =>
      match getitem "status" (RegistryDoc.status tool_info) with
      | Raise e => (Raise e, (self, logged))
      | Return status =>
          if status =? "active" then
            match getitem "aitool_file" (RegistryDoc.aitool_file tool_info) with
            | Raise e => (Raise e, (self, logged))
            | Return aitool_file =>
                let tool_file := join fs base_dir aitool_file in
                match Tool.from_file fs tool_file with
                | Return tool =>
                    load_entries fs base_dir rest (register_tool self tool) logged
                | Raise e =>
                    if isinstance e Exception then
                      match getitem "name" (RegistryDoc.name tool_info) with
                      | Return name =>
                          load_entries fs base_dir rest self
                            (logged ++ [(ERROR, ("Failed to load " ++ name ++ ": "
                                                   ++ exn_str e)%string)])
                      | Raise e' => (Raise e', (self, logged))
                      end
                    else (Raise e, (self, logged))
                end
            end
          else load_entries fs base_dir rest self logged
      end
  end.

Definition load_from_registry_file (fs : files) (self : t) (filepath : string)
    : result unit * (t * list log_record) :=
  match read fs filepath with
  | None =>
      (Raise (FileNotFoundError ("[Errno 2] No such file or directory: "
                                   ++ repr filepath)), (self, []))
  | Some (Unreadable e) => (Raise e, (self, []))
  | Some (Json _ registry_data) =>
      match getitem "tools" (RegistryDoc.tools registry_data) with
      | Raise e => (Raise e, (self, []))
      | Return entries =>
          match load_entries fs (parent fs filepath) entries self [] with
          | (Return _, (self', logged)) =>
              (Return tt,
               ({| tools := tools self';
                   categories := get (RegistryDoc.categories registry_data) [] |},
                logged))
          | failed => failed
          end
      end
  end.

(** The scan of [from_directory] over the files the glob found. *)
Fixpoint scan (fs : files) (filepaths : list string) (registry : t)
    (logged : list log_record) : result t * list log_record :=
  match filepaths with
  | [] => (Return registry, logged)
  | filepath :: rest =>
      match Tool.from_file fs filepath with
      | Return tool =>
          scan fs rest (register_tool registry tool)
            (logged ++ [(INFO, ("Loaded tool: "
                                  ++ ToolManifest.name (Tool.manifest tool))%string)])
      | Raise e =>
          if isinstance e Exception then
            scan fs rest registry
              (logged ++ [(ERROR, ("Failed to load tool from " ++ filepath ++ ": "
                                     ++ exn_str e)%string)])
          else (Raise e, logged)
      end
  end.

Definition from_directory (fs : files) (directory : string)
    : result t * list log_record :=
  let registry := __init__ in
  let registry_file := join fs directory "registry.json" in
  match read fs registry_file with
  | Some _ =>
      match load_from_registry_file fs registry registry_file with
      | (Return _, (registry', logged)) => (Return registry', logged)
      | (Raise e, (_, logged)) => (Raise e, logged)
      end
  | None => scan fs (glob fs directory "**/*.aitool.json") registry []
  end.

End ToolRegistry.

(* ================================================================== *)
(** ** The command line *)

(** [load_tool] and [load_registry], the functions of the SDK that the
    commands call. *)
Definition load_tool (fs : files) (filepath : string) : result Tool.t :=
  Tool.from_file fs filepath.

Definition load_registry (fs : files) (directory : string)
    : result ToolRegistry.t * list log_record :=
  ToolRegistry.from_directory fs directory.

(** [s.replace(old, new)] for one character. *)
Fixpoint replace (old new : ascii) (s : string) : string :=
  match s with
  | EmptyString => EmptyString
  | String c rest =>
      String (if Ascii.eqb c old then new else c) (replace old new rest)
  end.

(** [c.islower()] and the [str.upper] conversion of one character, on
    ASCII. *)
Definition islower (c : ascii) : bool :=
  let n := nat_of_ascii c in (97 <=? n)%nat && (n <=? 122)%nat.

Definition isupper (c : ascii) : bool :=
  let n := nat_of_ascii c in (65 <=? n)%nat && (n <=? 90)%nat.

Definition upper_ascii (c : ascii) : ascii :=
  if islower c then ascii_of_nat (nat_of_ascii c - 32) else c.

(** [s.title()]: a letter that follows a letter is put in lower case,
    every other letter in upper case. *)
Fixpoint title_from (previous_is_cased : bool) (s : string) : string :=
  match s with
  | EmptyString => EmptyString
  | String c rest =>
      if islower c then
        String (if previous_is_cased then c else upper_ascii c) (title_from true rest)
      else if isupper c then
        String (if previous_is_cased then lower_ascii c else c) (title_from true rest)
      else String c (title_from false rest)
  end.

Definition title (s : string) : string := title_from false s.

(** The line feed of ["...\n"]. *)
Definition newline : string := String (ascii_of_nat 10) EmptyString.

Module Cli.

(** What a command leaves behind besides its exit status: the records
    it logged, the lines it printed and the files it wrote. *)
Record effects := {
  logged : list log_record;
  printed : list string;
  written : list (string * file)
}.

(** The document that [init] writes, through the keys that [Tool]
    reads. *)
Definition template (name category : string) : Doc.Tool :=
  {| Doc.manifest :=
       Some {| Doc.id := Some ("com.company." ++ replace "_" "-" name)%string;
               Doc.name := Some name;
               Doc.version := Some "0.1.0";
               Doc.display_name := Some (title (replace "_" " " name));
               Doc.description := Some "Description of what this tool does";
               Doc.category := Some category;
               Doc.tags := Some [];
               Doc.provider := Some [("name", "Your Company");
                                     ("contact", "tools@company.com")] |};
     Doc.capabilities :=
       Some (JObj [("primary_function", JStr "describe_primary_function");
                   ("supported_operations", JArr []);
                   ("idempotent", JBool true);
                   ("stateful", JBool false);
                   ("requires_auth", JBool false)]);
     Doc.execution :=
       Some {| Doc.endpoint :=
                 Some {| Doc.type := Some "python_function";
                         Doc.module := Some "your.module";
                         Doc.function := Some name |};
               Doc.parameters :=
                 Some (JObj [("type", JStr "object");
                             ("required", JArr []);
                             ("properties", JObj [])]);
               Doc.returns :=
                 Some {| Doc.success_schema :=
                           Some (JObj [("type", JStr "object");
                                       ("properties", JObj [])]) |} |};
     Doc.usage_guidance :=
       Some {| Doc.when_to_use :=
                 Some [ {| Doc.trigger := Some "Describe when to use this tool";
                           Doc.examples := Some [] |} ] |};
     Doc.error_handling := Some [] |}.

Definition cmd_init (fs : files) (name output category : string)
    : result Z * effects :=
  let output_path := output in
  match writable fs output_path with
  | Some e => (Raise e, {| logged := []; printed := []; written := [] |})
  | None =>
      (Return 0%Z,
       {| logged :=
            [(INFO, ("✓ Created template: " ++ output_path)%string);
             (INFO, "  Edit the file to complete the tool specification")];
          printed := [];
          written := [(output_path, ToolFile (template name category))] |})
  end.

(** [tool_info[key]], [tool_info.get(key, default)] and the text of a
    value in an f-string. *)
Definition item (key : string) (tool_info : list (string * option string))
    : result (option string) :=
  match ToolRegistry.lookup key tool_info with
  | Some value => Return value
  | None => Raise (KeyError key)
  end.

Definition item_or (key : string) (default : option string)
    (tool_info : list (string * option string)) : option string :=
  get (ToolRegistry.lookup key tool_info) default.

Definition format (value : option string) : string :=
  match value with
  | Some text => text
  | None => "None"
  end.

Definition TypeError (msg : string) : exn :=
  {| exn_name := "TypeError"; exn_bases := [Exception]; exn_str := msg |}.

(** The [for tool_info in tools] loop of [cmd_list]; [lines] is what has
    been printed so far. *)
Fixpoint print_tools (tools : list (list (string * option string)))
    (lines : list string) : result unit * list string :=
  match tools with
  | [] => (Return tt, lines)
  | tool_info :: rest =>
      match item "name" tool_info with
      | Raise e => (Raise e, lines)
      | Return name =>
          let lines1 :=
            lines ++ [("  " ++ format name ++ " (v"
                         ++ format (item_or "version" (Some "unknown") tool_info)
                         ++ ")")%string] in
          match item "category" tool_info with
          | Raise e => (Raise e, lines1)
          | Return category =>
              let lines2 := lines1 ++ [("    Category: " ++ format category)%string] in
              match item "description" tool_info with
              | Raise e => (Raise e, lines2)
              | Return None =>
                  (Raise (TypeError "'NoneType' object is not subscriptable"),
                   lines2)
              | Return (Some description) =>
                  print_tools rest
                    (lines2 ++ [("    " ++ substring 0 80 description ++ "...")%string; ""])
              end
          end
      end
  end.

Definition cmd_list (fs : files) (directory : string) : result Z * effects :=
  let failed (e : exn) (records : list log_record) (lines : list string) :=
    if isinstance e Exception then
      (Return 1%Z,
       {| logged := records ++ [(ERROR, ("Failed to list tools: " ++ exn_str e)%string)];
          printed := lines;
          written := [] |})
    else (Raise e, {| logged := records; printed := lines; written := [] |}) in
  match load_registry fs directory with
  | (Raise e, records) => failed e records []
  | (Return registry, records) =>
      let tools := ToolRegistry.list_tools registry in
      match tools with
      | [] =>
          (Return 0%Z,
           {| logged := records ++ [(INFO, "No tools found")];
              printed := [];
              written := [] |})
      | _ =>
          let records' :=
            records ++ [(INFO, ("Found " ++ str_of_int (Z.of_nat (length tools))
                                  ++ " tools:" ++ newline)%string)] in
          match print_tools tools [] with
          | (Return _, lines) =>
              (Return 0%Z,
               {| logged := records'; printed := lines; written := [] |})
          | (Raise e, lines) => failed e records' lines
          end
      end
  end.

(** The entry that [registry update] writes for a tool. *)
Definition entry_of (fs : files) (tool_file : string) (tool : Tool.t)
    : RegistryDoc.Entry :=
  {| RegistryDoc.id := Some (ToolManifest.id (Tool.manifest tool));
     RegistryDoc.name := Some (ToolManifest.name (Tool.manifest tool));
     RegistryDoc.version := Some (ToolManifest.version (Tool.manifest tool));
     RegistryDoc.display_name := ToolManifest.display_name (Tool.manifest tool);
     RegistryDoc.category := Some (ToolManifest.category (Tool.manifest tool));
     RegistryDoc.aitool_file := Some ("./" ++ name fs tool_file)%string;
     RegistryDoc.status := Some "active" |}.

(** The [for tool_file in tool_files] loop of [registry update]. *)
Fixpoint collect (fs : files) (tool_files : list string)
    (entries : list RegistryDoc.Entry) (records : list log_record)
    : result (list RegistryDoc.Entry) * list log_record :=
  match tool_files with
  | [] => (Return entries, records)
  | tool_file :: rest =>
      match load_tool fs tool_file with
      | Return tool =>
          collect fs rest (entries ++ [entry_of fs tool_file tool]) records
      | Raise e =>
          if isinstance e Exception then
            collect fs rest entries
              (records ++ [(WARNING, ("Skipped " ++ name fs tool_file ++ ": "
                                        ++ exn_str e)%string)])
          else (Raise e, records)
      end
  end.

(** [registry create] and [registry update]; without a subcommand the
    function falls off its end and returns [None]. *)
Definition cmd_registry (fs : files) (registry_command : option string)
    (output directory : string) : result (option Z) * effects :=
  let nothing := {| logged := []; printed := []; written := [] |} in
  if eq_opt_str registry_command "create" then
    let registry_data :=
      Json no_document
        {| RegistryDoc.tools := Some []; RegistryDoc.categories := Some [] |} in
    match writable fs output with
    | Some e => (Raise e, nothing)
    | None =>
        (Return (Some 0%Z),
         {| logged := [(INFO, ("✓ Created registry: " ++ output)%string)];
            printed := [];
            written := [(output, registry_data)] |})
    end
  else if eq_opt_str registry_command "update" then
    let registry_file := join fs directory "registry.json" in
    match
      match read fs registry_file with
      | Some (Json spec registry_data) => Return (spec, registry_data)
      | Some (Unreadable e) => Raise e
      | None =>
          Return (no_document,
                  {| RegistryDoc.tools := Some [];
                     RegistryDoc.categories := Some [] |})
      end
    with
    | Raise e => (Raise e, nothing)
    | Return (spec, registry_data) =>
        let tool_files := glob fs directory "*.aitool.json" in
        let records :=
          [(INFO, ("Found " ++ str_of_int (Z.of_nat (length tool_files))
                     ++ " tool files")%string)] in
        match collect fs tool_files [] records with
        | (Raise e, records') =>
            (Raise e, {| logged := records'; printed := []; written := [] |})
        | (Return entries, records') =>
            match writable fs registry_file with
            | Some e =>
                (Raise e, {| logged := records'; printed := []; written := [] |})
            | None =>
                (Return (Some 0%Z),
                 {| logged :=
                      records' ++ [(INFO, ("✓ Updated registry with "
                                             ++ str_of_int (Z.of_nat (length entries))
                                             ++ " tools")%string)];
                    printed := [];
                    written :=
                      [(registry_file,
                        Json spec
                          {| RegistryDoc.tools := Some entries;
                             RegistryDoc.categories :=
                               RegistryDoc.categories registry_data |})] |})
            end
        end
    end
  else (Return None, nothing).

End Cli.

(* ================================================================== *)
(** ** Observations on a run *)

(** The lengths of the sleeps in a trace, in order. *)
Fixpoint delays (tr : list event) : list Q :=
  match tr with
  | [] => []
  | Sleep seconds :: rest => seconds :: delays rest
  | _ :: rest => delays rest
  end.

(** The number of invocations of the callable in a trace. *)
Fixpoint call_count (tr : list event) : nat :=
  match tr with
  | [] => 0
  | Invoke _ :: rest => S (call_count rest)
  | _ :: rest => call_count rest
  end.

(** The number of import attempts in a trace, and of those that found
    the function (each of which is followed by the one assignment to
    [self._cached_function]). *)
Fixpoint import_count (tr : list event) : nat :=
  match tr with
  | [] => 0
  | Import _ _ _ :: rest => S (import_count rest)
  | _ :: rest => import_count rest
  end.

Fixpoint cache_writes (tr : list event) : nat :=
  match tr with
  | [] => 0
  | Import _ _ true :: rest => S (cache_writes rest)
  | _ :: rest => cache_writes rest
  end.

(** The warnings logged in a trace. *)
Fixpoint warnings (tr : list event) : list string :=
  match tr with
  | [] => []
  | Log WARNING message :: rest => message :: warnings rest
  | _ :: rest => warnings rest
  end.

(** The events a run from [before] to [after] added. *)
Definition new_events (before after : state) : list event :=
  skipn (length (trace before)) (trace after).


(** A length in seconds that [time.sleep] accepts: not negative, and
    within the 64 bits of nanoseconds.  And a delay in milliseconds
    whose length it accepts: 9223372036854 ms is the longest. *)
Definition sleepable (seconds : Q) : Prop := sleep_error seconds = None.


(** The delay before the attempt of index [attemptIndex] (from 0):
    [backoff_ms[min(attemptIndex - 1, len(backoff_ms) - 1)]]. *)
Definition backoff_before (backoff_ms : list Z) (attemptIndex : nat) : Z :=
  nth (Nat.min (attemptIndex - 1) (length backoff_ms - 1)) backoff_ms 0%Z.


(* ================================================================== *)
(** ** Vocabulary of the statements *)

Definition add_events (s : state) (evs : list event) : state :=
  {| _cached_function := _cached_function s;
     invocations := invocations s;
     trace := trace s ++ evs |}.

Definition invoked (s : state) (params : dict) : state :=
  {| _cached_function := _cached_function s;
     invocations := S (invocations s);
     trace := trace s ++ [Invoke params] |}.

(** The cache discipline of a run from [s] to [s'] that added [extra]: a
    cached callable stays and nothing is imported; without one, the
    cache is written exactly when the run ends with one. *)
Definition cache_kept (s s' : state) (extra : list event) : Prop :=
  match _cached_function s with
  | Some func => _cached_function s' = Some func /\ import_count extra = 0%nat
  | None =>
      cache_writes extra =
        match _cached_function s' with Some _ => 1%nat | None => 0%nat end
  end.

(** A computation that only appends to the trace and keeps the cache
    discipline, from every state. *)
Definition disciplined {A} (c : M A) : Prop :=
  forall s, exists extra,
    trace (snd (c s)) = trace s ++ extra /\ cache_kept s (snd (c s)) extra.

(** A computation that never sleeps and invokes the callable at most
    [calls] times. *)
Definition quiet {A} (calls : nat) (c : M A) : Prop :=
  forall s, exists extra,
    trace (snd (c s)) = trace s ++ extra /\
    delays extra = [] /\ (call_count extra <= calls)%nat.

(** The run from [s] to [s'] added [extra] to the trace, invoked the
    callable as often as [extra] says, and left the cache alone. *)
Definition step (s s' : state) (extra : list event) : Prop :=
  _cached_function s' = _cached_function s /\
  invocations s' = (invocations s + call_count extra)%nat /\
  trace s' = trace s ++ extra.


Definition retries (handler : ErrorRecovery.t) : Z :=
  or_int (ErrorRecovery.max_retries handler) 3.

Definition backoff (handler : ErrorRecovery.t) : list Z :=
  or_list (ErrorRecovery.backoff_ms handler) [1000; 2000; 4000]%Z.

(** [needle] occurs in [haystack] as a contiguous run. *)
Definition occurs_in (needle haystack : string) : Prop :=
  exists before after, haystack = (before ++ needle ++ after)%string.

(** A rule matches a failure when its [error_code] is the failure's type
    name or its [error_type] occurs in the failure's message. *)
Definition rule_matches (h : ErrorRecovery.t) (error : exn) : Prop :=
  ErrorRecovery.error_code h = Some (exn_name error) \/
  occurs_in (ErrorRecovery.error_type h) (exn_str error).


(** A document with its [execution] section replaced. *)
Definition with_execution (spec : Doc.Tool) (execution : Doc.Execution) : Doc.Tool :=
  {| Doc.manifest := Doc.manifest spec;
     Doc.capabilities := Doc.capabilities spec;
     Doc.execution := Some execution;
     Doc.usage_guidance := Doc.usage_guidance spec;
     Doc.error_handling := Doc.error_handling spec |}.

(** One call of [execute]: its parameters and its three flags. *)
Record call_args := {
  args_params : dict;
  args_validate_input : bool;
  args_validate_output : bool;
  args_handle_errors : bool
}.

(** The state of a tool after a sequence of calls of [execute], whatever
    each of them returned or raised. *)
Fixpoint run_all (lib : jsonschema)
    (import_function : string -> string -> result callable) (self : Tool.t)
    (calls : list call_args) (s : state) : state :=
  match calls with
  | [] => s
  | c :: rest =>
      run_all lib import_function self rest
        (snd (Tool.execute lib import_function self (args_params c)
                (args_validate_input c) (args_validate_output c)
                (args_handle_errors c) s))
  end.

(** A document lacks one of its four required sections. *)
Definition missing_section (spec : Doc.Tool) : Prop :=
  Doc.manifest spec = None \/ Doc.capabilities spec = None \/
  Doc.execution spec = None \/ Doc.usage_guidance spec = None.

(** A strategy value that is none of the enumeration's. *)
Definition unrecognized (value : string) : Prop :=
  forall strategy, strategy_value strategy <> value.

(** Some rule of the document's [error_handling] names an unrecognized
    strategy. *)
Definition has_unrecognized_strategy (spec : Doc.Tool) : Prop :=
  exists rule recovery value,
    In rule (get (Doc.error_handling spec) []) /\
    Doc.recovery rule = Some recovery /\
    Doc.strategy recovery = Some value /\
    unrecognized value.

(** No whitespace in a string. *)
Fixpoint no_space (s : string) : bool :=
  match s with
  | EmptyString => true
  | String c rest => negb (isspace c) && no_space rest
  end.

(** A string is empty or ends, respectively starts, with whitespace. *)
Fixpoint ends_at_space (s : string) : bool :=
  match s with
  | EmptyString => true
  | String c EmptyString => isspace c
  | String _ rest => ends_at_space rest
  end.

Definition starts_at_space (s : string) : bool :=
  match s with
  | EmptyString => true
  | String c _ => isspace c
  end.

(** [w] is a whitespace-delimited word of [s]: a non-empty run without
    whitespace, with the start of [s] or whitespace before it and the end
    of [s] or whitespace after it. *)
Definition word_of (w s : string) : Prop :=
  w <> "" /\ no_space w = true /\
  exists before after,
    s = (before ++ w ++ after)%string /\
    ends_at_space before = true /\ starts_at_space after = true.

(** The trigger heuristic, in the specification's words: some word of
    the trigger phrase, or some example phrase, occurs in the query, all
    in lower case. *)
Definition trigger_matches (trigger_spec : Doc.Trigger) (query : string) : Prop :=
  (exists trigger w,
     Doc.trigger trigger_spec = Some trigger /\
     word_of w (lower trigger) /\ occurs_in w (lower query)) \/
  (exists ex,
     In ex (get (Doc.examples trigger_spec) []) /\
     occurs_in (lower ex) (lower query)).



(** Every entry of [when_to_use] has its [trigger]. *)
Definition triggers_declared (tool : Tool.t) : Prop :=
  forall trigger_spec,
    In trigger_spec (get (Doc.when_to_use (Tool.usage_guidance tool)) []) ->
    Doc.trigger trigger_spec <> None.

(** The trigger phrases and the example phrases of a tool are ASCII. *)
Definition ascii_guidance (tool : Tool.t) : Prop :=
  forall trigger_spec,
    In trigger_spec (get (Doc.when_to_use (Tool.usage_guidance tool)) []) ->
    (forall trigger, Doc.trigger trigger_spec = Some trigger -> isascii trigger = true) /\
    (forall ex, In ex (get (Doc.examples trigger_spec) []) -> isascii ex = true).

(** The tools of a registry, in the order [find_tools] visits them. *)
Definition registered (registry : ToolRegistry.t) : list Tool.t :=
  ToolRegistry.values (ToolRegistry.tools registry).

(** The registry after registering [tools] one after the other. *)
Definition registry_of (tools : list Tool.t) : ToolRegistry.t :=
  fold_left ToolRegistry.register_tool tools ToolRegistry.__init__.

(** The failures of construction are [KeyError]s and [ValueError]s. *)
Definition construction_error (e : exn) : Prop :=
  (exists key, e = KeyError key) \/ (exists msg, e = ValueError msg).

(** Whether [find_tools] keeps a tool: the three tests of its loop. *)
Definition keeps (category : option string) (tags : option (list string))
    (query : option string) (tool : Tool.t) : bool :=
  match ToolRegistry.given category with
  | Some c => ToolManifest.category (Tool.manifest tool) =? c
  | None => true
  end
  && match tags with
     | Some requested =>
         forallb (fun tag => list_contains tag (ToolManifest.tags (Tool.manifest tool)))
           requested
     | None => true
     end
  && match ToolRegistry.given query with
     | Some q =>
         match Tool.matches_trigger tool q with
         | Return matched => matched
         | Raise _ => false
         end
     | None => true
     end.

(* ================================================================== *)
(** ** Sample tools *)

Module Sample.

(** An exception class of the callee's own, derived from [Exception]. *)
Definition ConnectionError (msg : string) : exn :=
  {| exn_name := "ConnectionError"; exn_bases := [Exception]; exn_str := msg |}.

(** A callable that fails on its first [failures] invocations and
    returns ["ok"] from then on. *)
Definition flaky (failures : nat) : callable :=
  fun n _ =>
    if (n <? failures)%nat then Raise (ConnectionError "connection reset")
    else Return (JStr "ok").

Definition manifest : Doc.Manifest :=
  {| Doc.id := Some "com.example.search";
     Doc.name := Some "search_database";
     Doc.version := Some "1.0.0";
     Doc.display_name := None;
     Doc.description := Some "Search the product database";
     Doc.category := Some "data";
     Doc.tags := Some ["search"; "database"];
     Doc.provider := None |}.

Definition endpoint (type : string) : Doc.Endpoint :=
  {| Doc.type := Some type;
     Doc.module := Some "shop.search";
     Doc.function := Some "search_database" |}.

Definition execution (type : string) : Doc.Execution :=
  {| Doc.endpoint := Some (endpoint type);
     Doc.parameters := Some (JObj [("type", JStr "object")]);
     Doc.returns := Some {| Doc.success_schema := Some (JObj [("type", JStr "string")]) |} |}.

Definition usage_guidance : Doc.UsageGuidance :=
  {| Doc.when_to_use :=
       Some [ {| Doc.trigger := Some "Search Products";
                 Doc.examples := Some ["Find red shirts"] |} ] |}.

Definition rule (code strategy : string) (max_retries : option Z)
    (backoff_ms : option (list Z)) (wait_seconds : option Q) : Doc.Rule :=
  {| Doc.error_type := Some "timed out";
     Doc.error_code := Some code;
     Doc.recovery :=
       Some {| Doc.strategy := Some strategy;
               Doc.max_retries := max_retries;
               Doc.backoff_ms := backoff_ms;
               Doc.wait_seconds := wait_seconds;
               Doc.fallback_tool := None;
               Doc.message_to_user := None |} |}.

Definition document (type : string) (rules : list Doc.Rule) : Doc.Tool :=
  {| Doc.manifest := Some manifest;
     Doc.capabilities := Some (JObj [("idempotent", JBool true)]);
     Doc.execution := Some (execution type);
     Doc.usage_guidance := Some usage_guidance;
     Doc.error_handling := Some rules |}.

(** The tool a document constructs; documents that do not construct
    one are not used below. *)
Definition tool_of (spec : Doc.Tool) : Tool.t :=
  match Tool.__init__ spec with
  | Return tool => tool
  | Raise _ =>
      {| Tool.spec := spec;
         Tool.manifest :=
           {| ToolManifest.id := ""; ToolManifest.name := "";
              ToolManifest.version := ""; ToolManifest.display_name := None;
              ToolManifest.description := ""; ToolManifest.category := "";
              ToolManifest.tags := []; ToolManifest.provider := [] |};
         Tool.capabilities := JNull;
         Tool.execution :=
           {| Doc.endpoint := None; Doc.parameters := None; Doc.returns := None |};
         Tool.usage_guidance := {| Doc.when_to_use := None |};
         Tool.error_handlers := [] |}
  end.

Definition backoff_tool : Tool.t :=
  tool_of (document "python_function"
             [rule "ConnectionError" "retry_with_backoff"
                (Some 3%Z) (Some [100; 200]%Z) None]).


(** A validator that accepts everything, with [jsonschema] installed. *)
Definition accepting : jsonschema :=
  {| validate := fun _ _ => None;
     JSONSchemaValidationError := JsonschemaValidationError |}.

Definition SchemaMismatch (msg : string) : exn :=
  {| exn_name := "ValidationError";
     exn_bases := [Exception; JsonschemaValidationError];
     exn_str := msg |}.

(** A validator that wants the instance to be a string where the schema
    says [{"type": "string"}] and a dict where it says
    [{"type": "object"}]. *)
Definition typed : jsonschema :=
  {| validate := fun inst schema =>
       match schema, inst with
       | JObj [("type", JStr "string")], OfValue (JStr _) => None
       | JObj [("type", JStr "string")], _ =>
           Some (SchemaMismatch "instance is not of type 'string'")
       | JObj [("type", JStr "object")], OfValue (JObj _) => None
       | JObj [("type", JStr "object")], OfSpec _ => None
       | JObj [("type", JStr "object")], _ =>
           Some (SchemaMismatch "instance is not of type 'object'")
       | JObj [("required", JArr [JStr key])], OfValue (JObj members) =>
           if existsb (fun kv => fst kv =? key) members then None
           else Some (SchemaMismatch (repr key ++ " is a required property"))
       | _, _ => None
       end;
     JSONSchemaValidationError := JsonschemaValidationError |}.

(** A process in which the endpoint's function is [func]. *)
Definition importing (func : callable) : string -> string -> result callable :=
  fun module_name function_name =>
    if (module_name =? "shop.search") && (function_name =? "search_database")
    then Return func
    else Raise {| exn_name := "ModuleNotFoundError";
                  exn_bases := [Exception; ImportError];
                  exn_str := "No module named " ++ repr module_name |}.

(** The rule of [backoff_tool], as constructed. *)
Definition backoff_handler : ErrorRecovery.t :=
  {| ErrorRecovery.error_type := "timed out";
     ErrorRecovery.error_code := Some "ConnectionError";
     ErrorRecovery.strategy := RETRY_WITH_BACKOFF;
     ErrorRecovery.max_retries := Some 3%Z;
     ErrorRecovery.backoff_ms := Some [100; 200]%Z;
     ErrorRecovery.wait_seconds := None;
     ErrorRecovery.fallback_tool := None;
     ErrorRecovery.message_to_user := None |}.

(** The state of a fresh tool once its first [execute] has resolved
    [func]. *)
Definition resolved (func : callable) : state :=
  {| _cached_function := Some func;
     invocations := 0;
     trace := [Import "shop.search" "search_database" true] |}.






(** A tool without recovery rules, and one whose endpoint is not a
    Python function. *)
Definition plain_tool : Tool.t := tool_of (document "python_function" []).

Definition http_tool : Tool.t := tool_of (document "http" []).

(** A tool whose parameter schema requires the key [query]. *)
Definition strict_tool : Tool.t :=
  tool_of {| Doc.manifest := Some manifest;
             Doc.capabilities := Some (JObj []);
             Doc.execution :=
               Some {| Doc.endpoint := Some (endpoint "python_function");
                       Doc.parameters := Some (JObj [("required", JArr [JStr "query"])]);
                       Doc.returns := None |};
             Doc.usage_guidance := Some usage_guidance;
             Doc.error_handling :=
               Some [rule "ValidationError" "retry_with_backoff" None None None] |}.

(** A callable that always returns [value]. *)
Definition constant (value : json) : callable := fun _ _ => Return value.

(** A document with no section at all, and one that spells a strategy
    with hyphens. *)
Definition empty_document : Doc.Tool :=
  {| Doc.manifest := None;
     Doc.capabilities := None;
     Doc.execution := None;
     Doc.usage_guidance := None;
     Doc.error_handling := None |}.

Definition hyphenated_document : Doc.Tool :=
  document "python_function"
    [rule "ConnectionError" "retry-with-backoff" (Some 3%Z) (Some [100; 200]%Z) None].

(** A second tool of the category [data], and a tool of another
    category. *)
Definition weather_tool : Tool.t :=
  tool_of {| Doc.manifest :=
               Some {| Doc.id := Some "com.example.weather";
                       Doc.name := Some "get_weather";
                       Doc.version := Some "2.1.0";
                       Doc.display_name := Some "Weather";
                       Doc.description := None;
                       Doc.category := Some "data";
                       Doc.tags := Some ["weather"; "search"];
                       Doc.provider := None |};
             Doc.capabilities := Some (JObj []);
             Doc.execution := Some (execution "python_function");
             Doc.usage_guidance :=
               Some {| Doc.when_to_use :=
                         Some [ {| Doc.trigger := Some "Weather forecast";
                                   Doc.examples := None |} ] |};
             Doc.error_handling := None |}.

Definition mail_tool : Tool.t :=
  tool_of {| Doc.manifest :=
               Some {| Doc.id := Some "com.example.mail";
                       Doc.name := Some "send_mail";
                       Doc.version := Some "0.3.0";
                       Doc.display_name := None;
                       Doc.description := None;
                       Doc.category := Some "communication";
                       Doc.tags := None;
                       Doc.provider := None |};
             Doc.capabilities := Some (JObj []);
             Doc.execution := Some (execution "python_function");
             Doc.usage_guidance := Some {| Doc.when_to_use := None |};
             Doc.error_handling := None |}.

Definition registry : ToolRegistry.t :=
  registry_of [plain_tool; mail_tool; weather_tool].

(** A rule whose [max_retries] is negative. *)
Definition negative_retries_tool : Tool.t :=
  tool_of (document "python_function"
             [rule "ConnectionError" "retry_with_backoff" (Some (-1)%Z) None None]).

End Sample.

(* ================================================================== *)
(** ** Vocabulary of further statements *)

(** A document that constructs a tool: its four sections are there, the
    manifest has its four required keys, and every rule has its
    [recovery], its [error_type] and a recognized [strategy]. *)
Definition rule_well_formed (rule : Doc.Rule) : Prop :=
  Doc.error_type rule <> None /\
  exists recovery value strategy,
    Doc.recovery rule = Some recovery /\
    Doc.strategy recovery = Some value /\
    strategy_value strategy = value.

Definition manifest_well_formed (data : Doc.Manifest) : Prop :=
  Doc.id data <> None /\ Doc.name data <> None /\
  Doc.version data <> None /\ Doc.category data <> None.

Definition document_well_formed (spec : Doc.Tool) : Prop :=
  (exists data, Doc.manifest spec = Some data /\ manifest_well_formed data) /\
  Doc.capabilities spec <> None /\
  Doc.execution spec <> None /\
  Doc.usage_guidance spec <> None /\
  forall rule, In rule (get (Doc.error_handling spec) []) -> rule_well_formed rule.

(** The strategies that retry, and the most retries a rule allows. *)
Definition retrying (strategy : RecoveryStrategy) : bool :=
  match strategy with
  | RETRY_WITH_BACKOFF | WAIT_AND_RETRY => true
  | _ => false
  end.

Definition rule_budget (handler : ErrorRecovery.t) : nat :=
  match ErrorRecovery.strategy handler with
  | RETRY_WITH_BACKOFF => Z.to_nat (retries handler)
  | WAIT_AND_RETRY => 1
  | _ => 0
  end.

Definition retry_budget (self : Tool.t) : nat :=
  list_max (map rule_budget (Tool.error_handlers self)).

(** A computation that invokes the callable at most [calls] times and
    sleeps at most [sleeps] times, from every state. *)
Definition bounded {A} (calls sleeps : nat) (c : M A) : Prop :=
  forall s, exists extra,
    trace (snd (c s)) = trace s ++ extra /\
    (call_count extra <= calls)%nat /\
    (length (delays extra) <= sleeps)%nat.

(** The id, the name and the category of a tool. *)
Definition id_of (tool : Tool.t) : string := ToolManifest.id (Tool.manifest tool).
Definition name_of (tool : Tool.t) : string := ToolManifest.name (Tool.manifest tool).
Definition category_of (tool : Tool.t) : string :=
  ToolManifest.category (Tool.manifest tool).

(** The registrations of a category, in order. *)
Definition registrations_under (category : string) (tools : list Tool.t)
    : list Tool.t :=
  filter (fun tool => category_of tool =? category) tools.

(** The tools that the files at [filepaths] construct, in order. *)
Fixpoint constructed (fs : files) (filepaths : list string) : list Tool.t :=
  match filepaths with
  | [] => []
  | filepath :: rest =>
      match Tool.from_file fs filepath with
      | Return tool => tool :: constructed fs rest
      | Raise _ => constructed fs rest
      end
  end.

(** Every failure of loading a file at [filepaths] is an [Exception]. *)
Definition failures_are_exceptions (fs : files) (filepaths : list string) : Prop :=
  forall filepath e,
    In filepath filepaths -> Tool.from_file fs filepath = Raise e ->
    isinstance e Exception = true.

(** The files of the active entries of a registry index. *)
Fixpoint active_files (fs : files) (base_dir : string)
    (entries : list RegistryDoc.Entry) : list string :=
  match entries with
  | [] => []
  | entry :: rest =>
      match RegistryDoc.status entry, RegistryDoc.aitool_file entry with
      | Some status, Some aitool_file =>
          if status =? "active"
          then join fs base_dir aitool_file :: active_files fs base_dir rest
          else active_files fs base_dir rest
      | _, _ => active_files fs base_dir rest
      end
  end.

(** An entry the loop gets through without a [KeyError]: it has its
    [status] and, when it is active, its [aitool_file] and its [name]. *)
Definition entry_complete (entry : RegistryDoc.Entry) : Prop :=
  exists status,
    RegistryDoc.status entry = Some status /\
    (status = "active" ->
     RegistryDoc.aitool_file entry <> None /\ RegistryDoc.name entry <> None).

(** The exception that a delay of [d] milliseconds meets in the retry
    loop, in the division by 1000 or in [time.sleep], if any. *)
Definition delay_error (d : Z) : option exn :=
  match truediv d 1000 with
  | Raise e => Some e
  | Return seconds => sleep_error seconds
  end.



(** The four lines that [list] prints for a tool. *)
Definition listing (tool : Tool.t) : list string :=
  [("  " ++ name_of tool ++ " (vunknown)")%string;
   ("    Category: " ++ category_of tool)%string;
   ("    " ++ substring 0 80 (ToolManifest.description (Tool.manifest tool))
      ++ "...")%string;
   ""].

(** [fs'] is [fs] once [content] has been written to [path]: the file
    reads back, the other files and the paths are as before. *)
Definition after_write (fs : files) (path : string) (content : file)
    (fs' : files) : Prop :=
  read fs' path = Some content /\
  (forall other, other <> path -> read fs' other = read fs other) /\
  (forall a b, join fs' a b = join fs a b) /\
  (forall p, parent fs' p = parent fs p).

(* ================================================================== *)
(** ** Further sample tools and files *)

Module Case.

(** A rule for [ConnectionError] with a message for the user. *)
Definition rule (strategy : string) (max_retries : option Z)
    (backoff_ms : option (list Z)) (wait_seconds : option Q)
    (message_to_user : option string) : Doc.Rule :=
  {| Doc.error_type := Some "timed out";
     Doc.error_code := Some "ConnectionError";
     Doc.recovery :=
       Some {| Doc.strategy := Some strategy;
               Doc.max_retries := max_retries;
               Doc.backoff_ms := backoff_ms;
               Doc.wait_seconds := wait_seconds;
               Doc.fallback_tool := None;
               Doc.message_to_user := message_to_user |} |}.

(** The handler that [rule] constructs. *)
Definition handler (strategy : RecoveryStrategy) (max_retries : option Z)
    (backoff_ms : option (list Z)) (wait_seconds : option Q)
    (message_to_user : option string) : ErrorRecovery.t :=
  {| ErrorRecovery.error_type := "timed out";
     ErrorRecovery.error_code := Some "ConnectionError";
     ErrorRecovery.strategy := strategy;
     ErrorRecovery.max_retries := max_retries;
     ErrorRecovery.backoff_ms := backoff_ms;
     ErrorRecovery.wait_seconds := wait_seconds;
     ErrorRecovery.fallback_tool := None;
     ErrorRecovery.message_to_user := message_to_user |}.

Definition prompt_tool : Tool.t :=
  Sample.tool_of
    (Sample.document "python_function"
       [rule "prompt_user" None None None (Some "Please check the connection")]).


Definition negative_backoff_tool : Tool.t :=
  Sample.tool_of
    (Sample.document "python_function"
       [rule "retry_with_backoff" (Some 3%Z) (Some [-100]%Z) None None]).


Definition endless_backoff_tool : Tool.t :=
  Sample.tool_of
    (Sample.document "python_function"
       [rule "retry_with_backoff" (Some 3%Z) (Some [10 ^ 16]%Z) None None]).

(** A rule given by what it matches on and by its strategy, and the
    handler that it constructs. *)
Definition rule_on (error_type : string) (error_code : option string)
    (strategy : string) : Doc.Rule :=
  {| Doc.error_type := Some error_type;
     Doc.error_code := error_code;
     Doc.recovery :=
       Some {| Doc.strategy := Some strategy;
               Doc.max_retries := None;
               Doc.backoff_ms := None;
               Doc.wait_seconds := None;
               Doc.fallback_tool := None;
               Doc.message_to_user := None |} |}.

Definition handler_on (error_type : string) (error_code : option string)
    (strategy : RecoveryStrategy) : ErrorRecovery.t :=
  {| ErrorRecovery.error_type := error_type;
     ErrorRecovery.error_code := error_code;
     ErrorRecovery.strategy := strategy;
     ErrorRecovery.max_retries := None;
     ErrorRecovery.backoff_ms := None;
     ErrorRecovery.wait_seconds := None;
     ErrorRecovery.fallback_tool := None;
     ErrorRecovery.message_to_user := None |}.

(** Three rules.  A [ConnectionError] that says "connection reset" is
    matched by the second (its [error_type] occurs in the message) and
    by the third (its [error_code] is the type name), not by the
    first. *)
Definition layered_tool : Tool.t :=
  Sample.tool_of
    (Sample.document "python_function"
       [rule_on "deadline" (Some "TimeoutError") "retry_with_backoff";
        rule_on "reset" None "fail";
        rule_on "timed out" (Some "ConnectionError") "wait_and_retry"]).

(** The same rules with the last two exchanged. *)
Definition relayered_tool : Tool.t :=
  Sample.tool_of
    (Sample.document "python_function"
       [rule_on "deadline" (Some "TimeoutError") "retry_with_backoff";
        rule_on "timed out" (Some "ConnectionError") "wait_and_retry";
        rule_on "reset" None "fail"]).


(** What [jsonschema] raises for a schema that is not one. *)
Definition SchemaError (msg : string) : exn :=
  {| exn_name := "SchemaError"; exn_bases := [Exception]; exn_str := msg |}.

(** A validator that is handed schemas it cannot use. *)
Definition misconfigured : jsonschema :=
  {| validate := fun _ _ => Some (SchemaError "'strnig' is not valid under any of the given schemas");
     JSONSchemaValidationError := JsonschemaValidationError |}.

(** A process in which no module is found. *)
Definition nothing_installed : string -> string -> result callable :=
  fun module_name _ =>
    Raise {| exn_name := "ModuleNotFoundError";
             exn_bases := [Exception; ImportError];
             exn_str := "No module named " ++ repr module_name |}.

(** A tool one of whose example phrases is empty. *)
Definition catch_all_tool : Tool.t :=
  Sample.tool_of
    {| Doc.manifest := Some Sample.manifest;
       Doc.capabilities := Some (JObj []);
       Doc.execution := Some (Sample.execution "python_function");
       Doc.usage_guidance :=
         Some {| Doc.when_to_use :=
                   Some [ {| Doc.trigger := Some "Search Products";
                             Doc.examples := Some ["Find red shirts"; ""] |} ] |};
       Doc.error_handling := None |}.

(** A tool whose [execution] section has no [parameters]. *)
Definition schemaless_tool : Tool.t :=
  Sample.tool_of
    {| Doc.manifest := Some Sample.manifest;
       Doc.capabilities := Some (JObj []);
       Doc.execution :=
         Some {| Doc.endpoint := Some (Sample.endpoint "python_function");
                 Doc.parameters := None;
                 Doc.returns := None |};
       Doc.usage_guidance := Some Sample.usage_guidance;
       Doc.error_handling := None |}.


(** What [json.load] raises for a file that is not JSON. *)
Definition JSONDecodeError (msg : string) : exn :=
  {| exn_name := "JSONDecodeError"; exn_bases := [Exception]; exn_str := msg |}.

(** What [open] raises in a directory that cannot be written to. *)
Definition PermissionError (msg : string) : exn :=
  {| exn_name := "PermissionError"; exn_bases := [Exception]; exn_str := msg |}.

(** The last component of a path; [component] is the one being read
    (reversed). *)
Fixpoint file_name_from (component : list ascii) (path : string) : string :=
  match path with
  | EmptyString => string_of_list_ascii (rev component)
  | String c rest =>
      if Ascii.eqb c "/" then file_name_from [] rest
      else file_name_from (c :: component) rest
  end.

Definition file_name (path : string) : string := file_name_from [] path.

(** The path without its last component, [.] when it has only one. *)
Definition parent_of (path : string) : string :=
  let last := String.length (file_name path) in
  if (String.length path <=? last)%nat then "."
  else substring 0 (String.length path - last - 1) path.

(** [a / b] where [b] may start with [./]. *)
Definition join_paths (a b : string) : string :=
  match b with
  | String "."%char (String "/"%char rest) => a ++ "/" ++ rest
  | _ => a ++ "/" ++ b
  end.

Definition entry (id name aitool_file status : string) : RegistryDoc.Entry :=
  {| RegistryDoc.id := Some id;
     RegistryDoc.name := Some name;
     RegistryDoc.version := Some "1.0.0";
     RegistryDoc.display_name := None;
     RegistryDoc.category := Some "data";
     RegistryDoc.aitool_file := Some aitool_file;
     RegistryDoc.status := Some status |}.

(** An index of three entries: one that loads, one that is not active
    and an active one whose file is not there. *)
Definition index : RegistryDoc.t :=
  {| RegistryDoc.tools :=
       Some [entry "com.example.search" "search_database" "./search.aitool.json" "active";
             entry "com.example.weather" "get_weather" "./weather.aitool.json" "deprecated";
             entry "com.example.mail" "send_mail" "./mail.aitool.json" "active"];
     RegistryDoc.categories :=
       Some [("data", ["com.example.search"; "com.example.weather"])] |}.

(** An index whose second entry has no [status]. *)
Definition incomplete_index : RegistryDoc.t :=
  {| RegistryDoc.tools :=
       Some [entry "com.example.search" "search_database" "./search.aitool.json" "active";
             {| RegistryDoc.id := Some "com.example.weather";
                RegistryDoc.name := Some "get_weather";
                RegistryDoc.version := None;
                RegistryDoc.display_name := None;
                RegistryDoc.category := None;
                RegistryDoc.aitool_file := Some "./weather.aitool.json";
                RegistryDoc.status := None |};
             entry "com.example.mail" "send_mail" "./mail.aitool.json" "active"];
     RegistryDoc.categories := None |}.

(** A disk with a directory [tools] of three tool files, one of them
    broken, and directories [indexed], [partial] and [stale] that have
    a [registry.json]. *)
Definition disk : files :=
  {| read := fun path =>
       if path =? "tools/search.aitool.json"
       then Some (ToolFile (Sample.document "python_function" []))
       else if path =? "tools/broken.aitool.json"
       then Some (Unreadable (JSONDecodeError
                                "Expecting value: line 1 column 1 (char 0)"))
       else if path =? "tools/nested/weather.aitool.json"
       then Some (ToolFile (Tool.to_dict Sample.weather_tool))
       else if path =? "indexed/registry.json" then Some (RegistryFile index)
       else if path =? "indexed/search.aitool.json"
       then Some (ToolFile (Sample.document "python_function" []))
       else if path =? "indexed/weather.aitool.json"
       then Some (ToolFile (Tool.to_dict Sample.weather_tool))
       else if path =? "partial/registry.json" then Some (RegistryFile incomplete_index)
       else if path =? "partial/search.aitool.json"
       then Some (ToolFile (Sample.document "python_function" []))
       else if path =? "stale/registry.json"
       then Some (Unreadable (JSONDecodeError
                                "Expecting value: line 1 column 1 (char 0)"))
       else if path =? "stale/search.aitool.json"
       then Some (ToolFile (Sample.document "python_function" []))
       else None;
     join := join_paths;
     name := file_name;
     parent := parent_of;
     glob := fun directory pattern =>
       if (directory =? "tools") && (pattern =? "**/*.aitool.json")
       then ["tools/search.aitool.json"; "tools/broken.aitool.json";
             "tools/nested/weather.aitool.json"]
       else if (directory =? "stale") && (pattern =? "**/*.aitool.json")
       then ["stale/search.aitool.json"]
       else if (directory =? "tools") && (pattern =? "*.aitool.json")
       then ["tools/search.aitool.json"; "tools/broken.aitool.json"]
       else [];
     writable := fun path =>
       if String.prefix "readonly/" path
       then Some (PermissionError
                    ("[Errno 13] Permission denied: " ++ repr path)%string)
       else None |}.

(** The disk [fs] with [content] in the file [path]. *)
Definition write (fs : files) (path : string) (content : file) : files :=
  {| read := fun other => if other =? path then Some content else read fs other;
     join := join fs;
     parent := parent fs;
     name := name fs;
     glob := glob fs;
     writable := writable fs |}.

End Case.

(* ================================================================== *)
(** * Properties *)

Section Engine.

Variable lib : jsonschema.
Variable import_function : string -> string -> result callable.
Variable self : Tool.t.
Variable params : dict.

Definition accepts_input : Prop :=
  exists schema,
    Doc.parameters (Tool.execution self) = Some schema /\
    validate lib (OfValue (JObj params)) schema = None.

(** Output validation either passes or fails as a validation error. *)
Definition output_checked (result : json) : Prop :=
  forall returns schema e,
    Doc.returns (Tool.execution self) = Some returns ->
    Doc.success_schema returns = Some schema ->
    validate lib (OfValue result) schema = Some e ->
    isinstance e (JSONSchemaValidationError lib) = true.


(** What precedes [execute] in one iteration of the retry loop. *)
Definition before_attempt (max_retries : Z) (backoff_ms : list Z) (attempt : Z)
    : M unit :=
  (if (attempt >? 0)%Z then
     let sleep_ms :=
       nth (Z.to_nat (Z.min (attempt - 1) (Z.of_nat (length backoff_ms) - 1)))
         backoff_ms 0%Z in
     log INFO ("Retry attempt " ++ str_of_int (attempt + 1) ++ "/"
                 ++ str_of_int max_retries ++ " after "
                 ++ str_of_int sleep_ms ++ "ms") ;;
     seconds <- lift (truediv sleep_ms 1000) ;;
     sleep seconds
   else ret tt)%exec.

(** The steps of [execute] before its [try]: input validation when it
    is asked for, then the resolution of the callable. *)
Definition prepare (validate_input' : bool) : M callable :=
  ((if validate_input' then Tool.validate_input lib self params else ret true) ;;
   Tool._load_function import_function self)%exec.

(** The body of the [try] of [execute]. *)
Definition guarded (func : callable) (validate_output' : bool) : M json :=
  (log INFO ("Executing tool: " ++ ToolManifest.name (Tool.manifest self)) ;;
   result <- call func params ;;
   (if validate_output' then Tool.validate_output lib self result else ret true) ;;
   log INFO ("Tool " ++ ToolManifest.name (Tool.manifest self)
               ++ " executed successfully") ;;
   ret result)%exec.

Lemma delays_app (a b : list event) : delays (a ++ b) = delays a ++ delays b.
Proof.
  induction a as [|ev a IH]; simpl; [reflexivity|].
  destruct ev; simpl; rewrite IH; reflexivity.
Qed.

Lemma call_count_app (a b : list event) :
  call_count (a ++ b) = (call_count a + call_count b)%nat.
Proof.
  induction a as [|ev a IH]; simpl; [reflexivity|].
  destruct ev; simpl; rewrite IH; reflexivity.
Qed.

Lemma new_events_app (s s' : state) (extra : list event) :
  trace s' = trace s ++ extra -> new_events s s' = extra.
Proof.
  intros H. unfold new_events. rewrite H.
  rewrite skipn_app, skipn_all, Nat.sub_diag. reflexivity.
Qed.

Lemma import_count_app (a b : list event) :
  import_count (a ++ b) = (import_count a + import_count b)%nat.
Proof.
  induction a as [|ev a IH]; simpl; [reflexivity|].
  destruct ev; simpl; rewrite IH; reflexivity.
Qed.

Lemma cache_writes_app (a b : list event) :
  cache_writes (a ++ b) = (cache_writes a + cache_writes b)%nat.
Proof.
  induction a as [|ev a IH]; simpl; [reflexivity|].
  destruct ev as [m f [|]| | |]; simpl; rewrite IH; reflexivity.
Qed.

Lemma cache_writes_le_import (a : list event) :
  (cache_writes a <= import_count a)%nat.
Proof.
  induction a as [|ev a IH]; simpl; [lia|].
  destruct ev as [m f [|]| | |]; simpl; lia.
Qed.

Lemma cache_kept_refl s : cache_kept s s [].
Proof. unfold cache_kept. destruct (_cached_function s); auto. Qed.

Lemma cache_kept_trans s1 s2 s3 e1 e2 :
  cache_kept s1 s2 e1 -> cache_kept s2 s3 e2 -> cache_kept s1 s3 (e1 ++ e2).
Proof.
  unfold cache_kept. rewrite import_count_app, cache_writes_app.
  destruct (_cached_function s1) as [f1|].
  - intros (H1 & N1). rewrite H1. intros (H2 & N2). split; [exact H2|lia].
  - intros W1. destruct (_cached_function s2) as [f2|].
    + intros (H2 & N2). rewrite H2, W1.
      pose proof (cache_writes_le_import e2). lia.
    + intros W2. rewrite W1, W2. reflexivity.
Qed.

Lemma disciplined_ret {A} (a : A) : disciplined (ret a).
Proof.
  intros s. exists []. simpl. rewrite app_nil_r.
  split; [reflexivity|apply cache_kept_refl].
Qed.

Lemma disciplined_raise {A} (e : exn) : disciplined (@raise A e).
Proof.
  intros s. exists []. simpl. rewrite app_nil_r.
  split; [reflexivity|apply cache_kept_refl].
Qed.

Lemma disciplined_lift {A} (r : result A) : disciplined (lift r).
Proof.
  intros s. exists []. simpl. rewrite app_nil_r.
  split; [reflexivity|apply cache_kept_refl].
Qed.

Lemma disciplined_bind {A B} (c : M A) (k : A -> M B) :
  disciplined c -> (forall a, disciplined (k a)) -> disciplined (bind c k).
Proof.
  intros Hc Hk s. unfold bind. destruct (Hc s) as (e1 & T1 & K1).
  destruct (c s) as [[a|e] s1]; simpl in *.
  - destruct (Hk a s1) as (e2 & T2 & K2). exists (e1 ++ e2).
    rewrite T2, T1, app_assoc. split; [reflexivity|].
    eapply cache_kept_trans; eassumption.
  - exists e1. auto.
Qed.

Lemma disciplined_try_except {A} (body : M A) catches (handler : exn -> M A) :
  disciplined body -> (forall e, disciplined (handler e)) ->
  disciplined (try_except body catches handler).
Proof.
  intros Hb Hh s. unfold try_except. destruct (Hb s) as (e1 & T1 & K1).
  destruct (body s) as [[a|e] s1]; simpl in *.
  - exists e1. auto.
  - destruct (catches e).
    + destruct (Hh e s1) as (e2 & T2 & K2). exists (e1 ++ e2).
      rewrite T2, T1, app_assoc. split; [reflexivity|].
      eapply cache_kept_trans; eassumption.
    + exists e1. auto.
Qed.

Lemma disciplined_log lvl message : disciplined (log lvl message).
Proof.
  intros s. exists [Log lvl message]. simpl. split; [reflexivity|].
  unfold cache_kept; simpl. destruct (_cached_function s); auto.
Qed.

Lemma disciplined_sleep seconds : disciplined (sleep seconds).
Proof.
  unfold sleep. destruct (sleep_error seconds); [apply disciplined_raise|].
  intros s. exists [Sleep seconds]. simpl. split; [reflexivity|].
  unfold cache_kept; simpl. destruct (_cached_function s); auto.
Qed.

Lemma disciplined_call func kwargs : disciplined (call func kwargs).
Proof.
  intros s. exists [Invoke kwargs]. simpl. split; [reflexivity|].
  unfold cache_kept; simpl. destruct (_cached_function s); auto.
Qed.

Lemma disciplined_if {A} (b : bool) (c1 c2 : M A) :
  disciplined c1 -> disciplined c2 -> disciplined (if b then c1 else c2).
Proof. destruct b; auto. Qed.

Lemma quiet_silent {A} (c : M A) :
  (forall s, snd (c s) = s) -> quiet 0 c.
Proof.
  intros H s. exists []. rewrite H, app_nil_r. auto.
Qed.

Lemma quiet_bind {A B} n m (c : M A) (k : A -> M B) :
  quiet n c -> (forall a, quiet m (k a)) -> quiet (n + m) (bind c k).
Proof.
  intros Hc Hk s. unfold bind. destruct (Hc s) as (e1 & T1 & D1 & N1).
  destruct (c s) as [[a|e] s1]; simpl in *.
  - destruct (Hk a s1) as (e2 & T2 & D2 & N2). exists (e1 ++ e2).
    rewrite T2, T1, app_assoc, delays_app, call_count_app, D1, D2.
    repeat split; auto; lia.
  - exists e1. repeat split; auto; lia.
Qed.

Lemma quiet_try_except {A} n m (body : M A) catches (handler : exn -> M A) :
  quiet n body -> (forall e, quiet m (handler e)) ->
  quiet (n + m) (try_except body catches handler).
Proof.
  intros Hb Hh s. unfold try_except. destruct (Hb s) as (e1 & T1 & D1 & N1).
  destruct (body s) as [[a|e] s1]; simpl in *.
  - exists e1. repeat split; auto; lia.
  - destruct (catches e).
    + destruct (Hh e s1) as (e2 & T2 & D2 & N2). exists (e1 ++ e2).
      rewrite T2, T1, app_assoc, delays_app, call_count_app, D1, D2.
      repeat split; auto; lia.
    + exists e1. repeat split; auto; lia.
Qed.

Lemma quiet_log lvl message : quiet 0 (log lvl message).
Proof. intros s. exists [Log lvl message]. simpl. auto. Qed.

Lemma quiet_call func kwargs : quiet 1 (call func kwargs).
Proof. intros s. exists [Invoke kwargs]. simpl. auto. Qed.

Create HintDb discipline.

#[local] Hint Resolve disciplined_ret disciplined_raise disciplined_lift
disciplined_log disciplined_sleep disciplined_call : discipline.

Ltac discipline :=
repeat first
  [ solve [auto with discipline]
  | apply disciplined_bind; [|intros ?]
  | apply disciplined_try_except; [|intros ?]
  | apply disciplined_if ].



Lemma validate_input_accepts s :
  accepts_input -> Tool.validate_input lib self params s = (Return true, s).
Proof.
  intros (schema & Hs & Hv).
  unfold Tool.validate_input, bind, lift, try_except, Tool.run_validate.
  rewrite Hs. simpl. rewrite Hv. reflexivity.
Qed.

Lemma load_function_cached s f :
  _cached_function s = Some f ->
  Tool._load_function import_function self s = (Return f, s).
Proof.
  intros H. unfold Tool._load_function, bind, get_cached. rewrite H. reflexivity.
Qed.

Lemma execute_unhandled_raises s f e :
  accepts_input ->
  _cached_function s = Some f ->
  f (invocations s) params = Raise e ->
  Tool.execute_unhandled lib import_function self params s =
    (Raise e,
     invoked (add_events s [Log INFO ("Executing tool: "
                                        ++ ToolManifest.name (Tool.manifest self))])
       params).
Proof.
  intros Hin Hc Hf.
  unfold Tool.execute_unhandled, Tool.execute_with.
  unfold bind at 1. rewrite (validate_input_accepts s Hin).
  unfold bind at 1. rewrite (load_function_cached s f Hc).
  unfold try_except, bind, log, emit, call. simpl. rewrite Hf.
  destruct (isinstance e Exception); reflexivity.
Qed.

Lemma step_refl s : step s s [].
Proof. unfold step. rewrite app_nil_r, Nat.add_0_r. auto. Qed.

Lemma step_trans s1 s2 s3 e1 e2 :
  step s1 s2 e1 -> step s2 s3 e2 -> step s1 s3 (e1 ++ e2).
Proof.
  intros (A1 & B1 & C1) (A2 & B2 & C2). unfold step.
  rewrite A2, A1, B2, B1, C2, C1, call_count_app, app_assoc.
  repeat split; lia.
Qed.

Lemma step_add_events s evs : call_count evs = 0%nat -> step s (add_events s evs) evs.
Proof. intros H. unfold step; simpl. rewrite H. repeat split; lia. Qed.





Lemma execute_unhandled_fails s f e :
  accepts_input ->
  _cached_function s = Some f ->
  f (invocations s) params = Raise e ->
  exists s' extra,
    Tool.execute_unhandled lib import_function self params s = (Raise e, s') /\
    step s s' extra /\ delays extra = [] /\ call_count extra = 1%nat.
Proof.
  intros Hin Hc Hf. rewrite (execute_unhandled_raises s f e Hin Hc Hf).
  exists (invoked (add_events s [Log INFO ("Executing tool: "
                                            ++ ToolManifest.name (Tool.manifest self))])
            params),
    [Log INFO ("Executing tool: " ++ ToolManifest.name (Tool.manifest self));
     Invoke params].
  split; [reflexivity|]. split; [|auto].
  unfold step; simpl. rewrite <- app_assoc. repeat split; lia.
Qed.





Lemma backoff_index (backoff_ms : list Z) (a : nat) :
  (0 < a)%nat ->
  nth (Z.to_nat (Z.min (Z.of_nat a - 1) (Z.of_nat (length backoff_ms) - 1)))
    backoff_ms 0%Z = backoff_before backoff_ms a.
Proof.
  intros H. unfold backoff_before. f_equal. lia.
Qed.



Lemma retry_attempts_unfold max_retries backoff_ms remaining attempt :
  Tool.retry_attempts lib import_function self params max_retries backoff_ms
    (S remaining) attempt =
  try_except
    (before_attempt max_retries backoff_ms attempt ;;
     Tool.execute_unhandled lib import_function self params)%exec
    (fun e => isinstance e Exception)
    (fun e =>
       if (attempt =? max_retries - 1)%Z then
         (log ERROR ("All " ++ str_of_int max_retries ++ " retry attempts failed") ;;
          raise e)%exec
       else Tool.retry_attempts lib import_function self params max_retries
              backoff_ms remaining (attempt + 1)).
Proof. reflexivity. Qed.







Lemma execute_with_run handler vi vo he s :
  Tool.execute_with lib import_function self handler params vi vo he s =
  match prepare vi s with
  | (Return func, s0) =>
      try_except (guarded func vo) (fun e => isinstance e Exception)
        (fun e => if he then handler e params else raise e) s0
  | (Raise e, s0) => (Raise e, s0)
  end.
Proof.
  unfold Tool.execute_with, prepare, bind.
  destruct vi.
  - destruct (Tool.validate_input lib self params s) as [[b|e] s1]; [|reflexivity].
    destruct (Tool._load_function import_function self s1) as [[func|e] s2]; reflexivity.
  - unfold ret.
    destruct (Tool._load_function import_function self s) as [[func|e] s2]; reflexivity.
Qed.

Lemma validate_input_state b s s' :
  Tool.validate_input lib self params s = (b, s') -> s' = s.
Proof.
  unfold Tool.validate_input, bind, lift, try_except, Tool.run_validate.
  destruct (Doc.parameters (Tool.execution self)) as [schema|]; simpl;
    [|intros H; inversion H; reflexivity].
  destruct (validate lib (OfValue (JObj params)) schema) as [e|]; unfold raise, ret;
    [destruct (Tool.is_JSONSchemaValidationError lib e)|];
    intros H; inversion H; reflexivity.
Qed.

Lemma load_function_returns s func s0 :
  Tool._load_function import_function self s = (Return func, s0) ->
  _cached_function s0 = Some func /\
  invocations s0 = invocations s /\
  exists extra,
    trace s0 = trace s ++ extra /\
    delays extra = [] /\ call_count extra = 0%nat /\
    (import_count extra <= 1)%nat /\
    cache_writes extra = import_count extra /\
    (_cached_function s <> None -> extra = []) /\
    warnings extra = [].
Proof.
  unfold Tool._load_function, bind, get_cached.
  destruct (_cached_function s) as [cached|] eqn:Hc.
  - unfold ret. intros H; inversion H; subst. repeat split; auto.
    exists []. rewrite app_nil_r. repeat split; auto.
  - unfold lift.
    destruct (Doc.endpoint (Tool.execution self)) as [endpoint|]; simpl; [|discriminate].
    destruct (Doc.type endpoint) as [ty|]; simpl; [|discriminate].
    destruct (ty =? "python_function"); [|discriminate].
    destruct (Doc.module endpoint) as [m|]; simpl; [|discriminate].
    destruct (Doc.function endpoint) as [fn|]; simpl; [|discriminate].
    unfold try_except, bind, Tool.import, set_cached, ret, raise.
    destruct (import_function m fn) as [found|e]; simpl.
    + intros H; inversion H; subst; simpl. repeat split; auto.
      eexists. split; [reflexivity|]. repeat split; auto. congruence.
    + destruct (isinstance e ImportError || isinstance e AttributeError); discriminate.
Qed.

Lemma prepare_returns vi s func s0 :
  prepare vi s = (Return func, s0) ->
  _cached_function s0 = Some func /\
  invocations s0 = invocations s /\
  exists extra,
    trace s0 = trace s ++ extra /\
    delays extra = [] /\ call_count extra = 0%nat /\
    (import_count extra <= 1)%nat /\
    cache_writes extra = import_count extra /\
    (_cached_function s <> None -> extra = []) /\
    warnings extra = [].
Proof.
  unfold prepare, bind. destruct vi.
  - destruct (Tool.validate_input lib self params s) as [[b|e] s1] eqn:Hv; [|discriminate].
    apply validate_input_state in Hv. subst s1. apply load_function_returns.
  - unfold ret. apply load_function_returns.
Qed.

Lemma guarded_fails func vo s e :
  func (invocations s) params = Raise e ->
  guarded func vo s =
    (Raise e,
     invoked (add_events s [Log INFO ("Executing tool: "
                                        ++ ToolManifest.name (Tool.manifest self))])
       params).
Proof.
  intros H. unfold guarded, bind, log, emit, call. simpl. rewrite H. reflexivity.
Qed.


(** Where the handler starts: the first invocation of an [execute] with
    error handling failed with [e0], an [Exception]. *)
Lemma execute_enters_handler vi vo s func s0 e0 :
  prepare vi s = (Return func, s0) ->
  func (invocations s) params = Raise e0 ->
  isinstance e0 Exception = true ->
  exists s1 extra,
    Tool.execute lib import_function self params vi vo true s =
      Tool._handle_error lib import_function self e0 params s1 /\
    _cached_function s1 = Some func /\
    invocations s1 = S (invocations s) /\
    trace s1 = trace s ++ extra /\
    delays extra = [] /\ call_count extra = 1%nat.
Proof.
  intros Hprep Hf He.
  destruct (prepare_returns vi s func s0 Hprep)
    as (Hc & Hi & x0 & Ht & Hd & Hn & _).
  unfold Tool.execute. rewrite execute_with_run, Hprep.
  unfold try_except. rewrite (guarded_fails func vo s0 e0) by (rewrite Hi; exact Hf).
  rewrite He.
  eexists _, (x0 ++ [Log INFO _; Invoke params]). split; [reflexivity|].
  cbn [invoked add_events _cached_function invocations trace].
  rewrite Ht, Hi, delays_app, call_count_app, Hd, Hn, <- !app_assoc.
  repeat split; auto.
Qed.

Lemma handle_error_backoff e0 handler s :
  Tool.find_handler e0 (Tool.error_handlers self) = Some handler ->
  ErrorRecovery.strategy handler = RETRY_WITH_BACKOFF ->
  Tool._handle_error lib import_function self e0 params s =
  Tool.retry_attempts lib import_function self params (retries handler)
    (backoff handler) (Z.to_nat (retries handler)) 0
    (add_events s [Log INFO "Handling error with strategy: retry_with_backoff"]).
Proof.
  intros Hfind Hstrat. unfold Tool._handle_error. rewrite Hfind, Hstrat.
  reflexivity.
Qed.




Lemma disciplined_run_validate inst schema :
  disciplined (Tool.run_validate lib inst schema).
Proof. unfold Tool.run_validate. destruct (validate lib inst schema); auto with discipline. Qed.

#[local] Hint Resolve disciplined_run_validate : discipline.

Lemma disciplined_validate_input : disciplined (Tool.validate_input lib self params).
Proof. unfold Tool.validate_input. discipline. Qed.

Lemma disciplined_validate_output result :
  disciplined (Tool.validate_output lib self result).
Proof.
  unfold Tool.validate_output.
  destruct (Doc.returns (Tool.execution self)) as [returns|]; [|auto with discipline].
  destruct (Doc.success_schema returns); [|auto with discipline].
  discipline.
Qed.

Lemma disciplined_load_function :
  disciplined (Tool._load_function import_function self).
Proof.
  intros s. unfold Tool._load_function, bind, get_cached.
  destruct (_cached_function s) as [cached|] eqn:Hc.
  - exists []. simpl. rewrite app_nil_r. split; [reflexivity|apply cache_kept_refl].
  - assert (Hnil : exists extra, trace s = trace s ++ extra /\ cache_kept s s extra)
      by (exists []; rewrite app_nil_r; split; [reflexivity|apply cache_kept_refl]).
    unfold lift.
    destruct (Doc.endpoint (Tool.execution self)) as [endpoint|]; simpl; [|apply Hnil].
    destruct (Doc.type endpoint) as [ty|]; simpl; [|apply Hnil].
    destruct (ty =? "python_function"); [|apply Hnil].
    destruct (Doc.module endpoint) as [m|]; simpl; [|apply Hnil].
    destruct (Doc.function endpoint) as [fn|]; simpl; [|apply Hnil].
    unfold try_except, bind, Tool.import, set_cached, ret, raise.
    destruct (import_function m fn) as [found|e]; simpl.
    + eexists. split; [reflexivity|]. unfold cache_kept; simpl. rewrite Hc. reflexivity.
    + destruct (isinstance e ImportError || isinstance e AttributeError); simpl;
        (eexists; split; [reflexivity|]); unfold cache_kept; simpl; rewrite Hc; reflexivity.
Qed.

#[local] Hint Resolve disciplined_validate_input disciplined_validate_output
  disciplined_load_function : discipline.

Lemma disciplined_execute_with handler vi vo he :
  (forall e, disciplined (handler e params)) ->
  disciplined (Tool.execute_with lib import_function self handler params vi vo he).
Proof. intros Hh. unfold Tool.execute_with. discipline. Qed.

Lemma disciplined_execute_unhandled :
  disciplined (Tool.execute_unhandled lib import_function self params).
Proof.
  apply disciplined_execute_with. intros e. apply disciplined_raise.
Qed.

Lemma disciplined_retry_attempts max_retries backoff_ms remaining :
  forall attempt,
    disciplined (Tool.retry_attempts lib import_function self params max_retries
                   backoff_ms remaining attempt).
Proof.
  induction remaining as [|remaining IH]; intros attempt.
  - apply disciplined_ret.
  - rewrite retry_attempts_unfold. unfold before_attempt.
    pose proof disciplined_execute_unhandled. discipline.
Qed.

Lemma disciplined_handle_error e :
  disciplined (Tool._handle_error lib import_function self e params).
Proof.
  unfold Tool._handle_error.
  destruct (Tool.find_handler e (Tool.error_handlers self)) as [handler|];
    [|discipline].
  apply disciplined_bind; [apply disciplined_log|intros _].
  destruct (ErrorRecovery.strategy handler); try apply disciplined_raise.
  - apply disciplined_retry_attempts.
  - pose proof disciplined_execute_unhandled.
    destruct (ErrorRecovery.message_to_user handler) as [m|]; discipline.
  - discipline.
Qed.

Lemma disciplined_execute vi vo he :
  disciplined (Tool.execute lib import_function self params vi vo he).
Proof. apply disciplined_execute_with. apply disciplined_handle_error. Qed.


Lemma quiet_run_validate inst schema : quiet 0 (Tool.run_validate lib inst schema).
Proof.
  apply quiet_silent. intros s. unfold Tool.run_validate.
  destruct (validate lib inst schema); reflexivity.
Qed.

Lemma quiet_validate_input : quiet 0 (Tool.validate_input lib self params).
Proof.
  apply quiet_silent. intros s.
  destruct (Tool.validate_input lib self params s) as [b s'] eqn:H.
  apply validate_input_state in H. exact H.
Qed.

Lemma quiet_validate_output result : quiet 0 (Tool.validate_output lib self result).
Proof.
  unfold Tool.validate_output.
  destruct (Doc.returns (Tool.execution self)) as [returns|];
    [|apply quiet_silent; reflexivity].
  destruct (Doc.success_schema returns);
    [|apply quiet_silent; reflexivity].
  apply (quiet_try_except 0 0).
  - apply (quiet_bind 0 0); [apply quiet_run_validate|].
    intros _. apply quiet_silent; reflexivity.
  - intros e. apply (quiet_bind 0 0); [apply quiet_log|].
    intros _. apply quiet_silent; reflexivity.
Qed.

Lemma quiet_load_function : quiet 0 (Tool._load_function import_function self).
Proof.
  intros s. unfold Tool._load_function, bind, get_cached.
  assert (Hnil : exists extra, trace s = trace s ++ extra /\
                               delays extra = [] /\ (call_count extra <= 0)%nat)
    by (exists []; rewrite app_nil_r; auto).
  destruct (_cached_function s) as [cached|]; [exact Hnil|].
  unfold lift.
  destruct (Doc.endpoint (Tool.execution self)) as [endpoint|]; simpl; [|exact Hnil].
  destruct (Doc.type endpoint) as [ty|]; simpl; [|exact Hnil].
  destruct (ty =? "python_function"); [|exact Hnil].
  destruct (Doc.module endpoint) as [m|]; simpl; [|exact Hnil].
  destruct (Doc.function endpoint) as [fn|]; simpl; [|exact Hnil].
  unfold try_except, bind, Tool.import, set_cached, ret, raise.
  destruct (import_function m fn) as [found|e]; simpl.
  - eexists. split; [reflexivity|]. auto.
  - destruct (isinstance e ImportError || isinstance e AttributeError); simpl;
      (eexists; split; [reflexivity|]); auto.
Qed.

(** Without error handling, [execute] never sleeps and invokes the
    callable at most once. *)
Lemma quiet_execute_unhandled handler vi vo :
  quiet 1 (Tool.execute_with lib import_function self handler params vi vo false).
Proof.
  unfold Tool.execute_with.
  apply (quiet_bind 0 1).
  { destruct vi; [apply quiet_validate_input|apply quiet_silent; reflexivity]. }
  intros _. apply (quiet_bind 0 1); [apply quiet_load_function|].
  intros func. apply (quiet_try_except 1 0).
  - apply (quiet_bind 0 1); [apply quiet_log|]. intros _.
    apply (quiet_bind 1 0); [apply quiet_call|]. intros result.
    apply (quiet_bind 0 0).
    { destruct vo; [apply quiet_validate_output|apply quiet_silent; reflexivity]. }
    intros _. apply (quiet_bind 0 0); [apply quiet_log|].
    intros _. apply quiet_silent; reflexivity.
  - intros e. apply quiet_silent; reflexivity.
Qed.

(** With [handle_errors=False] the handler is not reached. *)
Lemma execute_without_handler handler handler' vi vo s :
  Tool.execute_with lib import_function self handler params vi vo false s =
  Tool.execute_with lib import_function self handler' params vi vo false s.
Proof. rewrite !execute_with_run. reflexivity. Qed.

Lemma handle_error_wait e0 handler s :
  Tool.find_handler e0 (Tool.error_handlers self) = Some handler ->
  ErrorRecovery.strategy handler = WAIT_AND_RETRY ->
  sleepable (or_float (ErrorRecovery.wait_seconds handler) 1) ->
  exists s1 extra,
    Tool._handle_error lib import_function self e0 params s =
      Tool.execute lib import_function self params true true false s1 /\
    step s s1 extra /\
    delays extra = [or_float (ErrorRecovery.wait_seconds handler) 1] /\
    call_count extra = 0%nat.
Proof.
  intros Hfind Hstrat Hwait. unfold Tool._handle_error. rewrite Hfind, Hstrat.
  unfold bind at 1, log at 1, emit at 1.
  set (s1 := {| _cached_function := _ |}).
  assert (Hmsg : exists s2 x2,
             match ErrorRecovery.message_to_user handler with
             | Some message => if message =? "" then ret tt else log INFO message
             | None => ret tt
             end s1 = (Return tt, s2) /\ step s1 s2 x2 /\
             delays x2 = [] /\ call_count x2 = 0%nat).
  { destruct (ErrorRecovery.message_to_user handler) as [m|];
      [destruct (m =? "")|].
    - exists s1, []. split; [reflexivity|split; [apply step_refl|auto]].
    - eexists _, [Log INFO m]. split; [reflexivity|].
      split; [apply step_add_events; reflexivity|auto].
    - exists s1, []. split; [reflexivity|split; [apply step_refl|auto]]. }
  destruct Hmsg as (s2 & x2 & E2 & S2 & D2 & N2).
  unfold bind at 1. rewrite E2.
  unfold bind, sleep. unfold sleepable in Hwait. rewrite Hwait. unfold emit.
  eexists _, (([Log INFO _] ++ x2) ++ [Sleep _]). split.
  - unfold Tool.execute, Tool.execute_unhandled. apply execute_without_handler.
  - split.
    + eapply step_trans; [eapply step_trans; [|exact S2]|].
      * subst s1. apply (step_add_events s [Log INFO _]). reflexivity.
      * apply step_add_events. reflexivity.
    + rewrite !delays_app, !call_count_app, D2, N2. simpl. auto.
Qed.









Lemma execute_waits_then_retries vi vo s func s0 e0 handler :
  prepare vi s = (Return func, s0) ->
  func (invocations s) params = Raise e0 ->
  isinstance e0 Exception = true ->
  Tool.find_handler e0 (Tool.error_handlers self) = Some handler ->
  ErrorRecovery.strategy handler = WAIT_AND_RETRY ->
  sleepable (or_float (ErrorRecovery.wait_seconds handler) 1) ->
  exists s1,
    Tool.execute lib import_function self params vi vo true s =
      Tool.execute lib import_function self params true true false s1 /\
    _cached_function s1 = Some func /\
    delays (new_events s s1) = [or_float (ErrorRecovery.wait_seconds handler) 1] /\
    call_count (new_events s s1) = 1%nat.
Proof.
  intros Hprep Hf He Hfind Hstrat Hwait.
  destruct (execute_enters_handler vi vo s func s0 e0 Hprep Hf He)
    as (s1 & x1 & E1 & C1 & I1 & T1 & D1 & N1).
  destruct (handle_error_wait e0 handler s1 Hfind Hstrat Hwait)
    as (s2 & x2 & E2 & (C2 & I2 & T2) & D2 & N2).
  exists s2. rewrite E1, E2. split; [reflexivity|].
  split; [congruence|].
  rewrite (new_events_app s s2 (x1 ++ x2)) by (rewrite T2, T1, app_assoc; reflexivity).
  rewrite delays_app, call_count_app, D1, D2, N1, N2. auto.
Qed.



Lemma prefix_spec (a b : string) :
  String.prefix a b = true <-> exists rest, b = (a ++ rest)%string.
Proof.
  revert b. induction a as [|c a IH]; intros b.
  - destruct b; simpl; (split; [intros _; eexists; reflexivity|intros _; reflexivity]).
  - destruct b as [|d b]; simpl.
    + split; [discriminate|intros (rest & H); discriminate].
    + destruct (Ascii.ascii_dec c d) as [->|Hne].
      * rewrite IH. split; intros (rest & H); exists rest; [rewrite H|inversion H]; reflexivity.
      * split; [discriminate|intros (rest & H); inversion H; congruence].
Qed.

Lemma str_contains_spec (needle haystack : string) :
  str_contains needle haystack = true <-> occurs_in needle haystack.
Proof.
  unfold occurs_in. induction haystack as [|c rest IH].
  - change (str_contains needle "")
      with (if String.prefix needle "" then true else false).
    destruct (String.prefix needle "") eqn:P.
    + split; [intros _|reflexivity].
      apply prefix_spec in P. destruct P as (x & P). exists "", x. exact P.
    + split; [discriminate|]. intros (before & after & H).
      destruct before; simpl in H.
      * assert (String.prefix needle "" = true) by (apply prefix_spec; exists after; exact H).
        congruence.
      * discriminate.
  - change (str_contains needle (String c rest))
      with (if String.prefix needle (String c rest) then true
            else str_contains needle rest).
    destruct (String.prefix needle (String c rest)) eqn:P.
    + split; [intros _|reflexivity].
      apply prefix_spec in P. destruct P as (x & P). exists "", x. exact P.
    + rewrite IH. split.
      * intros (before & after & H). exists (String c before), after.
        simpl. rewrite H. reflexivity.
      * intros (before & after & H). destruct before as [|d before]; simpl in H.
        -- assert (String.prefix needle (String c rest) = true)
             by (apply prefix_spec; exists after; exact H).
           congruence.
        -- inversion H. exists before, after. reflexivity.
Qed.

Lemma rule_matches_spec (h : ErrorRecovery.t) (error : exn) :
  eq_opt_str (ErrorRecovery.error_code h) (exn_name error)
  || str_contains (ErrorRecovery.error_type h) (exn_str error) = true
  <-> rule_matches h error.
Proof.
  unfold rule_matches. rewrite orb_true_iff, str_contains_spec.
  unfold eq_opt_str. destruct (ErrorRecovery.error_code h) as [code|].
  - rewrite String.eqb_eq. split; (intros [H|H]; [left|right; exact H]); congruence.
  - split; (intros [H|H]; [discriminate|right; exact H]).
Qed.

Lemma find_handler_some (error : exn) (handlers : list ErrorRecovery.t) h :
  Tool.find_handler error handlers = Some h <->
  exists before after,
    handlers = before ++ h :: after /\
    rule_matches h error /\
    Forall (fun h' => ~ rule_matches h' error) before.
Proof.
  induction handlers as [|h0 rest IH]; simpl.
  - split; [discriminate|]. intros (before & after & H & _). destruct before; discriminate.
  - destruct (eq_opt_str (ErrorRecovery.error_code h0) (exn_name error)
              || str_contains (ErrorRecovery.error_type h0) (exn_str error)) eqn:E.
    + apply rule_matches_spec in E. split.
      * intros H. inversion H; subst. exists [], rest. auto.
      * intros (before & after & H & Hm & Hn). destruct before as [|b before]; simpl in H.
        -- inversion H. reflexivity.
        -- inversion H; subst. inversion Hn; subst. contradiction.
    + assert (Hno : ~ rule_matches h0 error)
        by (intros Hm; apply rule_matches_spec in Hm; congruence).
      rewrite IH. split.
      * intros (before & after & H & Hm & Hn). exists (h0 :: before), after.
        subst rest. auto.
      * intros (before & after & H & Hm & Hn). destruct before as [|b before]; simpl in H.
        -- inversion H; subst. contradiction.
        -- inversion H; subst. inversion Hn; subst. exists before, after. auto.
Qed.

Lemma find_handler_none (error : exn) (handlers : list ErrorRecovery.t) :
  Tool.find_handler error handlers = None <->
  Forall (fun h => ~ rule_matches h error) handlers.
Proof.
  induction handlers as [|h0 rest IH]; simpl.
  - split; auto.
  - destruct (eq_opt_str (ErrorRecovery.error_code h0) (exn_name error)
              || str_contains (ErrorRecovery.error_type h0) (exn_str error)) eqn:E.
    + apply rule_matches_spec in E. split; [discriminate|].
      intros H. inversion H; subst. contradiction.
    + assert (Hno : ~ rule_matches h0 error)
        by (intros Hm; apply rule_matches_spec in Hm; congruence).
      rewrite IH. split; [auto|]. intros H. inversion H; auto.
Qed.

(** What [_handle_error] does once it has found its rule. *)
Lemma handle_error_selected e0 h s1 :
  Tool.find_handler e0 (Tool.error_handlers self) = Some h ->
  exists rest,
    trace (snd (Tool._handle_error lib import_function self e0 params s1)) =
      trace s1 ++ Log INFO ("Handling error with strategy: "
                              ++ strategy_value (ErrorRecovery.strategy h)) :: rest /\
    (retrying (ErrorRecovery.strategy h) = false ->
     fst (Tool._handle_error lib import_function self e0 params s1) = Raise e0 /\
     call_count rest = 0%nat /\ delays rest = []).
Proof.
  intros Hfind. unfold Tool._handle_error. rewrite Hfind.
  unfold bind at 1, log at 1, emit at 1.
  set (s2 := {| _cached_function := _ |}).
  assert (T2 : trace s2 = trace s1 ++ [Log INFO ("Handling error with strategy: "
                                ++ strategy_value (ErrorRecovery.strategy h))])
    by reflexivity.
  destruct (ErrorRecovery.strategy h) eqn:S.
  - exists []. unfold raise. cbn [fst snd]. rewrite T2.
    split; [reflexivity|]. intros _. auto.
  - destruct (disciplined_retry_attempts (or_int (ErrorRecovery.max_retries h) 3)
                (or_list (ErrorRecovery.backoff_ms h) [1000; 2000; 4000]%Z)
                (Z.to_nat (or_int (ErrorRecovery.max_retries h) 3)) 0 s2)
      as (rest & T & _).
    exists rest. unfold Tool._retry_with_backoff. rewrite T, T2, <- app_assoc.
    split; [reflexivity|discriminate].
  - assert (D : disciplined
                  (match ErrorRecovery.message_to_user h with
                   | Some message => if message =? "" then ret tt else log INFO message
                   | None => ret tt
                   end ;;
                   sleep (or_float (ErrorRecovery.wait_seconds h) 1) ;;
                   Tool.execute_unhandled lib import_function self params)%exec).
    { pose proof disciplined_execute_unhandled.
      destruct (ErrorRecovery.message_to_user h) as [m|]; discipline. }
    destruct (D s2) as (rest & T & _).
    exists rest. rewrite T, T2, <- app_assoc. split; [reflexivity|discriminate].
  - exists []. unfold raise. cbn [fst snd]. rewrite T2.
    split; [reflexivity|]. intros _. auto.
  - exists []. unfold raise. cbn [fst snd]. rewrite T2.
    split; [reflexivity|]. intros _. auto.
  - exists [Log WARNING (or_str (ErrorRecovery.message_to_user h) (exn_str e0))].
    unfold bind, log, emit, raise. cbn [fst snd trace]. rewrite T2, <- app_assoc.
    split; [reflexivity|]. intros _. auto.
Qed.

(** C3.  Recovery dispatch scans the rules in declaration order and
    selects the first one whose [error_code] is the failure's type name
    or whose [error_type] occurs in the failure's message: the rule
    selected matches and no rule before it does, and none is selected
    exactly when none matches.  After a failed invocation, [execute]
    runs the strategy of the first rule that matches, whatever rules
    follow it: it logs that strategy, and then re-raises the failure
    (the strategies that do not retry), sleeps the wait and executes
    once more (wait-and-retry), or enters the retry loop
    (retry-with-backoff).  When no rule matches the failure that
    [execute] raises without error handling, [execute] with error
    handling raises that same failure. *)
Theorem first_matching_rule_or_reraise vi vo s :
  (forall error handlers h,
     Tool.find_handler error handlers = Some h <->
     exists before after,
       handlers = before ++ h :: after /\
       rule_matches h error /\
       Forall (fun h' => ~ rule_matches h' error) before) /\
  (forall error handlers,
     Tool.find_handler error handlers = None <->
     Forall (fun h => ~ rule_matches h error) handlers) /\
  (forall func s0 e0 before h after,
     prepare vi s = (Return func, s0) ->
     func (invocations s) params = Raise e0 ->
     isinstance e0 Exception = true ->
     Tool.error_handlers self = before ++ h :: after ->
     Forall (fun h' => ~ rule_matches h' e0) before ->
     rule_matches h e0 ->
     let run := Tool.execute lib import_function self params vi vo true s in
     (exists first rest,
        new_events s (snd run) =
          first ++ Log INFO ("Handling error with strategy: "
                               ++ strategy_value (ErrorRecovery.strategy h)) :: rest /\
        call_count first = 1%nat /\ delays first = []) /\
     (retrying (ErrorRecovery.strategy h) = false ->
      fst run = Raise e0 /\
      call_count (new_events s (snd run)) = 1%nat /\
      delays (new_events s (snd run)) = []) /\
     (ErrorRecovery.strategy h = WAIT_AND_RETRY ->
      sleepable (or_float (ErrorRecovery.wait_seconds h) 1) ->
      exists s1,
        run = Tool.execute lib import_function self params true true false s1 /\
        delays (new_events s s1) = [or_float (ErrorRecovery.wait_seconds h) 1] /\
        call_count (new_events s s1) = 1%nat) /\
     (ErrorRecovery.strategy h = RETRY_WITH_BACKOFF ->
      exists s1,
        run = Tool.retry_attempts lib import_function self params (retries h)
                (backoff h) (Z.to_nat (retries h)) 0 s1 /\
        delays (new_events s s1) = [] /\
        call_count (new_events s s1) = 1%nat)) /\
  (forall e s',
     Tool.execute lib import_function self params vi vo false s = (Raise e, s') ->
     Tool.find_handler e (Tool.error_handlers self) = None ->
     let run := Tool.execute lib import_function self params vi vo true s in
     fst run = Raise e /\
     delays (new_events s (snd run)) = [] /\
     (call_count (new_events s (snd run)) <= 1)%nat).
Proof.
  split; [intros; apply find_handler_some|].
  split; [intros; apply find_handler_none|].
  split.
  - intros func s0 e0 before h after Hprep Hf He Hrules Hbefore Hmatch run.
    assert (Hfind : Tool.find_handler e0 (Tool.error_handlers self) = Some h).
    { apply find_handler_some. exists before, after. auto. }
    destruct (execute_enters_handler vi vo s func s0 e0 Hprep Hf He)
      as (s1 & x1 & E & C1 & I1 & T1 & D1 & N1).
    destruct (handle_error_selected e0 h s1 Hfind) as (rest & T & Hplain).
    split; [|split; [|split]].
    + exists x1, rest. subst run. rewrite E.
      rewrite (new_events_app s _ (x1 ++ Log INFO ("Handling error with strategy: "
                                   ++ strategy_value (ErrorRecovery.strategy h)) :: rest))
        by (rewrite T, T1, <- app_assoc; reflexivity).
      auto.
    + intros Hno. destruct (Hplain Hno) as (R & N & D). subst run. rewrite E.
      split; [exact R|].
      rewrite (new_events_app s _ (x1 ++ Log INFO ("Handling error with strategy: "
                                   ++ strategy_value (ErrorRecovery.strategy h)) :: rest))
        by (rewrite T, T1, <- app_assoc; reflexivity).
      rewrite call_count_app, delays_app, D1, N1. cbn [call_count delays app].
      rewrite N, D. auto.
    + intros Hstrat Hwait.
      destruct (execute_waits_then_retries vi vo s func s0 e0 h
                  Hprep Hf He Hfind Hstrat Hwait) as (s2 & E2 & _ & D2 & N2).
      exists s2. auto.
    + intros Hstrat. subst run. rewrite E, (handle_error_backoff e0 h s1 Hfind Hstrat).
      eexists. split; [reflexivity|].
      rewrite (new_events_app s _ (x1 ++ [Log INFO
                 "Handling error with strategy: retry_with_backoff"]))
        by (cbn [add_events trace]; rewrite T1, <- app_assoc; reflexivity).
      rewrite delays_app, call_count_app, D1, N1. auto.
  - intros e s' Hraw Hnone run. subst run.
    destruct (quiet_execute_unhandled (Tool._handle_error lib import_function self)
                vi vo s) as (x & T & D & N).
    revert Hraw T. unfold Tool.execute. rewrite !execute_with_run.
    destruct (prepare vi s) as [[func|e1] s0].
    + unfold try_except.
      destruct (guarded func vo s0) as [[r|e1] s1]; [discriminate|].
      destruct (isinstance e1 Exception).
      * unfold raise. intros H T; inversion H; subst.
        unfold Tool._handle_error. rewrite Hnone. unfold bind, log, emit, raise.
        simpl in *. split; [reflexivity|].
        rewrite (new_events_app s _
                   (x ++ [Log ERROR ("No error handler found for " ++ exn_name e)]))
          by (simpl; rewrite T, app_assoc; reflexivity).
        rewrite delays_app, call_count_app, D. simpl. split; [reflexivity|lia].
      * intros H T; inversion H; subst. simpl in *.
        rewrite (new_events_app _ _ x T). auto.
    + intros H T; inversion H; subst. simpl in *.
      rewrite (new_events_app _ _ x T). auto.
Qed.

Lemma guarded_returns func vo s r :
  func (invocations s) params = Return r ->
  output_checked r ->
  exists s' extra,
    guarded func vo s = (Return r, s') /\
    trace s' = trace s ++ extra /\
    call_count extra = 1%nat /\
    delays extra = [] /\
    warnings extra =
      if vo then
        match Doc.returns (Tool.execution self) with
        | Some returns =>
            match Doc.success_schema returns with
            | Some schema =>
                match validate lib (OfValue r) schema with
                | Some e => [("Output validation failed: " ++ exn_str e)%string]
                | None => []
                end
            | None => []
            end
        | None => []
        end
      else [].
Proof.
  intros Hf Hout. unfold guarded, bind, log, emit, call. simpl. rewrite Hf.
  destruct vo.
  - unfold Tool.validate_output.
    destruct (Doc.returns (Tool.execution self)) as [returns|] eqn:Hr.
    + destruct (Doc.success_schema returns) as [schema|] eqn:Hs.
      * unfold try_except, bind, Tool.run_validate.
        destruct (validate lib (OfValue r) schema) as [e|] eqn:Hv.
        -- unfold raise, Tool.is_JSONSchemaValidationError.
           rewrite (Hout returns schema e Hr Hs Hv). unfold log, emit, ret. simpl.
           eexists _, [Log INFO _; Invoke params; Log WARNING _; Log INFO _].
           split; [reflexivity|]. simpl. rewrite <- !app_assoc. repeat split; reflexivity.
        -- unfold ret. simpl.
           eexists _, [Log INFO _; Invoke params; Log INFO _].
           split; [reflexivity|]. simpl. rewrite <- !app_assoc. repeat split; reflexivity.
      * unfold ret. simpl.
        eexists _, [Log INFO _; Invoke params; Log INFO _].
        split; [reflexivity|]. simpl. rewrite <- !app_assoc. repeat split; reflexivity.
    + unfold ret. simpl.
      eexists _, [Log INFO _; Invoke params; Log INFO _].
      split; [reflexivity|]. simpl. rewrite <- !app_assoc. repeat split; reflexivity.
  - unfold ret. simpl.
    eexists _, [Log INFO _; Invoke params; Log INFO _].
    split; [reflexivity|]. simpl. rewrite <- !app_assoc. repeat split; reflexivity.
Qed.

Lemma warnings_app (a b : list event) : warnings (a ++ b) = warnings a ++ warnings b.
Proof.
  induction a as [|ev a IH]; simpl; [reflexivity|].
  destruct ev as [| | |[| |] m]; simpl; rewrite IH; reflexivity.
Qed.

(** C4.  When the invocation succeeds and, with [validate_output] on,
    the result does not conform to the declared [success_schema],
    [execute] does not raise: it logs one warning and returns the result
    as the callable produced it. *)
Theorem output_validation_is_advisory vi he s func s0 r returns schema e :
  prepare vi s = (Return func, s0) ->
  func (invocations s) params = Return r ->
  Doc.returns (Tool.execution self) = Some returns ->
  Doc.success_schema returns = Some schema ->
  validate lib (OfValue r) schema = Some e ->
  isinstance e (JSONSchemaValidationError lib) = true ->
  let run := Tool.execute lib import_function self params vi true he s in
  fst run = Return r /\
  warnings (new_events s (snd run)) = [("Output validation failed: " ++ exn_str e)%string] /\
  call_count (new_events s (snd run)) = 1%nat /\
  delays (new_events s (snd run)) = [].
Proof.
  intros Hprep Hf Hr Hs Hv He run.
  destruct (prepare_returns vi s func s0 Hprep)
    as (Hc & Hi & x0 & Ht & Hd & Hn & Him & Hw & _ & Wx).
  assert (Hout : output_checked r).
  { intros returns' schema' e' Hr' Hs' Hv'. congruence. }
  destruct (guarded_returns func true s0 r) as (s1 & x1 & E1 & T1 & N1 & D1 & W1);
    [rewrite Hi; exact Hf|exact Hout|].
  rewrite Hr, Hs, Hv in W1.
  subst run. unfold Tool.execute. rewrite execute_with_run, Hprep.
  unfold try_except. rewrite E1. simpl.
  rewrite (new_events_app s s1 (x0 ++ x1)) by (rewrite T1, Ht, app_assoc; reflexivity).
  rewrite warnings_app, call_count_app, delays_app, W1, N1, D1, Hn, Hd.
  split; [reflexivity|]. split; [|auto].
  rewrite Wx. reflexivity.
Qed.

(** C2.  When the parameters violate the declared parameter schema, an
    [execute] with [validate_input] on raises [ValidationError] with the
    validator's message and does nothing else: nothing is imported, the
    callable is not invoked, the state is as it was.  This holds for
    every [handle_errors], whatever the recovery rules are. *)
Theorem invalid_input_raises_before_invocation vo he s schema e :
  Doc.parameters (Tool.execution self) = Some schema ->
  validate lib (OfValue (JObj params)) schema = Some e ->
  isinstance e (JSONSchemaValidationError lib) = true ->
  let run := Tool.execute lib import_function self params true vo he s in
  fst run = Raise (ValidationError ("Invalid input parameters: " ++ exn_str e)) /\
  snd run = s /\
  import_count (new_events s (snd run)) = 0%nat /\
  call_count (new_events s (snd run)) = 0%nat.
Proof.
  intros Hs Hv He run.
  assert (E : run = (Raise (ValidationError ("Invalid input parameters: " ++ exn_str e)), s)).
  { subst run. unfold Tool.execute, Tool.execute_with.
    unfold bind at 1. unfold Tool.validate_input, bind, lift, try_except, Tool.run_validate.
    rewrite Hs. simpl. rewrite Hv. unfold raise, Tool.is_JSONSchemaValidationError.
    rewrite He. reflexivity. }
  rewrite E. simpl. unfold new_events. rewrite skipn_all. auto.
Qed.

Lemma disciplined_after_prepare func vo (he : bool) :
  disciplined
    (try_except (guarded func vo) (fun e => isinstance e Exception)
       (fun e => if he then Tool._handle_error lib import_function self e params
                 else raise e)).
Proof.
  pose proof disciplined_handle_error. unfold guarded. discipline.
Qed.

End Engine.



(* ================================================================== *)
(** ** Construction *)

Lemma unrecognized_value_raises (value : string) :
  unrecognized value ->
  RecoveryStrategy_of_value value =
    Raise (ValueError (repr value ++ " is not a valid RecoveryStrategy")).
Proof.
  intros H. unfold RecoveryStrategy_of_value.
  destruct (find (fun s => strategy_value s =? value) all_strategies) as [s|] eqn:F;
    [|reflexivity].
  apply find_some in F. destruct F as (_ & E).
  apply String.eqb_eq in E. exfalso. exact (H s E).
Qed.

Lemma getitem_raises {A} (key : string) (field : option A) (e : exn) :
  getitem key field = Raise e -> e = KeyError key.
Proof. destruct field; simpl; [discriminate|]. intros H; inversion H; reflexivity. Qed.

Lemma manifest_from_dict_raises (data : Doc.Manifest) (e : exn) :
  ToolManifest.from_dict data = Raise e -> construction_error e.
Proof.
  unfold ToolManifest.from_dict, rbind.
  destruct (getitem "id" (Doc.id data)) eqn:E1;
    [|intros H; inversion H; subst; left; eexists; eapply getitem_raises; eassumption].
  destruct (getitem "name" (Doc.name data)) eqn:E2;
    [|intros H; inversion H; subst; left; eexists; eapply getitem_raises; eassumption].
  destruct (getitem "version" (Doc.version data)) eqn:E3;
    [|intros H; inversion H; subst; left; eexists; eapply getitem_raises; eassumption].
  destruct (getitem "category" (Doc.category data)) eqn:E4;
    [discriminate
    |intros H; inversion H; subst; left; eexists; eapply getitem_raises; eassumption].
Qed.

Lemma rule_from_dict_raises (data : Doc.Rule) (e : exn) :
  ErrorRecovery.from_dict data = Raise e -> construction_error e.
Proof.
  unfold ErrorRecovery.from_dict, rbind.
  destruct (getitem "recovery" (Doc.recovery data)) as [recovery|] eqn:E1;
    [|intros H; inversion H; subst; left; eexists; eapply getitem_raises; eassumption].
  destruct (getitem "error_type" (Doc.error_type data)) eqn:E2;
    [|intros H; inversion H; subst; left; eexists; eapply getitem_raises; eassumption].
  destruct (getitem "strategy" (Doc.strategy recovery)) as [value|] eqn:E3;
    [|intros H; inversion H; subst; left; eexists; eapply getitem_raises; eassumption].
  unfold RecoveryStrategy_of_value.
  destruct (find (fun s => strategy_value s =? value) all_strategies);
    [discriminate|].
  intros H; inversion H; subst. right. eexists. reflexivity.
Qed.

Lemma comprehension_raises {A B} (f : A -> result B) (xs : list A) (e : exn) :
  comprehension f xs = Raise e -> exists x, In x xs /\ f x = Raise e.
Proof.
  induction xs as [|x rest IH]; simpl; [discriminate|].
  unfold rbind. destruct (f x) as [y|e'] eqn:E.
  - destruct (comprehension f rest) as [ys|e'']; [discriminate|].
    intros H; inversion H; subst. destruct (IH eq_refl) as (x' & Hin & Hx').
    exists x'. auto.
  - intros H; inversion H; subst. exists x. auto.
Qed.

Lemma comprehension_returns {A B} (f : A -> result B) (xs : list A) (ys : list B) :
  comprehension f xs = Return ys -> forall x, In x xs -> exists y, f x = Return y.
Proof.
  revert ys. induction xs as [|x rest IH]; simpl; intros ys H x' Hin; [contradiction|].
  unfold rbind in H. destruct (f x) as [y|e] eqn:E; [|discriminate].
  destruct (comprehension f rest) as [ys'|e] eqn:E'; [|discriminate].
  destruct Hin as [->|Hin]; [exists y; exact E|].
  exact (IH ys' eq_refl x' Hin).
Qed.

Lemma init_raises (spec : Doc.Tool) (e : exn) :
  Tool.__init__ spec = Raise e -> construction_error e.
Proof.
  unfold Tool.__init__, rbind.
  destruct (getitem "manifest" (Doc.manifest spec)) as [m|] eqn:E1;
    [|intros H; inversion H; subst; left; eexists; eapply getitem_raises; eassumption].
  destruct (ToolManifest.from_dict m) eqn:E2;
    [|intros H; inversion H; subst; eapply manifest_from_dict_raises; eassumption].
  destruct (getitem "capabilities" (Doc.capabilities spec)) eqn:E3;
    [|intros H; inversion H; subst; left; eexists; eapply getitem_raises; eassumption].
  destruct (getitem "execution" (Doc.execution spec)) eqn:E4;
    [|intros H; inversion H; subst; left; eexists; eapply getitem_raises; eassumption].
  destruct (getitem "usage_guidance" (Doc.usage_guidance spec)) eqn:E5;
    [|intros H; inversion H; subst; left; eexists; eapply getitem_raises; eassumption].
  destruct (comprehension ErrorRecovery.from_dict (get (Doc.error_handling spec) []))
    eqn:E6; [discriminate|].
  intros H; inversion H; subst.
  apply comprehension_raises in E6. destruct E6 as (rule & _ & Hr).
  eapply rule_from_dict_raises; eassumption.
Qed.

Lemma init_returns_sections (spec : Doc.Tool) (tool : Tool.t) :
  Tool.__init__ spec = Return tool ->
  ~ missing_section spec /\
  comprehension ErrorRecovery.from_dict (get (Doc.error_handling spec) [])
    = Return (Tool.error_handlers tool) /\
  Doc.execution spec = Some (Tool.execution tool).
Proof.
  unfold Tool.__init__, rbind, missing_section.
  destruct (Doc.manifest spec) as [m|]; simpl; [|discriminate].
  destruct (ToolManifest.from_dict m); [|discriminate].
  destruct (Doc.capabilities spec); simpl; [|discriminate].
  destruct (Doc.execution spec); simpl; [|discriminate].
  destruct (Doc.usage_guidance spec); simpl; [|discriminate].
  destruct (comprehension ErrorRecovery.from_dict (get (Doc.error_handling spec) []));
    [|discriminate].
  intros H; inversion H; subst; simpl.
  split; [intros [X|[X|[X|X]]]; discriminate|]. auto.
Qed.

Lemma rule_with_unrecognized_strategy (rule : Doc.Rule) recovery value :
  Doc.recovery rule = Some recovery ->
  Doc.strategy recovery = Some value ->
  unrecognized value ->
  exists e, ErrorRecovery.from_dict rule = Raise e.
Proof.
  intros Hr Hs Hu. unfold ErrorRecovery.from_dict, rbind. rewrite Hr. simpl.
  destruct (getitem "error_type" (Doc.error_type rule)); [|eexists; reflexivity].
  rewrite Hs. simpl. rewrite (unrecognized_value_raises value Hu).
  eexists; reflexivity.
Qed.

(** C6 (amended).  A document that lacks one of [manifest],
    [capabilities], [execution], [usage_guidance], or one of whose
    [error_handling] rules names an unrecognized strategy, constructs no
    [Tool]: construction raises, a [KeyError] for a key that is not
    there (['manifest'] itself when that section is missing) or the
    [ValueError] of the enumeration for a value that is none of its
    members. *)
Theorem malformed_document_constructs_no_tool (spec : Doc.Tool) :
  missing_section spec \/ has_unrecognized_strategy spec ->
  (exists e,
     Tool.__init__ spec = Raise e /\
     (exn_name e = "KeyError" \/ exn_name e = "ValueError") /\
     isinstance e Exception = true) /\
  (forall tool, Tool.__init__ spec <> Return tool) /\
  (Doc.manifest spec = None -> Tool.__init__ spec = Raise (KeyError "manifest")).
Proof.
  intros H.
  assert (Hno : forall tool, Tool.__init__ spec <> Return tool).
  { intros tool Hret. destruct (init_returns_sections spec tool Hret) as (Hsec & Hrules & _).
    destruct H as [H|(rule & recovery & value & Hin & Hr & Hs & Hu)]; [contradiction|].
    destruct (comprehension_returns _ _ _ Hrules rule Hin) as (y & Hy).
    destruct (rule_with_unrecognized_strategy rule recovery value Hr Hs Hu) as (e & He).
    congruence. }
  split; [|split; [exact Hno|]].
  - destruct (Tool.__init__ spec) as [tool|e] eqn:E; [exfalso; exact (Hno tool eq_refl)|].
    exists e. split; [reflexivity|].
    destruct (init_raises spec e E) as [(key & ->)|(msg & ->)]; simpl; auto.
  - intros Hm. unfold Tool.__init__. rewrite Hm. reflexivity.
Qed.

(* ================================================================== *)
(** ** Without the schema validator *)

Lemma validate_input_without_jsonschema (self : Tool.t) (schema : json)
    (params : dict) (s : state) :
  Doc.parameters (Tool.execution self) = Some schema ->
  Tool.validate_input jsonschema_missing self params s = (Return true, s).
Proof.
  intros H. unfold Tool.validate_input, bind, lift, try_except, Tool.run_validate.
  rewrite H. reflexivity.
Qed.

Lemma validate_output_without_jsonschema (self : Tool.t) (result : json) (s : state) :
  Tool.validate_output jsonschema_missing self result s = (Return true, s).
Proof.
  unfold Tool.validate_output.
  destruct (Doc.returns (Tool.execution self)) as [returns|]; [|reflexivity].
  destruct (Doc.success_schema returns); reflexivity.
Qed.

(** C7 (amended).  With the bindings made when [jsonschema] cannot be imported,
    the validator accepts everything: for every result
    [validate_output] returns [True], for every schema [validate_spec]
    returns [True], and, the tool's [execution] section declaring
    [parameters], for every parameter value [validate_input] returns
    [True] and an [execute] that validates is the [execute] that does
    not.  Where the [execution] section has no [parameters],
    [validate_input] raises the [KeyError] of that key for every
    parameter value, and so does an [execute] that validates its
    input. *)
Theorem missing_validator_accepts_everything (self : Tool.t) :
  forall s,
    (forall result,
       Tool.validate_output jsonschema_missing self result s = (Return true, s)) /\
    (forall spec_schema,
       fst (Tool.validate_spec jsonschema_missing self spec_schema s) = Return true) /\
    (forall schema,
       Doc.parameters (Tool.execution self) = Some schema ->
       (forall params,
          Tool.validate_input jsonschema_missing self params s = (Return true, s)) /\
       (forall import_function params handle_errors,
          Tool.execute jsonschema_missing import_function self params true true
            handle_errors s =
          Tool.execute jsonschema_missing import_function self params false false
            handle_errors s)) /\
    (Doc.parameters (Tool.execution self) = None ->
     (forall params,
        Tool.validate_input jsonschema_missing self params s
          = (Raise (KeyError "parameters"), s)) /\
     (forall import_function params validate_output' handle_errors,
        Tool.execute jsonschema_missing import_function self params true
          validate_output' handle_errors s
          = (Raise (KeyError "parameters"), s))).
Proof.
  intros s.
  split; [intros result; apply validate_output_without_jsonschema|].
  split.
  { intros [spec_schema|]; [|reflexivity]. unfold Tool.validate_spec.
    destruct (truthy spec_schema); reflexivity. }
  split.
  - intros schema Hp.
    split; [intros params; exact (validate_input_without_jsonschema self schema params s Hp)|].
    intros import_function params handle_errors.
    unfold Tool.execute. rewrite !execute_with_run.
    assert (P : prepare jsonschema_missing import_function self params true s =
                prepare jsonschema_missing import_function self params false s).
    { unfold prepare, bind.
      rewrite (validate_input_without_jsonschema self schema params s Hp). reflexivity. }
    rewrite P.
    destruct (prepare jsonschema_missing import_function self params false s)
      as [[func|e] s0]; [|reflexivity].
    assert (G : guarded jsonschema_missing self params func true s0 =
                guarded jsonschema_missing self params func false s0).
    { unfold guarded, bind, log, emit, call. cbn [invocations].
      destruct (func (invocations s0) params) as [r|e]; [|reflexivity].
      rewrite validate_output_without_jsonschema. reflexivity. }
    unfold try_except. rewrite G. reflexivity.
  - intros Hp.
    assert (V : forall params,
              Tool.validate_input jsonschema_missing self params s
                = (Raise (KeyError "parameters"), s)).
    { intros params. unfold Tool.validate_input. rewrite Hp. reflexivity. }
    split; [exact V|].
    intros import_function params validate_output' handle_errors.
    unfold Tool.execute. rewrite execute_with_run.
    unfold prepare, bind. rewrite V. reflexivity.
Qed.

(* ================================================================== *)
(** ** Resolution of the endpoint *)

Lemma init_ignores_execution (spec : Doc.Tool) (tool : Tool.t)
    (execution' : Doc.Execution) :
  Tool.__init__ spec = Return tool ->
  exists tool',
    Tool.__init__ (with_execution spec execution') = Return tool' /\
    Tool.execution tool' = execution'.
Proof.
  unfold Tool.__init__, with_execution, rbind. simpl.
  destruct (Doc.manifest spec) as [m|]; simpl; [|discriminate].
  destruct (ToolManifest.from_dict m); [|discriminate].
  destruct (Doc.capabilities spec); simpl; [|discriminate].
  destruct (Doc.execution spec); simpl; [|discriminate].
  destruct (Doc.usage_guidance spec); simpl; [|discriminate].
  destruct (comprehension ErrorRecovery.from_dict (get (Doc.error_handling spec) []));
    [|discriminate].
  intros _. eexists. split; reflexivity.
Qed.

Lemma prepare_first_import lib import_function (self : Tool.t) (params : dict)
    (vi : bool) (s : state) endpoint module_name function_name func :
  _cached_function s = None ->
  (vi = true -> accepts_input lib self params) ->
  Doc.endpoint (Tool.execution self) = Some endpoint ->
  Doc.type endpoint = Some "python_function" ->
  Doc.module endpoint = Some module_name ->
  Doc.function endpoint = Some function_name ->
  import_function module_name function_name = Return func ->
  prepare lib import_function self params vi s =
    (Return func,
     {| _cached_function := Some func;
        invocations := invocations s;
        trace := trace s ++ [Import module_name function_name true] |}).
Proof.
  intros Hc Hin He Ht Hm Hf Hi. unfold prepare.
  assert (V : (if vi then Tool.validate_input lib self params else ret true) s
              = (Return true, s)).
  { destruct vi; [apply validate_input_accepts; auto|reflexivity]. }
  unfold bind at 1. rewrite V.
  unfold Tool._load_function, bind, get_cached, lift. rewrite Hc, He. simpl.
  rewrite Ht. simpl. rewrite Hm, Hf. simpl.
  unfold try_except, bind, Tool.import, set_cached, ret. rewrite Hi. reflexivity.
Qed.

Lemma unsupported_endpoint_raises lib import_function (self : Tool.t) (params : dict)
    (vi vo he : bool) (s : state) endpoint ty :
  _cached_function s = None ->
  (vi = true -> accepts_input lib self params) ->
  Doc.endpoint (Tool.execution self) = Some endpoint ->
  Doc.type endpoint = Some ty ->
  ty <> "python_function" ->
  Tool.execute lib import_function self params vi vo he s =
    (Raise (NotImplementedError ("Protocol " ++ ty ++ " not yet supported")), s).
Proof.
  intros Hc Hin He Ht Hne. unfold Tool.execute. rewrite execute_with_run.
  unfold prepare.
  assert (V : (if vi then Tool.validate_input lib self params else ret true) s
              = (Return true, s)).
  { destruct vi; [apply validate_input_accepts; auto|reflexivity]. }
  unfold bind at 1. rewrite V.
  unfold Tool._load_function, bind, get_cached, lift. rewrite Hc, He. simpl.
  rewrite Ht. simpl.
  destruct (ty =? "python_function") eqn:E; [apply String.eqb_eq in E; contradiction|].
  reflexivity.
Qed.

Lemma run_all_cache_writes lib import_function (self : Tool.t)
    (calls : list call_args) :
  forall s,
    cache_writes (trace s) =
      match _cached_function s with Some _ => 1%nat | None => 0%nat end ->
    cache_writes (trace (run_all lib import_function self calls s)) =
      match _cached_function (run_all lib import_function self calls s) with
      | Some _ => 1%nat
      | None => 0%nat
      end.
Proof.
  induction calls as [|c rest IH]; intros s Hs; simpl; [exact Hs|].
  apply IH.
  destruct (disciplined_execute lib import_function self (args_params c)
              (args_validate_input c) (args_validate_output c) (args_handle_errors c) s)
    as (extra & T & K).
  rewrite T, cache_writes_app, Hs. unfold cache_kept in K.
  destruct (_cached_function s) as [func|].
  - destruct K as (K1 & K2). rewrite K1.
    pose proof (cache_writes_le_import extra). lia.
  - rewrite K. reflexivity.
Qed.

(** C8.  Construction neither resolves nor inspects the endpoint, and a
    fresh tool has no cached callable.  The first [execute] that gets to
    resolution imports the function, once, and stores it; every
    [execute] on a tool with a cached callable keeps it and imports
    nothing; over any sequence of [execute] calls on a fresh tool the
    cache is written at most once.  With an endpoint type other than
    [python_function], [execute] raises [NotImplementedError]
    ("Protocol ... not yet supported") before anything is imported or
    invoked, whatever [handle_errors] and the recovery rules are. *)
Theorem resolution_is_lazy_and_cached lib import_function (self : Tool.t) :
  (forall spec tool execution',
     Tool.__init__ spec = Return tool ->
     exists tool',
       Tool.__init__ (with_execution spec execution') = Return tool' /\
       Tool.execution tool' = execution') /\
  _cached_function Tool.initial = None /\
  (forall params vi vo he s endpoint module_name function_name func,
     _cached_function s = None ->
     (vi = true -> accepts_input lib self params) ->
     Doc.endpoint (Tool.execution self) = Some endpoint ->
     Doc.type endpoint = Some "python_function" ->
     Doc.module endpoint = Some module_name ->
     Doc.function endpoint = Some function_name ->
     import_function module_name function_name = Return func ->
     let s' := snd (Tool.execute lib import_function self params vi vo he s) in
     _cached_function s' = Some func /\
     import_count (new_events s s') = 1%nat /\
     cache_writes (new_events s s') = 1%nat) /\
  (forall params vi vo he s func,
     _cached_function s = Some func ->
     let s' := snd (Tool.execute lib import_function self params vi vo he s) in
     _cached_function s' = Some func /\
     import_count (new_events s s') = 0%nat) /\
  (forall calls,
     (cache_writes (trace (run_all lib import_function self calls Tool.initial))
      <= 1)%nat) /\
  (forall params vi vo he s endpoint ty,
     _cached_function s = None ->
     (vi = true -> accepts_input lib self params) ->
     Doc.endpoint (Tool.execution self) = Some endpoint ->
     Doc.type endpoint = Some ty ->
     ty <> "python_function" ->
     Tool.execute lib import_function self params vi vo he s =
       (Raise (NotImplementedError ("Protocol " ++ ty ++ " not yet supported")), s)).
Proof.
  split; [intros spec tool execution'; apply init_ignores_execution|].
  split; [reflexivity|].
  split.
  { intros params vi vo he s endpoint m fn func Hc Hin He Ht Hm Hf Hi s'.
    subst s'. unfold Tool.execute. rewrite execute_with_run.
    rewrite (prepare_first_import lib import_function self params vi s endpoint m fn func
               Hc Hin He Ht Hm Hf Hi).
    set (s0 := {| _cached_function := Some func |}).
    destruct (disciplined_after_prepare lib import_function self params func vo he s0)
      as (extra & T & K).
    unfold cache_kept in K. simpl in K. destruct K as (K1 & K2).
    split; [exact K1|].
    rewrite (new_events_app s _ ([Import m fn true] ++ extra))
      by (rewrite T; subst s0; simpl; rewrite <- app_assoc; reflexivity).
    rewrite import_count_app, cache_writes_app. simpl.
    pose proof (cache_writes_le_import extra). lia. }
  split.
  { intros params vi vo he s func Hc s'. subst s'.
    destruct (disciplined_execute lib import_function self params vi vo he s)
      as (extra & T & K).
    unfold cache_kept in K. rewrite Hc in K. destruct K as (K1 & K2).
    rewrite (new_events_app _ _ extra T). auto. }
  split.
  { intros calls.
    rewrite (run_all_cache_writes lib import_function self calls Tool.initial eq_refl).
    destruct (_cached_function _); lia. }
  intros params vi vo he s endpoint ty. apply unsupported_endpoint_raises.
Qed.

(* ================================================================== *)
(** ** Words of a string *)

Lemma str_app_assoc (a b c : string) : ((a ++ b) ++ c = a ++ b ++ c)%string.
Proof. induction a as [|x a IH]; simpl; [reflexivity|]. rewrite IH. reflexivity. Qed.

Lemma str_app_nil_r (a : string) : (a ++ "" = a)%string.
Proof. induction a as [|x a IH]; simpl; [reflexivity|]. rewrite IH. reflexivity. Qed.

Lemma string_of_list_ascii_app (l1 l2 : list ascii) :
  string_of_list_ascii (l1 ++ l2) =
  (string_of_list_ascii l1 ++ string_of_list_ascii l2)%string.
Proof. induction l1 as [|x l1 IH]; simpl; [reflexivity|]. rewrite IH. reflexivity. Qed.

Lemma str_app_eq_app (a b x y : string) :
  (a ++ b = x ++ y)%string ->
  (exists m, x = (a ++ m)%string /\ b = (m ++ y)%string) \/
  (exists m, a = (x ++ m)%string /\ y = (m ++ b)%string).
Proof.
  revert x. induction a as [|c a IH]; intros x H; simpl in H.
  - left. exists x. auto.
  - destruct x as [|d x]; simpl in H.
    + right. exists (String c a). auto.
    + inversion H; subst. destruct (IH x H2) as [(m & -> & ->)|(m & -> & ->)].
      * left. exists m. auto.
      * right. exists m. auto.
Qed.

Lemma no_space_app (a b : string) :
  no_space (a ++ b) = no_space a && no_space b.
Proof.
  induction a as [|c a IH]; simpl; [reflexivity|].
  rewrite IH, andb_assoc. reflexivity.
Qed.

Lemma ends_at_space_app (a b : string) :
  b <> "" -> ends_at_space (a ++ b) = ends_at_space b.
Proof.
  intros Hb. induction a as [|c a IH]; simpl; [reflexivity|].
  destruct (a ++ b)%string eqn:E; [|exact IH].
  destruct a; simpl in E; [contradiction|discriminate].
Qed.

Lemma ends_at_space_last (a : string) (c : ascii) :
  ends_at_space (a ++ String c "") = isspace c.
Proof. rewrite ends_at_space_app by discriminate. reflexivity. Qed.

Lemma no_space_ends (a : string) :
  no_space a = true -> ends_at_space a = true -> a = "".
Proof.
  induction a as [|c a IH]; [reflexivity|]. simpl.
  intros Hn He. apply andb_true_iff in Hn. destruct Hn as (Hc & Ha).
  destruct a as [|d a].
  - rewrite He in Hc. discriminate.
  - specialize (IH Ha He). discriminate.
Qed.

Lemma no_space_starts (a : string) :
  no_space a = true -> starts_at_space a = true -> a = "".
Proof.
  destruct a as [|c a]; [reflexivity|]. simpl. intros Hn Hs.
  rewrite Hs in Hn. discriminate.
Qed.

(** In a string without whitespace the only word is the string. *)
Lemma word_of_no_space (w pre : string) :
  no_space pre = true -> (word_of w pre <-> pre <> "" /\ w = pre).
Proof.
  intros Hpre. split.
  - intros (Hw & Hn & before & after & -> & Hb & Ha).
    rewrite !no_space_app in Hpre.
    apply andb_true_iff in Hpre. destruct Hpre as (Pb & Pw).
    apply andb_true_iff in Pw. destruct Pw as (_ & Pa).
    rewrite (no_space_ends before Pb Hb), (no_space_starts after Pa Ha).
    simpl. rewrite str_app_nil_r. split; [exact Hw|reflexivity].
  - intros (Hne & ->). split; [exact Hne|]. split; [exact Hpre|].
    exists "", "". simpl. rewrite str_app_nil_r. auto.
Qed.

(** Around a whitespace character: the words of [pre ++ c ++ rest],
    where [pre] has no whitespace, are [pre] (when it is not empty) and
    the words of [rest]. *)
Lemma word_of_at_space (w pre rest : string) (c : ascii) :
  no_space pre = true -> isspace c = true ->
  (word_of w (pre ++ String c rest) <->
   (pre <> "" /\ w = pre) \/ word_of w rest).
Proof.
  intros Hpre Hc. split.
  - intros (Hw & Hn & before & after & E & Hb & Ha).
    destruct (str_app_eq_app _ _ _ _ E) as [(m & -> & Em)|(m & -> & Em)].
    + (* the word starts at or after [c] *)
      destruct m as [|d m]; simpl in Em.
      * destruct w as [|x w]; [contradiction|]. simpl in Em. inversion Em; subst.
        simpl in Hn. rewrite Hc in Hn. discriminate.
      * inversion Em; subst. right. split; [exact Hw|]. split; [exact Hn|].
        exists m, after. split; [reflexivity|]. split; [|exact Ha].
        destruct m as [|y m]; [reflexivity|].
        rewrite ends_at_space_app in Hb by discriminate.
        change (String d (String y m)) with (String d "" ++ String y m)%string in Hb.
        rewrite ends_at_space_app in Hb by discriminate. exact Hb.
    + (* the word starts inside [pre] *)
      rewrite no_space_app in Hpre. apply andb_true_iff in Hpre.
      destruct Hpre as (Pb & Pm).
      assert (before = "") by (apply no_space_ends; assumption). subst before.
      simpl in *. symmetry in Em.
      destruct (str_app_eq_app _ _ _ _ Em) as [(m2 & -> & E2)|(m2 & -> & E2)].
      * (* [w] ends at or after [c] *)
        destruct m2 as [|d m2]; simpl in E2.
        -- left. rewrite str_app_nil_r. rewrite str_app_nil_r in Hw. auto.
        -- inversion E2; subst. rewrite no_space_app in Hn. simpl in Hn.
           rewrite Hc in Hn. simpl in Hn. rewrite andb_false_r in Hn. discriminate.
      * (* [w] ends inside [pre] *)
        destruct m2 as [|d m2]; simpl in E2.
        -- left. rewrite str_app_nil_r. auto.
        -- subst after. simpl in Ha.
           rewrite no_space_app in Pm. apply andb_true_iff in Pm.
           destruct Pm as (_ & Pm). simpl in Pm. rewrite Ha in Pm. discriminate.
  - intros [(Hne & ->)|(Hw & Hn & before & after & -> & Hb & Ha)].
    + split; [exact Hne|]. split; [exact Hpre|].
      exists "", (String c rest). simpl. auto.
    + split; [exact Hw|]. split; [exact Hn|].
      exists (pre ++ String c before)%string, after.
      split; [rewrite str_app_assoc; reflexivity|]. split; [|exact Ha].
      rewrite ends_at_space_app by discriminate.
      destruct before as [|y before]; [exact Hc|].
      change (String c (String y before)) with (String c "" ++ String y before)%string.
      rewrite ends_at_space_app by discriminate. exact Hb.
Qed.

Lemma split_from_spec (s : string) :
  forall (word : list ascii) (w : string),
    no_space (string_of_list_ascii (rev word)) = true ->
    (In w (split_from word s) <->
     word_of w (string_of_list_ascii (rev word) ++ s)).
Proof.
  induction s as [|c rest IH]; intros word w Hword.
  - rewrite str_app_nil_r, (word_of_no_space w _ Hword). simpl.
    destruct word as [|x word]; simpl.
    + split; [contradiction|]. intros (H & _). contradiction.
    + split.
      * intros [<-|[]]. split; [|reflexivity].
        rewrite string_of_list_ascii_app. simpl.
        destruct (string_of_list_ascii (rev word)); discriminate.
      * intros (_ & ->). left. reflexivity.
  - simpl. destruct (isspace c) eqn:Hc.
    + rewrite (word_of_at_space w _ rest c Hword Hc), in_app_iff.
      rewrite (IH [] w eq_refl). simpl.
      destruct word as [|x word]; simpl.
      * split; [intros [[]|H]; auto|]. intros [(H & _)|H]; [contradiction|auto].
      * split.
        -- intros [[<-|[]]|H]; [left|right; exact H]. split; [|reflexivity].
           rewrite string_of_list_ascii_app. simpl.
           destruct (string_of_list_ascii (rev word)); discriminate.
        -- intros [(_ & ->)|H]; [left; left; reflexivity|right; exact H].
    + rewrite (IH (c :: word) w).
      * simpl. rewrite string_of_list_ascii_app, str_app_assoc. reflexivity.
      * simpl. rewrite string_of_list_ascii_app, no_space_app, Hword. simpl.
        rewrite Hc. reflexivity.
Qed.

(** [split] returns the whitespace-delimited words. *)
Lemma split_spec (s w : string) : In w (split s) <-> word_of w s.
Proof. unfold split. rewrite (split_from_spec s [] w eq_refl). reflexivity. Qed.

(* ================================================================== *)
(** ** The registry *)

Lemma existsb_str_contains (needles : list string) (haystack : string) :
  existsb (fun needle => str_contains needle haystack) needles = true <->
  exists needle, In needle needles /\ occurs_in needle haystack.
Proof.
  rewrite existsb_exists. split; intros (x & Hin & H); exists x;
    (split; [exact Hin|]); apply str_contains_spec; exact H.
Qed.

Lemma trigger_matches_spec (trigger_spec : Doc.Trigger) (trigger query : string) :
  Doc.trigger trigger_spec = Some trigger ->
  existsb (fun keyword => str_contains keyword (lower query)) (split (lower trigger))
  || existsb (fun ex => str_contains ex (lower query))
       (map lower (get (Doc.examples trigger_spec) [])) = true
  <-> trigger_matches trigger_spec query.
Proof.
  intros Ht. rewrite orb_true_iff, !existsb_str_contains. unfold trigger_matches.
  split.
  - intros [(w & Hin & Ho)|(ex' & Hin & Ho)].
    + left. exists trigger, w. rewrite <- split_spec. auto.
    + right. apply in_map_iff in Hin. destruct Hin as (ex & <- & Hin). exists ex. auto.
  - intros [(t & w & Ht' & Hw & Ho)|(ex & Hin & Ho)].
    + left. exists w. rewrite Ht in Ht'. inversion Ht'; subst.
      rewrite split_spec. auto.
    + right. exists (lower ex). split; [apply in_map; exact Hin|exact Ho].
Qed.

Lemma matches_trigger_in_spec (triggers : list Doc.Trigger) (query : string) :
  (forall trigger_spec, In trigger_spec triggers -> Doc.trigger trigger_spec <> None) ->
  exists matched,
    Tool.matches_trigger_in triggers query = Return matched /\
    (matched = true <->
     exists trigger_spec, In trigger_spec triggers /\ trigger_matches trigger_spec query).
Proof.
  induction triggers as [|ts rest IH]; intros Hdecl; simpl.
  - exists false. split; [reflexivity|]. split; [discriminate|].
    intros (x & [] & _).
  - destruct (Doc.trigger ts) as [trigger|] eqn:Ht;
      [|exfalso; exact (Hdecl ts (or_introl eq_refl) Ht)].
    simpl. pose proof (trigger_matches_spec ts trigger query Ht) as Hspec.
    destruct (existsb (fun keyword => str_contains keyword (lower query))
                (split (lower trigger))) eqn:E1.
    + exists true. split; [reflexivity|]. split; [intros _|reflexivity].
      exists ts. split; [left; reflexivity|]. apply Hspec. reflexivity.
    + destruct (existsb (fun ex => str_contains ex (lower query))
                  (map lower (get (Doc.examples ts) []))) eqn:E2.
      * exists true. split; [reflexivity|]. split; [intros _|reflexivity].
        exists ts. split; [left; reflexivity|]. apply Hspec. reflexivity.
      * destruct IH as (matched & Hrun & Hiff);
          [intros x Hx; apply Hdecl; right; exact Hx|].
        exists matched. split; [exact Hrun|]. rewrite Hiff. split.
        -- intros (x & Hin & Hm). exists x. split; [right; exact Hin|exact Hm].
        -- intros (x & [<-|Hin] & Hm); [|exists x; auto].
           apply Hspec in Hm. simpl in Hm. discriminate.
Qed.

Lemma given_some (x : option string) (v : string) :
  ToolRegistry.given x = Some v <-> x = Some v /\ v <> "".
Proof.
  unfold ToolRegistry.given.
  destruct x as [s|]; [|split; [discriminate|intros (H & _); discriminate]].
  destruct (s =? "") eqn:E.
  - apply String.eqb_eq in E. subst.
    split; [discriminate|]. intros (H & Hne). inversion H; subst. contradiction.
  - apply String.eqb_neq in E. split.
    + intros H; inversion H; subst. auto.
    + intros (H & _). inversion H. reflexivity.
Qed.



Lemma find_tools_loop_spec (category : option string) (tags : option (list string))
    (query : option string) (candidates : list Tool.t) :
  (forall q tool, ToolRegistry.given query = Some q -> In tool candidates ->
     triggers_declared tool) ->
  forall results,
    ToolRegistry.find_tools_loop candidates category tags query results =
      Return (results ++ filter (keeps category tags query) candidates).
Proof.
  induction candidates as [|tool rest IH]; intros Hdecl results.
  - simpl. rewrite app_nil_r. reflexivity.
  - assert (Hrest : forall q t, ToolRegistry.given query = Some q -> In t rest ->
                      triggers_declared t)
      by (intros q t Hq Hin; apply (Hdecl q); [exact Hq|right; exact Hin]).
    specialize (IH Hrest).
    assert (Hrun : forall q, ToolRegistry.given query = Some q ->
                     exists matched, Tool.matches_trigger tool q = Return matched).
    { intros q Hq.
      destruct (matches_trigger_in_spec
                  (get (Doc.when_to_use (Tool.usage_guidance tool)) []) q
                  (Hdecl q tool Hq (or_introl eq_refl))) as (matched & Hm & _).
      exists matched. exact Hm. }
    cbn [ToolRegistry.find_tools_loop filter]. unfold keeps at 1.
    (* the category test *)
    destruct (ToolRegistry.given category) as [c|];
      [destruct (ToolManifest.category (Tool.manifest tool) =? c);
       cbn [negb andb]; [|apply IH]|].
    (* the tags test, then the query test *)
    all: destruct tags as [[|tag more]|]; cbn [forallb andb negb];
      try (destruct (list_contains tag (ToolManifest.tags (Tool.manifest tool))
                     && forallb (fun tag' => list_contains tag'
                                               (ToolManifest.tags (Tool.manifest tool)))
                          more); cbn [negb andb]; [|apply IH]).
    all: destruct (ToolRegistry.given query) as [q|] eqn:Hq;
      [destruct (Hrun q eq_refl) as ([|] & Hm); rewrite Hm; cbn [rbind negb];
       [|apply IH]|];
      rewrite IH, <- app_assoc; reflexivity.
Qed.


Lemma register_tool_tools (registry : ToolRegistry.t) (tool : Tool.t) :
  ToolRegistry.tools (ToolRegistry.register_tool registry tool) =
  ToolRegistry.setitem (ToolManifest.id (Tool.manifest tool)) tool
    (ToolRegistry.tools registry).
Proof. reflexivity. Qed.




(* ================================================================== *)
(** ** The statements at the sample tools *)

Lemma invalid_input_raises_before_invocation_witness :
  Doc.parameters (Tool.execution Sample.strict_tool)
    = Some (JObj [("required", JArr [JStr "query"])]) /\
  validate Sample.typed (OfValue (JObj [])) (JObj [("required", JArr [JStr "query"])])
    = Some (Sample.SchemaMismatch "'query' is a required property") /\
  isinstance (Sample.SchemaMismatch "'query' is a required property")
    (JSONSchemaValidationError Sample.typed) = true /\
  let run := Tool.execute Sample.typed (Sample.importing (Sample.constant (JStr "ok")))
               Sample.strict_tool [] true true true Tool.initial in
  fst run = Raise (ValidationError
                     "Invalid input parameters: 'query' is a required property") /\
  snd run = Tool.initial /\
  import_count (new_events Tool.initial (snd run)) = 0%nat /\
  call_count (new_events Tool.initial (snd run)) = 0%nat.
Proof.
  split; [reflexivity|]. split; [reflexivity|]. split; [reflexivity|].
  exact (invalid_input_raises_before_invocation Sample.typed
           (Sample.importing (Sample.constant (JStr "ok"))) Sample.strict_tool []
           true true Tool.initial (JObj [("required", JArr [JStr "query"])])
           (Sample.SchemaMismatch "'query' is a required property")
           eq_refl eq_refl eq_refl).
Defined.

Lemma first_matching_rule_or_reraise_witness :
  let error := Sample.ConnectionError "connection reset" in
  let first := Case.handler_on "deadline" (Some "TimeoutError") RETRY_WITH_BACKOFF in
  let second := Case.handler_on "reset" None FAIL in
  let third := Case.handler_on "timed out" (Some "ConnectionError") WAIT_AND_RETRY in
  let execute tool handle_errors :=
    Tool.execute Sample.accepting (Sample.importing (Sample.flaky 1)) tool []
      true true handle_errors Tool.initial in
  (Tool.error_handlers Case.layered_tool = [first; second; third] /\
   ~ rule_matches first error /\ rule_matches second error /\
   rule_matches third error /\
   fst (execute Case.layered_tool true) = Raise error /\
   call_count (new_events Tool.initial (snd (execute Case.layered_tool true))) = 1%nat /\
   delays (new_events Tool.initial (snd (execute Case.layered_tool true))) = []) /\
  (Tool.error_handlers Case.relayered_tool = [first; third; second] /\
   exists s1,
     execute Case.relayered_tool true =
       Tool.execute Sample.accepting (Sample.importing (Sample.flaky 1))
         Case.relayered_tool [] true true false s1 /\
     delays (new_events Tool.initial s1) = [1] /\
     call_count (new_events Tool.initial s1) = 1%nat) /\
  (execute Sample.plain_tool false
   = (Raise error, snd (execute Sample.plain_tool false)) /\
   Tool.find_handler error (Tool.error_handlers Sample.plain_tool) = None /\
   fst (execute Sample.plain_tool true) = Raise error).
Proof.
  intros error first second third execute.
  assert (Hfirst : ~ rule_matches first error)
    by (intros H; apply rule_matches_spec in H; discriminate H).
  assert (Hsecond : rule_matches second error)
    by (apply rule_matches_spec; reflexivity).
  assert (Hthird : rule_matches third error)
    by (apply rule_matches_spec; reflexivity).
  split; [|split].
  - split; [reflexivity|]. split; [exact Hfirst|]. split; [exact Hsecond|].
    split; [exact Hthird|].
    exact (proj1 (proj2
             (proj1 (proj2 (proj2
                (first_matching_rule_or_reraise Sample.accepting
                   (Sample.importing (Sample.flaky 1)) Case.layered_tool [] true true
                   Tool.initial)))
                (Sample.flaky 1) (Sample.resolved (Sample.flaky 1)) error
                [first] second [third] eq_refl eq_refl eq_refl eq_refl
                (Forall_cons first Hfirst (Forall_nil (fun h' => ~ rule_matches h' error))) Hsecond))
             eq_refl).
  - split; [reflexivity|].
    exact (proj1 (proj2 (proj2
             (proj1 (proj2 (proj2
                (first_matching_rule_or_reraise Sample.accepting
                   (Sample.importing (Sample.flaky 1)) Case.relayered_tool [] true true
                   Tool.initial)))
                (Sample.flaky 1) (Sample.resolved (Sample.flaky 1)) error
                [first] third [second] eq_refl eq_refl eq_refl eq_refl
                (Forall_cons first Hfirst (Forall_nil (fun h' => ~ rule_matches h' error))) Hthird)))
             eq_refl eq_refl).
  - split; [reflexivity|]. split; [reflexivity|].
    exact (proj1
             (proj2 (proj2 (proj2
                (first_matching_rule_or_reraise Sample.accepting
                   (Sample.importing (Sample.flaky 1)) Sample.plain_tool [] true true
                   Tool.initial)))
                error (snd (execute Sample.plain_tool false)) eq_refl eq_refl)).
Defined.

Lemma output_validation_is_advisory_witness :
  prepare Sample.typed (Sample.importing (Sample.constant (JInt 7))) Sample.plain_tool []
    true Tool.initial
  = (Return (Sample.constant (JInt 7)), Sample.resolved (Sample.constant (JInt 7))) /\
  Sample.constant (JInt 7) (invocations Tool.initial) [] = Return (JInt 7) /\
  Doc.returns (Tool.execution Sample.plain_tool)
    = Some {| Doc.success_schema := Some (JObj [("type", JStr "string")]) |} /\
  Doc.success_schema {| Doc.success_schema := Some (JObj [("type", JStr "string")]) |}
    = Some (JObj [("type", JStr "string")]) /\
  validate Sample.typed (OfValue (JInt 7)) (JObj [("type", JStr "string")])
    = Some (Sample.SchemaMismatch "instance is not of type 'string'") /\
  isinstance (Sample.SchemaMismatch "instance is not of type 'string'")
    (JSONSchemaValidationError Sample.typed) = true /\
  let run := Tool.execute Sample.typed (Sample.importing (Sample.constant (JInt 7)))
               Sample.plain_tool [] true true true Tool.initial in
  fst run = Return (JInt 7) /\
  warnings (new_events Tool.initial (snd run))
    = ["Output validation failed: instance is not of type 'string'"] /\
  call_count (new_events Tool.initial (snd run)) = 1%nat /\
  delays (new_events Tool.initial (snd run)) = [].
Proof.
  do 6 (split; [reflexivity|]).
  exact (output_validation_is_advisory Sample.typed
           (Sample.importing (Sample.constant (JInt 7))) Sample.plain_tool [] true true
           Tool.initial (Sample.constant (JInt 7))
           (Sample.resolved (Sample.constant (JInt 7))) (JInt 7)
           {| Doc.success_schema := Some (JObj [("type", JStr "string")]) |}
           (JObj [("type", JStr "string")])
           (Sample.SchemaMismatch "instance is not of type 'string'")
           eq_refl eq_refl eq_refl eq_refl eq_refl eq_refl).
Defined.




Lemma hyphenated_is_unrecognized : unrecognized "retry-with-backoff".
Proof. intros strategy. destruct strategy; discriminate. Qed.

Lemma malformed_document_constructs_no_tool_witness :
  (missing_section Sample.hyphenated_document \/
   has_unrecognized_strategy Sample.hyphenated_document) /\
  (exists e,
     Tool.__init__ Sample.hyphenated_document = Raise e /\
     (exn_name e = "KeyError" \/ exn_name e = "ValueError") /\
     isinstance e Exception = true) /\
  (forall tool, Tool.__init__ Sample.hyphenated_document <> Return tool) /\
  (Doc.manifest Sample.hyphenated_document = None ->
   Tool.__init__ Sample.hyphenated_document = Raise (KeyError "manifest")).
Proof.
  assert (H : missing_section Sample.hyphenated_document \/
              has_unrecognized_strategy Sample.hyphenated_document).
  { right. eexists _, _, "retry-with-backoff".
    split; [left; reflexivity|]. split; [reflexivity|]. split; [reflexivity|].
    exact hyphenated_is_unrecognized. }
  split; [exact H|].
  exact (malformed_document_constructs_no_tool Sample.hyphenated_document H).
Defined.

(** C6, as the specification words it, fails: the failure of
    construction is no [SpecError].  A document without sections raises
    the [KeyError] of ['manifest'], a document with an unrecognized
    strategy the [ValueError] of the enumeration. *)
Lemma construction_raises_no_SpecError :
  missing_section Sample.empty_document /\
  Tool.__init__ Sample.empty_document = Raise (KeyError "manifest") /\
  exn_name (KeyError "manifest") = "KeyError" /\
  exn_name (KeyError "manifest") <> "SpecError" /\
  Tool.__init__ Sample.hyphenated_document =
    Raise (ValueError "'retry-with-backoff' is not a valid RecoveryStrategy") /\
  exn_name (ValueError "'retry-with-backoff' is not a valid RecoveryStrategy")
    <> "SpecError".
Proof.
  split; [left; reflexivity|]. split; [reflexivity|]. split; [reflexivity|].
  split; [discriminate|]. split; [reflexivity|discriminate].
Qed.

Lemma missing_validator_accepts_everything_witness :
  Doc.parameters (Tool.execution Sample.plain_tool) = Some (JObj [("type", JStr "object")]) /\
  (forall s,
     (forall params,
        Tool.validate_input jsonschema_missing Sample.plain_tool params s
          = (Return true, s)) /\
     (forall result,
        Tool.validate_output jsonschema_missing Sample.plain_tool result s
          = (Return true, s)) /\
     (forall spec_schema,
        fst (Tool.validate_spec jsonschema_missing Sample.plain_tool spec_schema s)
          = Return true)) /\
  Doc.parameters (Tool.execution Case.schemaless_tool) = None /\
  Tool.validate_input jsonschema_missing Case.schemaless_tool [] Tool.initial
    = (Raise (KeyError "parameters"), Tool.initial).
Proof.
  split; [reflexivity|]. split.
  - intros s.
    destruct (missing_validator_accepts_everything Sample.plain_tool s)
      as (Hout & Hspec & Hin & _).
    split; [|split; [exact Hout|exact Hspec]].
    exact (proj1 (Hin (JObj [("type", JStr "object")]) eq_refl)).
  - split; [reflexivity|].
    exact (proj1 (proj2 (proj2 (proj2
             (missing_validator_accepts_everything Case.schemaless_tool Tool.initial)))
             eq_refl) []).
Defined.

(** C7, as the specification words it, fails for a tool whose
    [execution] section has no [parameters]: the document constructs a
    tool, and with the fallback validator [validate_input] and an
    [execute] that validates its input raise [KeyError], the callable
    never being invoked. *)
Lemma missing_parameters_raise_KeyError :
  Tool.__init__ (Tool.spec Case.schemaless_tool) = Return Case.schemaless_tool /\
  Doc.parameters (Tool.execution Case.schemaless_tool) = None /\
  Tool.validate_input jsonschema_missing Case.schemaless_tool [] Tool.initial
    = (Raise (KeyError "parameters"), Tool.initial) /\
  exn_str (KeyError "parameters") = "'parameters'" /\
  Tool.execute jsonschema_missing (Sample.importing (Sample.constant (JStr "ok")))
    Case.schemaless_tool [] true true true Tool.initial
    = (Raise (KeyError "parameters"), Tool.initial).
Proof. repeat split; reflexivity. Qed.


Lemma resolution_is_lazy_and_cached_witness :
  (let first := Tool.execute Sample.accepting (Sample.importing (Sample.flaky 0))
                  Sample.plain_tool [] true true true Tool.initial in
   _cached_function Tool.initial = None /\
   _cached_function (snd first) = Some (Sample.flaky 0) /\
   import_count (new_events Tool.initial (snd first)) = 1%nat /\
   cache_writes (new_events Tool.initial (snd first)) = 1%nat /\
   let second := Tool.execute Sample.accepting (Sample.importing (Sample.flaky 0))
                   Sample.plain_tool [] true true true (snd first) in
   _cached_function (snd second) = Some (Sample.flaky 0) /\
   import_count (new_events (snd first) (snd second)) = 0%nat) /\
  Tool.execute Sample.accepting (Sample.importing (Sample.flaky 0)) Sample.http_tool []
    true true true Tool.initial
  = (Raise (NotImplementedError "Protocol http not yet supported"), Tool.initial).
Proof.
  destruct (resolution_is_lazy_and_cached Sample.accepting
              (Sample.importing (Sample.flaky 0)) Sample.plain_tool)
    as (_ & Hinit & Hfirst & Hnext & _ & _).
  destruct (resolution_is_lazy_and_cached Sample.accepting
              (Sample.importing (Sample.flaky 0)) Sample.http_tool)
    as (_ & _ & _ & _ & _ & Hhttp).
  split.
  - cbv zeta. split; [exact Hinit|].
    destruct (Hfirst [] true true true Tool.initial
                (Sample.endpoint "python_function") "shop.search" "search_database"
                (Sample.flaky 0) eq_refl) as (C & I & W);
      try reflexivity.
    { intros _. eexists. split; reflexivity. }
    split; [exact C|]. split; [exact I|]. split; [exact W|].
    exact (Hnext [] true true true _ (Sample.flaky 0) C).
  - apply (Hhttp [] true true true Tool.initial (Sample.endpoint "http") "http");
      try reflexivity.
    + intros _. eexists. split; reflexivity.
    + discriminate.
Defined.






(** Outside the hypotheses of the retry schedule: with a negative
    [max_retries] the loop has no iteration, [_retry_with_backoff] falls
    off its end and [execute] returns [None] for the failed invocation. *)
Remark negative_max_retries_returns_none :
  Sample.flaky 1 0%nat [] = Raise (Sample.ConnectionError "connection reset") /\
  fst (Tool.execute Sample.accepting (Sample.importing (Sample.flaky 1))
         Sample.negative_retries_tool [] true true true Tool.initial) = Return JNull /\
  call_count (trace (snd (Tool.execute Sample.accepting
                            (Sample.importing (Sample.flaky 1))
                            Sample.negative_retries_tool [] true true true
                            Tool.initial))) = 1%nat.
Proof. repeat split; reflexivity. Qed.

(* ================================================================== *)
(** * Further properties *)

(* ================================================================== *)
(** ** More of the recovery dispatch *)

Section Recovery.

Variable lib : jsonschema.
Variable import_function : string -> string -> result callable.
Variable self : Tool.t.
Variable params : dict.

(** Where [_handle_error] starts after a failed first invocation. *)
Lemma execute_handler_state vi vo s func s0 e0 :
  prepare lib import_function self params vi s = (Return func, s0) ->
  func (invocations s) params = Raise e0 ->
  isinstance e0 Exception = true ->
  exists s1 extra,
    Tool.execute lib import_function self params vi vo true s =
      Tool._handle_error lib import_function self e0 params s1 /\
    trace s1 = trace s ++ extra /\
    delays extra = [] /\ call_count extra = 1%nat /\ warnings extra = [].
Proof.
  intros Hprep Hf He.
  destruct (prepare_returns lib import_function self params vi s func s0 Hprep)
    as (Hc & Hi & x0 & Ht & Hd & Hn & _ & _ & _ & Hw).
  unfold Tool.execute. rewrite execute_with_run, Hprep.
  unfold try_except.
  rewrite (guarded_fails lib self params func vo s0 e0) by (rewrite Hi; exact Hf).
  rewrite He.
  eexists _, (x0 ++ [Log INFO _; Invoke params]). split; [reflexivity|].
  cbn [invoked add_events _cached_function invocations trace].
  rewrite Ht, delays_app, call_count_app, warnings_app, Hd, Hn, Hw, <- !app_assoc.
  repeat split; reflexivity.
Qed.

(** X4.  When the first invocation fails and the matching rule's strategy
    is [retry], [alternate_tool], [fail] or [prompt_user], [execute]
    raises that failure as it is: the callable has been invoked once,
    nothing sleeps, nothing is retried and no other tool is called.
    [prompt_user] logs one warning first, the rule's [message_to_user]
    or, when that is unset or empty, the failure's message; the other
    three log no warning. *)
Theorem other_strategies_reraise vi vo s func s0 e0 handler :
  prepare lib import_function self params vi s = (Return func, s0) ->
  func (invocations s) params = Raise e0 ->
  isinstance e0 Exception = true ->
  Tool.find_handler e0 (Tool.error_handlers self) = Some handler ->
  retrying (ErrorRecovery.strategy handler) = false ->
  let run := Tool.execute lib import_function self params vi vo true s in
  fst run = Raise e0 /\
  call_count (new_events s (snd run)) = 1%nat /\
  delays (new_events s (snd run)) = [] /\
  warnings (new_events s (snd run)) =
    match ErrorRecovery.strategy handler with
    | PROMPT_USER => [or_str (ErrorRecovery.message_to_user handler) (exn_str e0)]
    | _ => []
    end.
Proof.
  intros Hprep Hf He Hfind Hstrat run.
  destruct (execute_handler_state vi vo s func s0 e0 Hprep Hf He)
    as (s1 & x1 & E & T & D & N & W).
  subst run. rewrite E. unfold Tool._handle_error. rewrite Hfind.
  unfold bind at 1, log at 1, emit at 1.
  destruct (ErrorRecovery.strategy handler) eqn:S; try discriminate Hstrat;
    unfold bind, log, emit, raise; cbn [fst snd];
    unfold new_events; cbn [trace add_events];
    rewrite T, <- !app_assoc, skipn_app, skipn_all, Nat.sub_diag;
    cbn [skipn app];
    rewrite !call_count_app, !delays_app, !warnings_app, D, N, W;
    repeat split; reflexivity.
Qed.


(** X5.  A [retry_with_backoff] rule whose [max_retries] is negative
    swallows the failure: the loop has no iteration, so [execute]
    returns [None] after the one failed invocation, without a sleep and
    without raising. *)
Theorem negative_max_retries_swallows_failure vi vo s func s0 e0 handler :
  prepare lib import_function self params vi s = (Return func, s0) ->
  func (invocations s) params = Raise e0 ->
  isinstance e0 Exception = true ->
  Tool.find_handler e0 (Tool.error_handlers self) = Some handler ->
  ErrorRecovery.strategy handler = RETRY_WITH_BACKOFF ->
  (retries handler < 0)%Z ->
  let run := Tool.execute lib import_function self params vi vo true s in
  fst run = Return JNull /\
  call_count (new_events s (snd run)) = 1%nat /\
  delays (new_events s (snd run)) = [].
Proof.
  intros Hprep Hf He Hfind Hstrat Hneg run.
  destruct (execute_handler_state vi vo s func s0 e0 Hprep Hf He)
    as (s1 & x1 & E & T & D & N & W).
  subst run. rewrite E. unfold Tool._handle_error. rewrite Hfind, Hstrat.
  unfold Tool._retry_with_backoff. fold (retries handler).
  replace (Z.to_nat (retries handler)) with 0%nat by lia.
  unfold bind, log, emit, Tool.retry_attempts, ret; cbn [fst snd].
  unfold new_events; cbn [trace].
  rewrite T, <- !app_assoc, skipn_app, skipn_all, Nat.sub_diag.
  cbn [skipn app].
  rewrite !call_count_app, !delays_app, D, N.
  repeat split; reflexivity.
Qed.



(** *** Counting invocations and sleeps *)

Lemma bounded_weaken {A} n m n' m' (c : M A) :
  (n <= n')%nat -> (m <= m')%nat -> bounded n m c -> bounded n' m' c.
Proof.
  intros Hn Hm H s. destruct (H s) as (x & T & N & D).
  exists x. repeat split; auto; lia.
Qed.

Lemma bounded_quiet {A} n (c : M A) : quiet n c -> bounded n 0 c.
Proof.
  intros H s. destruct (H s) as (x & T & D & N).
  exists x. rewrite D. repeat split; auto.
Qed.

Lemma bounded_bind {A B} n m n' m' (c : M A) (k : A -> M B) :
  bounded n m c -> (forall a, bounded n' m' (k a)) ->
  bounded (n + n') (m + m') (bind c k).
Proof.
  intros Hc Hk s. unfold bind. destruct (Hc s) as (e1 & T1 & N1 & D1).
  destruct (c s) as [[a|e] s1]; simpl in *.
  - destruct (Hk a s1) as (e2 & T2 & N2 & D2). exists (e1 ++ e2).
    rewrite T2, T1, app_assoc, delays_app, call_count_app, length_app.
    repeat split; auto; lia.
  - exists e1. repeat split; auto; lia.
Qed.

Lemma bounded_try_except {A} n m n' m' (body : M A) catches (handler : exn -> M A) :
  bounded n m body -> (forall e, bounded n' m' (handler e)) ->
  bounded (n + n') (m + m') (try_except body catches handler).
Proof.
  intros Hb Hh s. unfold try_except. destruct (Hb s) as (e1 & T1 & N1 & D1).
  destruct (body s) as [[a|e] s1]; simpl in *.
  - exists e1. repeat split; auto; lia.
  - destruct (catches e).
    + destruct (Hh e s1) as (e2 & T2 & N2 & D2). exists (e1 ++ e2).
      rewrite T2, T1, app_assoc, delays_app, call_count_app, length_app.
      repeat split; auto; lia.
    + exists e1. repeat split; auto; lia.
Qed.

Lemma bounded_sleep seconds : bounded 0 1 (sleep seconds).
Proof.
  intros s. unfold sleep. destruct (sleep_error seconds).
  - exists []. simpl. rewrite app_nil_r. auto.
  - exists [Sleep seconds]. simpl. auto.
Qed.

Lemma bounded_silent {A} (c : M A) : (forall s, snd (c s) = s) -> bounded 0 0 c.
Proof. intros H. apply bounded_quiet, quiet_silent, H. Qed.

Lemma bounded_execute_unhandled :
  bounded 1 0 (Tool.execute_unhandled lib import_function self params).
Proof. apply bounded_quiet, quiet_execute_unhandled. Qed.

Lemma bounded_retry_attempts max_retries backoff_ms remaining :
  forall attempt,
    bounded remaining remaining
      (Tool.retry_attempts lib import_function self params max_retries backoff_ms
         remaining attempt).
Proof.
  induction remaining as [|n IH]; intros attempt.
  - apply bounded_silent. reflexivity.
  - cbn [Tool.retry_attempts].
    apply (bounded_try_except 1 1 n n).
    + apply (bounded_bind 0 1 1 0); [|intros _; apply bounded_execute_unhandled].
      destruct (attempt >? 0)%Z;
        [|apply (bounded_weaken 0 0); [lia|lia|apply bounded_silent; reflexivity]].
      apply (bounded_bind 0 0 0 1); [apply bounded_quiet, quiet_log|intros _].
      apply (bounded_bind 0 0 0 1);
        [apply bounded_silent; reflexivity|intros seconds; apply bounded_sleep].
    + intros e. destruct (attempt =? max_retries - 1)%Z; [|apply IH].
      apply (bounded_weaken 0 0); [lia|lia|].
      apply (bounded_bind 0 0 0 0); [apply bounded_quiet, quiet_log|].
      intros _. apply bounded_silent. reflexivity.
Qed.

Lemma rule_budget_le handler :
  In handler (Tool.error_handlers self) ->
  (rule_budget handler <= retry_budget self)%nat.
Proof.
  intros H. unfold retry_budget.
  pose proof (proj1 (list_max_le (map rule_budget (Tool.error_handlers self))
                       (list_max (map rule_budget (Tool.error_handlers self))))
                (Nat.le_refl _)) as Hall.
  rewrite Forall_forall in Hall. apply Hall, in_map, H.
Qed.

Lemma bounded_handle_error e :
  bounded (retry_budget self) (retry_budget self)
    (Tool._handle_error lib import_function self e params).
Proof.
  unfold Tool._handle_error.
  destruct (Tool.find_handler e (Tool.error_handlers self)) as [handler|] eqn:Hfind.
  - apply find_handler_some in Hfind. destruct Hfind as (before & after & Hh & _).
    assert (Hin : In handler (Tool.error_handlers self))
      by (rewrite Hh; apply in_elt).
    apply (bounded_weaken (rule_budget handler) (rule_budget handler));
      try apply (rule_budget_le _ Hin).
    apply (bounded_bind 0 0 _ _); [apply bounded_quiet, quiet_log|]. intros _.
    unfold rule_budget.
    destruct (ErrorRecovery.strategy handler);
      try (apply bounded_silent; reflexivity).
    + apply bounded_retry_attempts.
    + apply (bounded_bind 0 0 1 1).
      { destruct (ErrorRecovery.message_to_user handler) as [m|];
          [destruct (m =? "")|];
          try (apply bounded_silent; reflexivity).
        apply bounded_quiet, quiet_log. }
      intros _. apply (bounded_bind 0 1 1 0); [apply bounded_sleep|].
      intros _. apply bounded_execute_unhandled.
    + apply (bounded_bind 0 0 0 0); [apply bounded_quiet, quiet_log|].
      intros _. apply bounded_silent. reflexivity.
  - apply (bounded_weaken 0 0); [lia|lia|].
    apply (bounded_bind 0 0 0 0); [apply bounded_quiet, quiet_log|].
    intros _. apply bounded_silent. reflexivity.
Qed.

Lemma bounded_execute vi vo he :
  bounded (1 + retry_budget self) (retry_budget self)
    (Tool.execute lib import_function self params vi vo he).
Proof.
  unfold Tool.execute, Tool.execute_with.
  apply (bounded_bind 0 0 _ _).
  { apply bounded_quiet.
    destruct vi; [apply quiet_validate_input|apply quiet_silent; reflexivity]. }
  intros _. apply (bounded_bind 0 0 _ _); [apply bounded_quiet, quiet_load_function|].
  intros func. apply (bounded_try_except 1 0).
  - apply bounded_quiet.
    apply (quiet_bind 0 1); [apply quiet_log|]. intros _.
    apply (quiet_bind 1 0); [apply quiet_call|]. intros result.
    apply (quiet_bind 0 0).
    { destruct vo; [apply quiet_validate_output|apply quiet_silent; reflexivity]. }
    intros _. apply (quiet_bind 0 0); [apply quiet_log|].
    intros _. apply quiet_silent; reflexivity.
  - intros e. destruct he; [apply bounded_handle_error|].
    apply (bounded_weaken 0 0); [lia|lia|]. apply bounded_silent. reflexivity.
Qed.

(** X8.  From every state and for every argument, one [execute]
    invokes the callable at most once more than the largest number of
    retries that a rule of the tool allows ([max_retries] for
    [retry_with_backoff], one for [wait_and_retry], none for the other
    strategies), and sleeps at most that number of times. *)
Theorem execute_within_retry_budget vi vo he s :
  let extra :=
    new_events s (snd (Tool.execute lib import_function self params vi vo he s)) in
  (call_count extra <= 1 + retry_budget self)%nat /\
  (length (delays extra) <= retry_budget self)%nat.
Proof.
  destruct (bounded_execute vi vo he s) as (x & T & N & D).
  cbv zeta. rewrite (new_events_app _ _ _ T). auto.
Qed.


(** *** Retries validate the input again *)





(** X10.  With [handle_errors=False], [execute] never sleeps and invokes
    the callable at most once; and when it returns, [execute] with
    error handling gives the same result and the same final state. *)
Theorem unhandled_execute_is_one_attempt vi vo s :
  let run := Tool.execute lib import_function self params vi vo false s in
  delays (new_events s (snd run)) = [] /\
  (call_count (new_events s (snd run)) <= 1)%nat /\
  (forall r, fst run = Return r ->
     Tool.execute lib import_function self params vi vo true s = run).
Proof.
  cbv zeta. unfold Tool.execute.
  destruct (quiet_execute_unhandled lib import_function self params
              (Tool._handle_error lib import_function self) vi vo s)
    as (x & T & D & N).
  rewrite (new_events_app _ _ _ T). repeat split; auto.
  intros r. rewrite !execute_with_run.
  destruct (prepare lib import_function self params vi s) as [[func|e] s0];
    [|discriminate].
  unfold try_except.
  destruct (guarded lib self params func vo s0) as [[r'|e] s1]; [reflexivity|].
  destruct (isinstance e Exception); discriminate.
Qed.

(** X11.  When the endpoint's function cannot be imported, [execute]
    raises before anything is invoked: a [ToolExecutionError] that
    names the module, the function and the cause when the import
    raised an [ImportError] or an [AttributeError], the import's own
    exception otherwise.  No recovery rule is consulted, nothing sleeps,
    and the cache stays empty, so the next [execute] imports again. *)
Theorem unresolvable_function_raises vi vo he s endpoint module_name function_name e :
  _cached_function s = None ->
  (vi = true -> accepts_input lib self params) ->
  Doc.endpoint (Tool.execution self) = Some endpoint ->
  Doc.type endpoint = Some "python_function" ->
  Doc.module endpoint = Some module_name ->
  Doc.function endpoint = Some function_name ->
  import_function module_name function_name = Raise e ->
  let run := Tool.execute lib import_function self params vi vo he s in
  fst run =
    Raise (if isinstance e ImportError || isinstance e AttributeError
           then ToolExecutionError
                  ("Could not load function " ++ module_name ++ "."
                     ++ function_name ++ ": " ++ exn_str e)
           else e) /\
  _cached_function (snd run) = None /\
  call_count (new_events s (snd run)) = 0%nat /\
  delays (new_events s (snd run)) = [] /\
  import_count (new_events s (snd run)) = 1%nat.
Proof.
  intros Hc Hin Hep Hty Hm Hfn Himp run. subst run.
  unfold Tool.execute. rewrite execute_with_run.
  assert (Hprep : prepare lib import_function self params vi s =
            Tool._load_function import_function self s).
  { unfold prepare, bind. destruct vi; [|reflexivity].
    rewrite (validate_input_accepts lib self params s (Hin eq_refl)). reflexivity. }
  rewrite Hprep.
  unfold Tool._load_function, bind, get_cached, lift. rewrite Hc, Hep.
  cbn [getitem]. rewrite Hty. cbn [getitem].
  change ("python_function" =? "python_function") with true. cbv iota.
  rewrite Hm, Hfn. cbn [getitem].
  unfold try_except, bind, Tool.import. rewrite Himp.
  unfold new_events.
  destruct (isinstance e ImportError || isinstance e AttributeError);
    unfold raise; cbn [fst snd trace _cached_function];
    rewrite skipn_app, skipn_all, Nat.sub_diag; cbn [skipn app];
    repeat split; auto.
Qed.


(** *** Failures of the validator itself *)

Lemma guarded_output_error func s r returns schema e :
  func (invocations s) params = Return r ->
  Doc.returns (Tool.execution self) = Some returns ->
  Doc.success_schema returns = Some schema ->
  validate lib (OfValue r) schema = Some e ->
  isinstance e (JSONSchemaValidationError lib) = false ->
  guarded lib self params func true s =
    (Raise e,
     invoked (add_events s [Log INFO ("Executing tool: "
                                        ++ ToolManifest.name (Tool.manifest self))])
       params).
Proof.
  intros Hf Hr Hs Hv Hi.
  unfold guarded, bind, log, emit, call. cbn [invocations]. rewrite Hf.
  unfold Tool.validate_output. rewrite Hr, Hs.
  unfold try_except, bind, Tool.run_validate, raise,
    Tool.is_JSONSchemaValidationError.
  rewrite Hv, Hi. reflexivity.
Qed.

(** X12.  What the validator raises that is not a validation error (a
    schema that is not one, say) is not turned into a
    [ValidationError].  From input validation it leaves [execute] as it
    is, with the state untouched.  From output validation it counts as
    a failure of the invocation: without error handling, or without a
    matching rule, [execute] raises it and the result of the one
    invocation is lost. *)
Theorem validator_errors_are_not_wrapped vi vo he s e :
  isinstance e (JSONSchemaValidationError lib) = false ->
  (forall schema,
     vi = true ->
     Doc.parameters (Tool.execution self) = Some schema ->
     validate lib (OfValue (JObj params)) schema = Some e ->
     Tool.execute lib import_function self params vi vo he s = (Raise e, s)) /\
  (forall func s0 r returns schema,
     vo = true ->
     prepare lib import_function self params vi s = (Return func, s0) ->
     func (invocations s) params = Return r ->
     Doc.returns (Tool.execution self) = Some returns ->
     Doc.success_schema returns = Some schema ->
     validate lib (OfValue r) schema = Some e ->
     isinstance e Exception = true ->
     he = false \/ Tool.find_handler e (Tool.error_handlers self) = None ->
     let run := Tool.execute lib import_function self params vi vo he s in
     fst run = Raise e /\
     call_count (new_events s (snd run)) = 1%nat /\
     delays (new_events s (snd run)) = []).
Proof.
  intros Hi. split.
  - intros schema -> Hs Hv.
    unfold Tool.execute, Tool.execute_with, Tool.validate_input.
    unfold bind, lift, try_except, Tool.run_validate, raise,
      Tool.is_JSONSchemaValidationError.
    rewrite Hs. cbn [getitem]. rewrite Hv, Hi. reflexivity.
  - intros func s0 r returns schema -> Hprep Hf Hr Hs Hv He Hno run. subst run.
    destruct (prepare_returns lib import_function self params vi s func s0 Hprep)
      as (Hc & Hinv & x0 & Ht & Hd & Hn & _).
    unfold Tool.execute. rewrite execute_with_run, Hprep. unfold try_except.
    rewrite (guarded_output_error func s0 r returns schema e)
      by (try rewrite Hinv; assumption).
    rewrite He.
    assert (E : (if he then Tool._handle_error lib import_function self e params
                 else raise e) =
                (if he
                 then (log ERROR ("No error handler found for " ++ exn_name e) ;;
                       raise e)%exec
                 else raise e)).
    { destruct he; [|reflexivity]. destruct Hno as [H|H]; [discriminate|].
      unfold Tool._handle_error. rewrite H. reflexivity. }
    rewrite E. unfold new_events.
    destruct he; unfold bind, log, emit, raise; cbn [fst snd invoked add_events trace];
      rewrite Ht, <- !app_assoc, skipn_app, skipn_all, Nat.sub_diag;
      cbn [skipn app]; rewrite !call_count_app, !delays_app, Hd, Hn;
      repeat split; reflexivity.
Qed.


(** *** Delays that are refused *)

Lemma backoff_before_forall (P : Z -> Prop) (backoff_ms : list Z) (a : nat) :
  backoff_ms <> [] -> Forall P backoff_ms -> P (backoff_before backoff_ms a).
Proof.
  intros Hne H. unfold backoff_before. rewrite Forall_forall in H.
  apply H, nth_In. destruct backoff_ms; [congruence|]. simpl. lia.
Qed.

Lemma delay_error_run (d : Z) (e : exn) s :
  delay_error d = Some e ->
  (seconds <- lift (truediv d 1000) ;; sleep seconds)%exec s = (Raise e, s) /\
  isinstance e Exception = true.
Proof.
  unfold delay_error, bind, lift, sleep.
  destruct (truediv d 1000) as [seconds|e'] eqn:T.
  - intros H. rewrite H. split; [reflexivity|].
    unfold sleep_error in H.
    destruct (negb (sleep_in_range seconds)); [inversion H; reflexivity|].
    destruct (Qle_bool 0 seconds); [discriminate|inversion H; reflexivity].
  - intros H. inversion H; subst. split; [reflexivity|].
    unfold truediv in T. destruct (_ <? _)%Z; [discriminate|].
    inversion T. reflexivity.
Qed.

Lemma delay_error_negative (d : Z) :
  (- 9223372036854 <= d < 0)%Z ->
  delay_error d = Some (ValueError "sleep length must be non-negative").
Proof.
  intros [H0 H1]. unfold delay_error, truediv.
  replace (Z.abs d <? 1000 * (2 ^ 1024 - 2 ^ 970))%Z with true.
  - unfold sleep_error, sleep_in_range.
    assert (A : Qle_bool (inject_Z (- 2 ^ 63 - 1024)) ((d # 1000) * inject_Z (10 ^ 9))
                 = true).
    { apply Qle_bool_iff. unfold Qle. cbn [Qnum Qden Qmult inject_Z]. lia. }
    assert (B : Qle_bool (inject_Z (2 ^ 63 - 512)) ((d # 1000) * inject_Z (10 ^ 9))
                 = false).
    { destruct (Qle_bool (inject_Z (2 ^ 63 - 512)) ((d # 1000) * inject_Z (10 ^ 9)))
        eqn:E; [|reflexivity].
      apply Qle_bool_iff in E. unfold Qle in E. cbn [Qnum Qden Qmult inject_Z] in E.
      lia. }
    assert (C : Qle_bool 0 (d # 1000) = false).
    { unfold Qle_bool. cbn [Qnum Qden]. apply Z.leb_gt. lia. }
    rewrite A, B, C. reflexivity.
  - symmetry. apply Z.ltb_lt.
    assert (9223372036854 < 1000 * (2 ^ 1024 - 2 ^ 970))%Z by reflexivity. lia.
Qed.

Lemma delay_error_overflow (d : Z) :
  (d < - 9223372036854 \/ 9223372036854 < d)%Z ->
  exists e, delay_error d = Some e /\ exn_name e = "OverflowError".
Proof.
  intros H. unfold delay_error, truediv.
  destruct (Z.abs d <? 1000 * (2 ^ 1024 - 2 ^ 970))%Z;
    [|eexists; split; reflexivity].
  unfold sleep_error, sleep_in_range.
  destruct H as [H|H].
  - assert (A : Qle_bool (inject_Z (- 2 ^ 63 - 1024)) ((d # 1000) * inject_Z (10 ^ 9))
                 = false).
    { destruct (Qle_bool (inject_Z (- 2 ^ 63 - 1024))
                  ((d # 1000) * inject_Z (10 ^ 9))) eqn:E; [|reflexivity].
      apply Qle_bool_iff in E. unfold Qle in E. cbn [Qnum Qden Qmult inject_Z] in E.
      lia. }
    rewrite A. eexists; split; reflexivity.
  - assert (B : Qle_bool (inject_Z (2 ^ 63 - 512)) ((d # 1000) * inject_Z (10 ^ 9))
                 = true).
    { apply Qle_bool_iff. unfold Qle. cbn [Qnum Qden Qmult inject_Z]. lia. }
    rewrite B, andb_false_r. eexists; split; reflexivity.
Qed.

Lemma retry_attempts_refused max_retries backoff_ms :
  backoff_ms <> [] ->
  Forall (fun d => delay_error d <> None) backoff_ms ->
  forall remaining a s,
    (0 < a)%nat ->
    Z.of_nat (a + S remaining) = max_retries ->
    exists refusal s' extra,
      delay_error (backoff_before backoff_ms (a + remaining)) = Some refusal /\
      Tool.retry_attempts lib import_function self params max_retries backoff_ms
        (S remaining) (Z.of_nat a) s = (Raise refusal, s') /\
      trace s' = trace s ++ extra /\
      delays extra = [] /\ call_count extra = 0%nat.
Proof.
  intros Hne Hb. induction remaining as [|remaining IH]; intros a s Ha Hmax;
    pose proof (backoff_before_forall _ backoff_ms a Hne Hb) as Hhere;
    destruct (delay_error (backoff_before backoff_ms a)) as [refusal|] eqn:R;
    try congruence; clear Hhere;
    rewrite retry_attempts_unfold; unfold try_except, bind at 1, before_attempt;
    (replace (Z.of_nat a >? 0)%Z with true by (symmetry; apply Z.gtb_lt; lia));
    cbv zeta; rewrite backoff_index by exact Ha;
    unfold bind at 1, log at 1, emit at 1;
    match goal with
    | |- context [bind (lift (truediv _ _)) _ ?s1] =>
        destruct (delay_error_run _ refusal s1 R) as (Erun & Hexc)
    end;
    rewrite Erun, Hexc.
  - replace (Z.of_nat a =? max_retries - 1)%Z with true
      by (symmetry; apply Z.eqb_eq; lia).
    unfold bind, log, emit, raise. cbn [trace].
    rewrite Nat.add_0_r.
    eexists refusal, _, [Log INFO _; Log ERROR _]. split; [exact R|].
    split; [reflexivity|].
    cbn [trace]. rewrite <- app_assoc. repeat split; reflexivity.
  - replace (Z.of_nat a =? max_retries - 1)%Z with false
      by (symmetry; apply Z.eqb_neq; lia).
    replace (Z.of_nat a + 1)%Z with (Z.of_nat (S a)) by lia.
    match goal with
    | |- context [Tool.retry_attempts _ _ _ _ _ _ _ _ ?s1] =>
        destruct (IH (S a) s1) as (last & s3 & x3 & R3 & E3 & T3 & D3 & N3);
          [lia|lia|]
    end.
    rewrite E3. replace (a + S remaining)%nat with (S a + remaining)%nat by lia.
    eexists last, s3, ([Log INFO _] ++ x3). split; [exact R3|].
    split; [reflexivity|].
    rewrite T3. cbn [trace]. rewrite <- app_assoc.
    rewrite delays_app, call_count_app, D3, N3. repeat split; reflexivity.
Qed.

(** X7.  With a [retry_with_backoff] rule of at least two retries whose
    delays are all refused (negative, or too long for [time.sleep] or
    for a [float]), only the first retry invokes the callable: every
    later attempt fails before it starts, in the division or in
    [time.sleep].  When the first retry fails too, [execute] raises
    what the delay of the last attempt met, after two invocations and
    no sleep: the [ValueError] of [time.sleep] when that delay is
    negative and not below -9223372036854 ms, an [OverflowError] when
    it is beyond 9223372036854 ms on either side. *)
Theorem refused_backoff_stops_retrying vi vo s func s0 e0 e1 handler :
  prepare lib import_function self params vi s = (Return func, s0) ->
  accepts_input lib self params ->
  func (invocations s) params = Raise e0 ->
  isinstance e0 Exception = true ->
  Tool.find_handler e0 (Tool.error_handlers self) = Some handler ->
  ErrorRecovery.strategy handler = RETRY_WITH_BACKOFF ->
  (2 <= retries handler)%Z ->
  Forall (fun d => delay_error d <> None) (backoff handler) ->
  func (S (invocations s)) params = Raise e1 ->
  isinstance e1 Exception = true ->
  let run := Tool.execute lib import_function self params vi vo true s in
  let last := backoff_before (backoff handler) (Z.to_nat (retries handler) - 1) in
  exists refusal,
    delay_error last = Some refusal /\
    fst run = Raise refusal /\
    call_count (new_events s (snd run)) = 2%nat /\
    delays (new_events s (snd run)) = [] /\
    ((- 9223372036854 <= last < 0)%Z ->
     refusal = ValueError "sleep length must be non-negative") /\
    ((last < - 9223372036854 \/ 9223372036854 < last)%Z ->
     exn_name refusal = "OverflowError").
Proof.
  intros Hprep Hin Hf He Hfind Hstrat Hmax Hb Hf1 He1 run last.
  assert (Hne : backoff handler <> []).
  { unfold backoff, or_list.
    destruct (ErrorRecovery.backoff_ms handler) as [[|d l]|]; discriminate. }
  destruct (prepare_returns lib import_function self params vi s func s0 Hprep)
    as (Hc0 & Hi0 & _).
  destruct (execute_enters_handler lib import_function self params vi vo s func s0 e0
              Hprep Hf He) as (s1 & x1 & E & Hc1 & Hi1 & T & D & N).
  assert (R : exists refusal s4 extra,
             delay_error last = Some refusal /\
             Tool.execute lib import_function self params vi vo true s =
               (Raise refusal, s4) /\
             trace s4 = trace s ++ extra /\
             call_count extra = 2%nat /\ delays extra = []).
  { rewrite E.
    rewrite (handle_error_backoff lib import_function self params e0 handler s1
               Hfind Hstrat).
    set (s2 := add_events s1 _).
    subst last.
    destruct (Z.to_nat (retries handler)) as [|[|n]] eqn:Hn; [lia|lia|].
    rewrite retry_attempts_unfold. unfold try_except, bind at 1, before_attempt.
    change (0 >? 0)%Z with false. cbv iota. unfold ret at 1.
    destruct (execute_unhandled_fails lib import_function self params s2 func e1 Hin)
      as (s3 & x3 & E3 & (C3 & I3 & T3) & D3 & N3);
      [exact Hc1|subst s2; cbn [add_events invocations]; rewrite Hi1; exact Hf1|].
    rewrite E3, He1.
    replace (0 =? retries handler - 1)%Z with false
      by (symmetry; apply Z.eqb_neq; lia).
    destruct (retry_attempts_refused (retries handler) (backoff handler)
                Hne Hb n 1%nat s3) as (refusal & s4 & x4 & R4 & E4 & T4 & D4 & N4);
      [lia|lia|].
    change (0 + 1)%Z with (Z.of_nat 1). rewrite E4.
    replace (S (S n) - 1)%nat with (1 + n)%nat by lia.
    exists refusal, s4,
      (((x1 ++ [Log INFO "Handling error with strategy: retry_with_backoff"])
          ++ x3) ++ x4).
    split; [exact R4|]. split; [reflexivity|]. split.
    - rewrite T4, T3. subst s2. cbn [add_events trace].
      rewrite T, !app_assoc. reflexivity.
    - rewrite !call_count_app, !delays_app, D, N, D3, N3, D4, N4.
      split; reflexivity. }
  destruct R as (refusal & s4 & extra & R & Erun & T4 & N4 & D4).
  exists refusal. subst run. rewrite Erun. cbn [fst snd].
  rewrite (new_events_app s s4 extra T4).
  repeat (split; [assumption || reflexivity|]).
  split.
  - intros Hrange. rewrite (delay_error_negative last Hrange) in R. congruence.
  - intros Hrange. destruct (delay_error_overflow last Hrange) as (e & Hd & Hname).
    rewrite Hd in R. inversion R; subst. exact Hname.
Qed.

End Recovery.

(* ================================================================== *)
(** ** More of construction *)

Lemma strategy_of_value_returns (value : string) (strategy : RecoveryStrategy) :
  RecoveryStrategy_of_value value = Return strategy <->
  strategy_value strategy = value.
Proof.
  unfold RecoveryStrategy_of_value. split.
  - destruct (find _ all_strategies) as [s|] eqn:F; [|discriminate].
    intros H. inversion H; subst. apply find_some in F.
    apply String.eqb_eq, F.
  - intros <-. destruct strategy; reflexivity.
Qed.

(** X1.  [RecoveryStrategy(value)] and [.value] are inverse to each
    other: the value of a member gives the member back, a member
    obtained from a string has that string as its value, and a string
    that is the value of no member raises a [ValueError]; for an ASCII
    string its message is the [repr] of the string, with the quotes and
    escapes of Python, followed by [is not a valid RecoveryStrategy]. *)
Theorem strategy_value_round_trip :
  (forall strategy,
     RecoveryStrategy_of_value (strategy_value strategy) = Return strategy) /\
  (forall value strategy,
     RecoveryStrategy_of_value value = Return strategy ->
     strategy_value strategy = value) /\
  (forall value e,
     RecoveryStrategy_of_value value = Raise e ->
     unrecognized value /\
     exn_name e = "ValueError" /\
     (isascii value = true ->
      exn_str e = (repr value ++ " is not a valid RecoveryStrategy")%string)).
Proof.
  split; [|split].
  - intros strategy. apply strategy_of_value_returns. reflexivity.
  - intros value strategy. apply strategy_of_value_returns.
  - intros value e H.
    assert (Hu : unrecognized value).
    { intros s Hs. apply strategy_of_value_returns in Hs. congruence. }
    split; [exact Hu|].
    rewrite (unrecognized_value_raises value Hu) in H. inversion H; subst.
    split; [reflexivity|]. intros _. reflexivity.
Qed.

Lemma manifest_from_dict_returns (data : Doc.Manifest) :
  (exists manifest, ToolManifest.from_dict data = Return manifest) <->
  manifest_well_formed data.
Proof.
  unfold ToolManifest.from_dict, manifest_well_formed, rbind.
  destruct (Doc.id data), (Doc.name data), (Doc.version data), (Doc.category data);
    simpl; split;
    try (intros (m & H); discriminate H);
    try (intros (H1 & H2 & H3 & H4); congruence).
  - intros _. repeat split; discriminate.
  - intros _. eexists. reflexivity.
Qed.

Lemma rule_from_dict_returns (rule : Doc.Rule) :
  (exists handler, ErrorRecovery.from_dict rule = Return handler) <->
  rule_well_formed rule.
Proof.
  unfold ErrorRecovery.from_dict, rule_well_formed, rbind. split.
  - intros (handler & H).
    destruct (Doc.recovery rule) as [recovery|]; simpl in H; [|discriminate].
    destruct (Doc.error_type rule); simpl in H; [|discriminate].
    destruct (Doc.strategy recovery) as [value|] eqn:S; simpl in H; [|discriminate].
    destruct (RecoveryStrategy_of_value value) as [strategy|] eqn:V; [|discriminate].
    split; [discriminate|]. exists recovery, value, strategy.
    repeat split; auto. apply strategy_of_value_returns, V.
  - intros (Ht & recovery & value & strategy & Hr & Hs & Hv).
    rewrite Hr. simpl. destruct (Doc.error_type rule); [|congruence]. simpl.
    rewrite Hs. simpl.
    rewrite (proj2 (strategy_of_value_returns value strategy) Hv).
    eexists. reflexivity.
Qed.

Lemma comprehension_all {A B} (f : A -> result B) (xs : list A) :
  (exists ys, comprehension f xs = Return ys) <->
  forall x, In x xs -> exists y, f x = Return y.
Proof.
  split.
  - intros (ys & H). exact (comprehension_returns f xs ys H).
  - induction xs as [|x rest IH]; intros H; simpl.
    + eexists. reflexivity.
    + destruct (H x (or_introl eq_refl)) as (y & Hy). rewrite Hy.
      destruct IH as (ys & Hys); [intros x' Hin; apply H; right; exact Hin|].
      rewrite Hys. eexists. reflexivity.
Qed.

Lemma comprehension_forall2 {A B} (f : A -> result B) (xs : list A) (ys : list B) :
  comprehension f xs = Return ys <-> Forall2 (fun x y => f x = Return y) xs ys.
Proof.
  revert ys. induction xs as [|x rest IH]; intros ys; simpl.
  - split.
    + intros H. inversion H. constructor.
    + intros H. inversion H. reflexivity.
  - unfold rbind. split.
    + destruct (f x) as [y|e] eqn:E; [|discriminate].
      destruct (comprehension f rest) as [ys'|e]; [|discriminate].
      intros H. inversion H; subst. constructor; [exact E|]. apply IH. reflexivity.
    + intros H. inversion H as [|x' y rest' ys' Hxy Hrest]; subst.
      rewrite Hxy. apply IH in Hrest. rewrite Hrest. reflexivity.
Qed.

(** X2.  A document constructs a [Tool] exactly when it has its
    [manifest] with [id], [name], [version] and [category], its
    [capabilities], [execution] and [usage_guidance], and every rule of
    its [error_handling] has [error_type] and a [recovery] whose
    [strategy] is the value of a strategy. *)
Theorem well_formed_documents_construct (spec : Doc.Tool) :
  (exists tool, Tool.__init__ spec = Return tool) <-> document_well_formed spec.
Proof.
  unfold document_well_formed. split.
  - intros (tool & H). unfold Tool.__init__, rbind in H.
    destruct (Doc.manifest spec) as [data|]; simpl in H; [|discriminate].
    destruct (ToolManifest.from_dict data) as [manifest|] eqn:M; [|discriminate].
    destruct (Doc.capabilities spec); simpl in H; [|discriminate].
    destruct (Doc.execution spec); simpl in H; [|discriminate].
    destruct (Doc.usage_guidance spec); simpl in H; [|discriminate].
    destruct (comprehension ErrorRecovery.from_dict (get (Doc.error_handling spec) []))
      as [handlers|] eqn:C; [|discriminate].
    split; [|split; [discriminate|split; [discriminate|split; [discriminate|]]]].
    + exists data. split; [reflexivity|].
      apply manifest_from_dict_returns. eexists; exact M.
    + intros rule Hin. apply rule_from_dict_returns.
      exact (comprehension_returns _ _ _ C rule Hin).
  - intros ((data & Hm & Hwf) & Hc & He & Hu & Hrules).
    apply manifest_from_dict_returns in Hwf. destruct Hwf as (manifest & M).
    assert (C : exists handlers,
               comprehension ErrorRecovery.from_dict (get (Doc.error_handling spec) [])
               = Return handlers).
    { apply comprehension_all. intros rule Hin.
      apply rule_from_dict_returns, Hrules, Hin. }
    destruct C as (handlers & C).
    unfold Tool.__init__, rbind. rewrite Hm. simpl. rewrite M.
    destruct (Doc.capabilities spec); [|congruence].
    destruct (Doc.execution spec); [|congruence].
    destruct (Doc.usage_guidance spec); [|congruence].
    simpl. rewrite C. eexists. reflexivity.
Qed.

(** X3.  [to_dict] gives back the document a tool was made from, and
    [from_dict] makes the same tool of it again; the tool has one
    handler per rule of the document, in the document's order; and a
    tool loaded with [from_file] exports the document of its file. *)
Theorem to_dict_round_trip (spec : Doc.Tool) (tool : Tool.t) :
  Tool.from_dict spec = Return tool ->
  Tool.to_dict tool = spec /\
  Tool.from_dict (Tool.to_dict tool) = Return tool /\
  Forall2 (fun rule handler => ErrorRecovery.from_dict rule = Return handler)
    (get (Doc.error_handling spec) []) (Tool.error_handlers tool) /\
  (forall fs filepath,
     Tool.from_file fs filepath = Return tool ->
     exists registry_data,
       read fs filepath = Some (Json (Tool.to_dict tool) registry_data)).
Proof.
  intros H.
  assert (Hspec : forall spec' tool', Tool.__init__ spec' = Return tool' ->
                    Tool.spec tool' = spec').
  { intros spec' tool'. unfold Tool.__init__, rbind.
    destruct (getitem "manifest" (Doc.manifest spec')); [|discriminate].
    destruct (ToolManifest.from_dict _); [|discriminate].
    destruct (getitem "capabilities" _); [|discriminate].
    destruct (getitem "execution" _); [|discriminate].
    destruct (getitem "usage_guidance" _); [|discriminate].
    destruct (comprehension _ _); [|discriminate].
    intros E. inversion E. reflexivity. }
  unfold Tool.to_dict. rewrite (Hspec spec tool H).
  split; [reflexivity|]. split; [exact H|]. split.
  - apply comprehension_forall2.
    exact (proj1 (proj2 (init_returns_sections spec tool H))).
  - intros fs filepath. unfold Tool.from_file.
    destruct (read fs filepath) as [[spec' data|e]|]; try discriminate.
    intros H'. exists data.
    rewrite <- (Hspec spec' tool H'), (Hspec spec tool H). reflexivity.
Qed.

(* ================================================================== *)
(** ** More of the registry *)

Lemma lookup_setitem {A} (key key' : string) (value : A) (d : list (string * A)) :
  ToolRegistry.lookup key' (ToolRegistry.setitem key value d) =
  if key =? key' then Some value else ToolRegistry.lookup key' d.
Proof.
  induction d as [|[k v] rest IH]; simpl.
  - destruct (key =? key'); reflexivity.
  - destruct (k =? key) eqn:E; simpl.
    + apply String.eqb_eq in E. subst k. destruct (key =? key'); reflexivity.
    + rewrite IH. destruct (k =? key') eqn:E'; [|reflexivity].
      apply String.eqb_eq in E'. subst k. rewrite String.eqb_sym, E. reflexivity.
Qed.

Lemma setitem_keys {A} (key : string) (value : A) (d : list (string * A)) :
  map fst (ToolRegistry.setitem key value d) =
  match ToolRegistry.lookup key d with
  | Some _ => map fst d
  | None => map fst d ++ [key]
  end.
Proof.
  induction d as [|[k v] rest IH]; simpl; [reflexivity|].
  destruct (k =? key) eqn:E; simpl; [reflexivity|].
  rewrite IH. destruct (ToolRegistry.lookup key rest); reflexivity.
Qed.

Lemma lookup_none {A} (key : string) (d : list (string * A)) :
  ToolRegistry.lookup key d = None <-> ~ In key (map fst d).
Proof.
  induction d as [|[k v] rest IH]; simpl; [tauto|].
  destruct (k =? key) eqn:E.
  - apply String.eqb_eq in E. split; [discriminate|]. intros H. exfalso. auto.
  - apply String.eqb_neq in E. rewrite IH. tauto.
Qed.

Lemma lookup_in {A} (key : string) (value : A) (d : list (string * A)) :
  NoDup (map fst d) ->
  (In (key, value) d <-> ToolRegistry.lookup key d = Some value).
Proof.
  induction d as [|[k v] rest IH]; simpl; intros Hnd.
  - split; [tauto|discriminate].
  - inversion Hnd as [|x l Hnotin Hnd']; subst.
    destruct (k =? key) eqn:E.
    + apply String.eqb_eq in E. subst k. split.
      * intros [H|H]; [congruence|]. exfalso. apply Hnotin.
        apply in_map_iff. exists (key, value). auto.
      * intros H. left. congruence.
    + apply String.eqb_neq in E. rewrite <- (IH Hnd'). split.
      * intros [H|H]; [congruence|exact H].
      * auto.
Qed.

Lemma setitem_in {A} (key : string) (value : A) (d : list (string * A)) kv :
  In kv (ToolRegistry.setitem key value d) -> kv = (key, value) \/ In kv d.
Proof.
  induction d as [|[k v] rest IH]; simpl.
  - intros [H|[]]. auto.
  - destruct (k =? key) eqn:E; simpl.
    + apply String.eqb_eq in E. subst k. intros [H|H]; auto.
    + intros [H|H]; auto. destruct (IH H); auto.
Qed.

Lemma registry_of_snoc (tools : list Tool.t) (tool : Tool.t) :
  registry_of (tools ++ [tool]) =
  ToolRegistry.register_tool (registry_of tools) tool.
Proof. unfold registry_of. rewrite fold_left_app. reflexivity. Qed.

Lemma get_tool_register (registry : ToolRegistry.t) (tool : Tool.t) (tool_id : string) :
  ToolRegistry.get_tool (ToolRegistry.register_tool registry tool) tool_id =
  if id_of tool =? tool_id then Some tool
  else ToolRegistry.get_tool registry tool_id.
Proof. unfold ToolRegistry.get_tool. rewrite register_tool_tools. apply lookup_setitem. Qed.

Lemma get_tool_registry_of (tools : list Tool.t) (tool_id : string) :
  ToolRegistry.get_tool (registry_of tools) tool_id =
  find (fun tool => id_of tool =? tool_id) (rev tools).
Proof.
  induction tools as [|tool tools IH] using rev_ind; [reflexivity|].
  rewrite registry_of_snoc, get_tool_register, rev_app_distr, IH. reflexivity.
Qed.

(** The keys of [tools] are distinct and each is the id of its tool. *)
Lemma registry_of_keys (tools : list Tool.t) :
  NoDup (map fst (ToolRegistry.tools (registry_of tools))) /\
  Forall (fun kv => fst kv = id_of (snd kv)) (ToolRegistry.tools (registry_of tools)).
Proof.
  induction tools as [|tool tools [IHn IHk]] using rev_ind.
  - split; constructor.
  - rewrite registry_of_snoc, register_tool_tools. split.
    + rewrite setitem_keys.
      destruct (ToolRegistry.lookup _ _) eqn:L; [exact IHn|].
      apply lookup_none in L.
      apply NoDup_app; [exact IHn|repeat constructor; intros []|].
      intros k Hk [Hk'|[]]. subst k. exact (L Hk).
    + rewrite Forall_forall in *. intros kv Hin.
      destruct (setitem_in _ _ _ _ Hin) as [H|H]; [subst kv; reflexivity|auto].
Qed.

Lemma registry_of_ids (tools : list Tool.t) (tool_id : string) :
  In tool_id (map fst (ToolRegistry.tools (registry_of tools))) <->
  In tool_id (map id_of tools).
Proof.
  pose proof (get_tool_registry_of tools tool_id) as G.
  unfold ToolRegistry.get_tool in G. split.
  - intros Hin. destruct (ToolRegistry.lookup tool_id _) as [tool|] eqn:L.
    + symmetry in G. apply find_some in G. destruct G as [Hin' E].
      apply String.eqb_eq in E. subst tool_id.
      apply in_map, in_rev, Hin'.
    + apply lookup_none in L. contradiction.
  - intros Hin. apply in_map_iff in Hin. destruct Hin as (tool & E & Hin).
    destruct (ToolRegistry.lookup tool_id _) eqn:L.
    + destruct (in_dec string_dec tool_id
                  (map fst (ToolRegistry.tools (registry_of tools)))) as [H|H];
        [exact H|]. apply lookup_none in H. congruence.
    + symmetry in G. exfalso.
      pose proof (find_none _ _ G tool (proj1 (in_rev _ _) Hin)) as F.
      simpl in F. rewrite E, String.eqb_refl in F. discriminate.
Qed.

(** X13.  [get_tool] after [register_tool]: the tool just registered is
    found under its id and the other ids are as before.  After
    registering a list of tools, an id gives the last tool registered
    under it, and [None] exactly when no tool of the list has it. *)
Theorem get_tool_returns_last_registration (tools : list Tool.t) (tool_id : string) :
  (forall registry tool,
     ToolRegistry.get_tool (ToolRegistry.register_tool registry tool) (id_of tool) =
       Some tool) /\
  (forall registry tool,
     id_of tool <> tool_id ->
     ToolRegistry.get_tool (ToolRegistry.register_tool registry tool) tool_id =
       ToolRegistry.get_tool registry tool_id) /\
  ToolRegistry.get_tool (registry_of tools) tool_id =
    find (fun tool => id_of tool =? tool_id) (rev tools) /\
  (ToolRegistry.get_tool (registry_of tools) tool_id = None <->
   forall tool, In tool tools -> id_of tool <> tool_id).
Proof.
  split; [|split; [|split]].
  - intros registry tool. rewrite get_tool_register, String.eqb_refl. reflexivity.
  - intros registry tool H. rewrite get_tool_register.
    apply String.eqb_neq in H. rewrite H. reflexivity.
  - apply get_tool_registry_of.
  - rewrite get_tool_registry_of. split.
    + intros H tool Hin E.
      pose proof (find_none _ _ H tool (proj1 (in_rev _ _) Hin)) as F.
      simpl in F. rewrite E, String.eqb_refl in F. discriminate.
    + intros H. destruct (find _ (rev tools)) as [tool|] eqn:F; [|reflexivity].
      apply find_some in F. destruct F as [Hin E]. apply String.eqb_eq in E.
      exfalso. exact (H tool (proj2 (in_rev _ _) Hin) E).
Qed.

Lemma registered_ids (tools : list Tool.t) :
  map id_of (registered (registry_of tools)) =
  map fst (ToolRegistry.tools (registry_of tools)).
Proof.
  destruct (registry_of_keys tools) as [_ Hk].
  unfold registered, ToolRegistry.values. rewrite map_map.
  apply map_ext_in. intros kv Hin. rewrite Forall_forall in Hk.
  symmetry. exact (Hk kv Hin).
Qed.

Lemma registered_iff_get_tool (tools : list Tool.t) (tool : Tool.t) :
  In tool (registered (registry_of tools)) <->
  ToolRegistry.get_tool (registry_of tools) (id_of tool) = Some tool.
Proof.
  destruct (registry_of_keys tools) as [Hn Hk].
  unfold ToolRegistry.get_tool. rewrite <- (lookup_in _ _ _ Hn).
  unfold registered, ToolRegistry.values. rewrite in_map_iff. split.
  - intros ([k v] & E & Hin). simpl in E. subst v.
    rewrite Forall_forall in Hk. pose proof (Hk _ Hin) as E. simpl in E.
    subst k. exact Hin.
  - intros Hin. exists (id_of tool, tool). auto.
Qed.

(** X14.  Whatever was registered, a registry lists each id once: the
    ids of its tools are pairwise distinct, they are the ids that were
    registered, and a tool is listed exactly when [get_tool] returns it
    for its id. *)
Theorem registered_ids_are_unique (tools : list Tool.t) :
  NoDup (map id_of (registered (registry_of tools))) /\
  (forall tool,
     In tool (registered (registry_of tools)) <->
     ToolRegistry.get_tool (registry_of tools) (id_of tool) = Some tool) /\
  (forall tool_id,
     In tool_id (map id_of (registered (registry_of tools))) <->
     In tool_id (map id_of tools)).
Proof.
  split; [|split].
  - rewrite registered_ids. apply registry_of_keys.
  - apply registered_iff_get_tool.
  - intros tool_id. rewrite registered_ids. apply registry_of_ids.
Qed.

(** X15.  [get_tool_by_name] returns the first tool of the registry, in
    its order, that has the name; that tool is the one [get_tool]
    returns for its id.  It returns [None] exactly when no tool of the
    registry has the name. *)
Theorem tool_found_by_name_is_registered (tools : list Tool.t) (name : string) :
  match ToolRegistry.get_tool_by_name (registry_of tools) name with
  | Some tool =>
      name_of tool = name /\
      ToolRegistry.get_tool (registry_of tools) (id_of tool) = Some tool /\
      exists before after,
        registered (registry_of tools) = before ++ tool :: after /\
        forall other, In other before -> name_of other <> name
  | None =>
      forall tool, In tool (registered (registry_of tools)) -> name_of tool <> name
  end.
Proof.
  unfold ToolRegistry.get_tool_by_name. fold (registered (registry_of tools)).
  destruct (find _ (registered (registry_of tools))) as [tool|] eqn:F.
  - pose proof (find_some _ _ F) as [Hin E]. apply String.eqb_eq in E.
    split; [exact E|]. split; [apply registered_iff_get_tool, Hin|].
    clear Hin. revert F.
    induction (registered (registry_of tools)) as [|t rest IH]; [discriminate|].
    cbn [find]. destruct (ToolManifest.name (Tool.manifest t) =? name) eqn:Et.
    + intros H. inversion H; subst. exists [], rest. split; [reflexivity|].
      intros other [].
    + intros H. destruct (IH H) as (before & after & -> & Hb).
      exists (t :: before), after. split; [reflexivity|].
      intros other [<-|Hin]; [apply String.eqb_neq, Et|apply Hb, Hin].
  - intros tool Hin. pose proof (find_none _ _ F tool Hin) as H.
    apply String.eqb_neq, H.
Qed.

(** *** Categories *)

Lemma categories_register (registry : ToolRegistry.t) (tool : Tool.t) (category : string) :
  ToolRegistry.lookup category
    (ToolRegistry.categories (ToolRegistry.register_tool registry tool)) =
  if category_of tool =? category
  then Some (get (ToolRegistry.lookup category (ToolRegistry.categories registry)) []
               ++ [id_of tool])
  else ToolRegistry.lookup category (ToolRegistry.categories registry).
Proof.
  unfold ToolRegistry.register_tool. cbn [ToolRegistry.categories].
  fold (category_of tool) (id_of tool).
  rewrite lookup_setitem.
  destruct (category_of tool =? category) eqn:E.
  - apply String.eqb_eq in E. subst category.
    destruct (ToolRegistry.lookup (category_of tool) (ToolRegistry.categories registry))
      as [bucket|] eqn:L.
    + rewrite L. reflexivity.
    + rewrite lookup_setitem, String.eqb_refl. reflexivity.
  - destruct (ToolRegistry.lookup (category_of tool) (ToolRegistry.categories registry));
      [reflexivity|].
    rewrite lookup_setitem, E. reflexivity.
Qed.

Lemma categories_registry_of (tools : list Tool.t) (category : string) :
  ToolRegistry.lookup category (ToolRegistry.categories (registry_of tools)) =
  match registrations_under category tools with
  | [] => None
  | under => Some (map id_of under)
  end.
Proof.
  induction tools as [|tool tools IH] using rev_ind; [reflexivity|].
  rewrite registry_of_snoc, categories_register, IH.
  unfold registrations_under. rewrite filter_app. cbn [filter].
  destruct (category_of tool =? category).
  - destruct (filter _ tools) as [|t under]; [reflexivity|].
    simpl. rewrite map_app. reflexivity.
  - rewrite app_nil_r. reflexivity.
Qed.

Lemma lookup_get_categories (registry : ToolRegistry.t) (category : string) :
  ToolRegistry.lookup category (ToolRegistry.get_categories registry) =
  option_map (@length string)
    (ToolRegistry.lookup category (ToolRegistry.categories registry)).
Proof.
  unfold ToolRegistry.get_categories.
  induction (ToolRegistry.categories registry) as [|[k v] rest IH]; simpl;
    [reflexivity|].
  destruct (k =? category); [reflexivity|exact IH].
Qed.

(** X16.  After registering a list of tools, a category's bucket holds
    the ids of the registrations under it, in order and with
    repetitions, and [get_categories] counts them.  So registering a
    tool that is registered already raises the count of its category
    by one while the number of tools stays. *)
Theorem category_counts_registrations (tools : list Tool.t) (category : string) :
  ToolRegistry.lookup category (ToolRegistry.categories (registry_of tools)) =
    match registrations_under category tools with
    | [] => None
    | under => Some (map id_of under)
    end /\
  ToolRegistry.lookup category (ToolRegistry.get_categories (registry_of tools)) =
    match registrations_under category tools with
    | [] => None
    | under => Some (length under)
    end /\
  (forall tool,
     In tool tools -> category_of tool = category ->
     ToolRegistry.lookup category (ToolRegistry.get_categories (registry_of (tools ++ [tool]))) =
       option_map S
         (ToolRegistry.lookup category (ToolRegistry.get_categories (registry_of tools))) /\
     length (registered (registry_of (tools ++ [tool]))) =
       length (registered (registry_of tools))).
Proof.
  split; [apply categories_registry_of|]. split.
  - rewrite lookup_get_categories, categories_registry_of.
    destruct (registrations_under category tools); [reflexivity|].
    simpl. rewrite length_map. reflexivity.
  - intros tool Hin Hcat. split.
    + rewrite !lookup_get_categories, !categories_registry_of.
      unfold registrations_under. rewrite filter_app. cbn [filter].
      rewrite Hcat, String.eqb_refl.
      destruct (filter _ tools) as [|t under] eqn:F.
      * exfalso. assert (H : In tool (filter (fun t => category_of t =? category) tools)).
        { apply filter_In. split; [exact Hin|]. rewrite Hcat. apply String.eqb_refl. }
        rewrite F in H. exact H.
      * change ((t :: under) ++ [tool]) with (t :: under ++ [tool]).
        cbn [option_map]. f_equal.
        rewrite !length_map. cbn [length]. rewrite length_app. simpl. lia.
    + unfold registered, ToolRegistry.values. rewrite !length_map.
      rewrite <- !(length_map fst).
      rewrite registry_of_snoc, register_tool_tools, setitem_keys.
      destruct (ToolRegistry.lookup _ _) eqn:L; [reflexivity|].
      exfalso. apply lookup_none in L. apply L.
      apply registry_of_ids. exact (in_map id_of _ _ Hin).
Qed.

(* ================================================================== *)
(** ** More of trigger matching and filtering *)

Lemma lower_app (a b : string) : lower (a ++ b) = (lower a ++ lower b)%string.
Proof. induction a as [|c a IH]; simpl; [reflexivity|]. rewrite IH. reflexivity. Qed.

Lemma str_contains_app (needle before haystack after : string) :
  str_contains needle haystack = true ->
  str_contains needle (before ++ haystack ++ after) = true.
Proof.
  rewrite !str_contains_spec. intros (x & y & ->).
  exists (before ++ x)%string, (y ++ after)%string.
  rewrite !str_app_assoc. reflexivity.
Qed.

Lemma existsb_str_contains_app (needles : list string) (before haystack after : string) :
  existsb (fun needle => str_contains needle haystack) needles = true ->
  existsb (fun needle => str_contains needle (before ++ haystack ++ after)) needles
    = true.
Proof.
  rewrite !existsb_exists. intros (x & Hin & H). exists x.
  split; [exact Hin|apply str_contains_app, H].
Qed.

(** X17.  [matches_trigger] sees the query in lower case only: two
    queries that differ in case get the same answer.  And an ASCII
    query that matches a tool with ASCII trigger and example phrases
    still matches with any ASCII text before and after it. *)
Theorem query_match_survives_case_and_context (self : Tool.t) (query : string) :
  (forall query',
     lower query' = lower query ->
     Tool.matches_trigger self query' = Tool.matches_trigger self query) /\
  (forall before after,
     ascii_guidance self ->
     isascii before = true -> isascii query = true -> isascii after = true ->
     Tool.matches_trigger self query = Return true ->
     Tool.matches_trigger self (before ++ query ++ after) = Return true).
Proof.
  unfold Tool.matches_trigger. split.
  - intros query' E.
    induction (get (Doc.when_to_use (Tool.usage_guidance self)) []) as [|ts rest IH];
      simpl; [reflexivity|].
    rewrite E, IH. reflexivity.
  - intros before after _ _ _ _.
    induction (get (Doc.when_to_use (Tool.usage_guidance self)) []) as [|ts rest IH];
      simpl; [discriminate|].
    destruct (Doc.trigger ts) as [trigger|]; simpl; [|discriminate].
    rewrite !lower_app.
    destruct (existsb (fun keyword => str_contains keyword (lower query))
                (split (lower trigger))) eqn:E1.
    { rewrite (existsb_str_contains_app _ _ _ _ E1). reflexivity. }
    destruct (existsb (fun ex => str_contains ex (lower query))
                (map lower (get (Doc.examples ts) []))) eqn:E2.
    { rewrite (existsb_str_contains_app _ _ _ _ E2).
      match goal with
      | |- context [existsb ?f (split (lower trigger))] =>
          destruct (existsb f (split (lower trigger)))
      end; reflexivity. }
    intros H. rewrite (IH H).
    repeat match goal with
           | |- context [if existsb ?f ?l then _ else _] => destruct (existsb f l)
           end; reflexivity.
Qed.

Lemma occurs_in_empty (haystack : string) : occurs_in "" haystack.
Proof. exists "", haystack. reflexivity. Qed.

(** X18.  An empty example phrase matches every query: a tool whose
    triggers all have their [trigger] and one of whose example phrases
    is the empty string matches whatever is asked. *)
Theorem empty_example_matches_every_query (self : Tool.t) (trigger_spec : Doc.Trigger) :
  triggers_declared self ->
  In trigger_spec (get (Doc.when_to_use (Tool.usage_guidance self)) []) ->
  In "" (get (Doc.examples trigger_spec) []) ->
  forall query, Tool.matches_trigger self query = Return true.
Proof.
  intros Hdecl Hin Hex query. unfold Tool.matches_trigger.
  destruct (matches_trigger_in_spec _ query Hdecl) as (matched & Hrun & Hiff).
  rewrite Hrun. f_equal. apply Hiff. exists trigger_spec. split; [exact Hin|].
  right. exists "". split; [exact Hex|apply occurs_in_empty].
Qed.

(** X19.  [find_tools] treats an empty filter as no filter: with the
    category absent or the empty string, the tags absent or the empty
    list and the query absent or the empty string, it returns every
    tool of the registry, in the registry's order, and never raises. *)
Theorem empty_filters_select_everything (registry : ToolRegistry.t)
    (category : option string) (tags : option (list string)) (query : option string) :
  category = None \/ category = Some "" ->
  tags = None \/ tags = Some [] ->
  query = None \/ query = Some "" ->
  ToolRegistry.find_tools registry category tags query = Return (registered registry).
Proof.
  intros Hc Ht Hq. unfold ToolRegistry.find_tools.
  assert (Gc : ToolRegistry.given category = None) by (destruct Hc; subst; reflexivity).
  assert (Gq : ToolRegistry.given query = None) by (destruct Hq; subst; reflexivity).
  rewrite find_tools_loop_spec by (intros q tool H; congruence).
  cbn [app]. f_equal. fold (registered registry).
  apply forallb_filter_id. apply forallb_forall. intros tool _.
  unfold keeps. rewrite Gc, Gq. destruct Ht; subst; reflexivity.
Qed.

(* ================================================================== *)
(** ** Loading from files *)

Lemma failures_are_exceptions_cons fs filepath rest :
  failures_are_exceptions fs (filepath :: rest) ->
  failures_are_exceptions fs rest.
Proof. intros H p e Hin. apply H. right. exact Hin. Qed.

Lemma scan_run fs filepaths :
  failures_are_exceptions fs filepaths ->
  forall registry logged,
    exists records,
      ToolRegistry.scan fs filepaths registry logged =
        (Return (fold_left ToolRegistry.register_tool (constructed fs filepaths) registry),
         logged ++ records) /\
      map fst records =
        map (fun filepath =>
               match Tool.from_file fs filepath with
               | Return _ => INFO
               | Raise _ => ERROR
               end) filepaths.
Proof.
  induction filepaths as [|filepath rest IH]; intros Hexc registry logged.
  - exists []. rewrite app_nil_r. split; reflexivity.
  - cbn [ToolRegistry.scan constructed map].
    pose proof (Hexc filepath) as Hhere.
    specialize (IH (failures_are_exceptions_cons _ _ _ Hexc)).
    destruct (Tool.from_file fs filepath) as [tool|e].
    + destruct (IH (ToolRegistry.register_tool registry tool)
                  (logged ++ [(INFO, ("Loaded tool: "
                                        ++ ToolManifest.name (Tool.manifest tool))%string)]))
        as (records & E & L).
      rewrite E, <- app_assoc. eexists. split; [reflexivity|].
      simpl. rewrite L. reflexivity.
    + rewrite (Hhere e (or_introl eq_refl) eq_refl).
      destruct (IH registry
                  (logged ++ [(ERROR, ("Failed to load tool from " ++ filepath ++ ": "
                                         ++ exn_str e)%string)]))
        as (records & E & L).
      rewrite E, <- app_assoc. eexists. split; [reflexivity|].
      simpl. rewrite L. reflexivity.
Qed.

(** X20.  Without a [registry.json], [from_directory] registers the tools
    of the files that the pattern [**/*.aitool.json] finds, in the
    order of the scan, and skips the files that do not load: it returns
    the registry of the tools that were constructed and logs one record
    per file, an [INFO] for a tool that was loaded and an [ERROR] for a
    file that was not. *)
Theorem directory_scan_skips_failures fs directory :
  read fs (join fs directory "registry.json") = None ->
  failures_are_exceptions fs (glob fs directory "**/*.aitool.json") ->
  exists logged,
    ToolRegistry.from_directory fs directory =
      (Return (registry_of (constructed fs (glob fs directory "**/*.aitool.json"))),
       logged) /\
    map fst logged =
      map (fun filepath =>
             match Tool.from_file fs filepath with
             | Return _ => INFO
             | Raise _ => ERROR
             end) (glob fs directory "**/*.aitool.json").
Proof.
  intros Hno Hexc. unfold ToolRegistry.from_directory. rewrite Hno.
  destruct (scan_run fs _ Hexc ToolRegistry.__init__ []) as (records & E & L).
  exists records. split; [exact E|exact L].
Qed.

Lemma active_files_app fs base_dir before after :
  active_files fs base_dir (before ++ after) =
  active_files fs base_dir before ++ active_files fs base_dir after.
Proof.
  induction before as [|entry rest IH]; simpl; [reflexivity|].
  destruct (RegistryDoc.status entry) as [status|]; [|exact IH].
  destruct (RegistryDoc.aitool_file entry); [|exact IH].
  destruct (status =? "active"); [|exact IH].
  rewrite IH. reflexivity.
Qed.

Lemma failures_are_exceptions_here fs filepath rest e :
  failures_are_exceptions fs (filepath :: rest) ->
  Tool.from_file fs filepath = Raise e -> isinstance e Exception = true.
Proof. intros H. apply H. left. reflexivity. Qed.

(** The loop over complete entries, followed by the rest of the list. *)
Lemma load_entries_run fs base_dir before :
  Forall entry_complete before ->
  failures_are_exceptions fs (active_files fs base_dir before) ->
  forall after self logged,
    exists logged',
      ToolRegistry.load_entries fs base_dir (before ++ after) self logged =
      ToolRegistry.load_entries fs base_dir after
        (fold_left ToolRegistry.register_tool
           (constructed fs (active_files fs base_dir before)) self)
        logged'.
Proof.
  induction before as [|entry rest IH]; intros Hc Hexc after self logged.
  - exists logged. reflexivity.
  - inversion Hc as [|x l (status & Hs & Hact) Hc']; subst.
    cbn [app ToolRegistry.load_entries active_files] in *. rewrite Hs in *.
    cbn [getitem]. destruct (status =? "active") eqn:E.
    + apply String.eqb_eq in E. destruct (Hact E) as (Hf & Hn).
      destruct (RegistryDoc.aitool_file entry) as [aitool_file|]; [|congruence].
      destruct (RegistryDoc.name entry) as [name|]; [|congruence].
      cbn [getitem constructed].
      pose proof (fun e => failures_are_exceptions_here _ _ _ e Hexc) as Hhere.
      specialize (IH Hc' (failures_are_exceptions_cons _ _ _ Hexc) after).
      destruct (Tool.from_file fs (join fs base_dir aitool_file)) as [tool|e].
      * apply IH.
      * rewrite (Hhere e eq_refl). apply IH.
    + destruct (RegistryDoc.aitool_file entry); apply (IH Hc' Hexc).
Qed.

(** X21.  [load_from_registry_file] registers the tools of the entries
    whose [status] is [active], from the files named relative to the
    index, skipping the files that do not load; the other entries'
    files are not read.  The categories of the registry are then
    replaced by the [categories] of the index (none when it has none),
    whatever was loaded. *)
Theorem registry_file_loads_active_entries fs self filepath spec data entries :
  read fs filepath = Some (Json spec data) ->
  RegistryDoc.tools data = Some entries ->
  Forall entry_complete entries ->
  failures_are_exceptions fs (active_files fs (parent fs filepath) entries) ->
  exists logged,
    ToolRegistry.load_from_registry_file fs self filepath =
      (Return tt,
       ({| ToolRegistry.tools :=
             ToolRegistry.tools
               (fold_left ToolRegistry.register_tool
                  (constructed fs (active_files fs (parent fs filepath) entries))
                  self);
           ToolRegistry.categories := get (RegistryDoc.categories data) [] |},
        logged)).
Proof.
  intros Hread Htools Hc Hexc. unfold ToolRegistry.load_from_registry_file.
  rewrite Hread, Htools. cbn [getitem].
  destruct (load_entries_run fs (parent fs filepath) entries Hc Hexc [] self [])
    as (logged & E).
  rewrite app_nil_r in E. rewrite E. cbn [ToolRegistry.load_entries].
  exists logged. reflexivity.
Qed.

(** X22.  An entry of the index without its [status], or an active
    entry without its [aitool_file], stops the load with a [KeyError]:
    the tools of the entries before it stay registered, under the
    categories that registering gave them, and the entries after it are
    not looked at. *)
Theorem incomplete_entry_aborts_load fs self filepath spec data before entry after :
  read fs filepath = Some (Json spec data) ->
  RegistryDoc.tools data = Some (before ++ entry :: after) ->
  Forall entry_complete before ->
  failures_are_exceptions fs (active_files fs (parent fs filepath) before) ->
  let loaded :=
    fold_left ToolRegistry.register_tool
      (constructed fs (active_files fs (parent fs filepath) before)) self in
  (RegistryDoc.status entry = None ->
   exists logged,
     ToolRegistry.load_from_registry_file fs self filepath =
       (Raise (KeyError "status"), (loaded, logged))) /\
  (RegistryDoc.status entry = Some "active" ->
   RegistryDoc.aitool_file entry = None ->
   exists logged,
     ToolRegistry.load_from_registry_file fs self filepath =
       (Raise (KeyError "aitool_file"), (loaded, logged))).
Proof.
  intros Hread Htools Hc Hexc loaded.
  unfold ToolRegistry.load_from_registry_file.
  rewrite Hread, Htools. cbn [getitem].
  destruct (load_entries_run fs (parent fs filepath) before Hc Hexc
              (entry :: after) self []) as (logged & E).
  rewrite E. fold loaded. cbn [ToolRegistry.load_entries]. split.
  - intros Hs. rewrite Hs. cbn [getitem]. exists logged. reflexivity.
  - intros Hs Hf. rewrite Hs, Hf. cbn [getitem].
    change ("active" =? "active") with true. cbv iota.
    exists logged. reflexivity.
Qed.

(** X23.  A [registry.json] that is there is used, whatever it holds:
    when it cannot be read or has no [tools], [from_directory] raises
    and does not scan the directory; when it lists no tool, the
    registry has no tool, with the categories of the index. *)
Theorem registry_file_is_no_fallback fs directory :
  (forall e,
     read fs (join fs directory "registry.json") = Some (Unreadable e) ->
     ToolRegistry.from_directory fs directory = (Raise e, [])) /\
  (forall spec data,
     read fs (join fs directory "registry.json") = Some (Json spec data) ->
     RegistryDoc.tools data = None ->
     ToolRegistry.from_directory fs directory = (Raise (KeyError "tools"), [])) /\
  (forall spec data,
     read fs (join fs directory "registry.json") = Some (Json spec data) ->
     RegistryDoc.tools data = Some [] ->
     ToolRegistry.from_directory fs directory =
       (Return {| ToolRegistry.tools := [];
                  ToolRegistry.categories := get (RegistryDoc.categories data) [] |},
        [])).
Proof.
  unfold ToolRegistry.from_directory, ToolRegistry.load_from_registry_file.
  split; [|split].
  - intros e H. rewrite H. reflexivity.
  - intros spec data H Ht. rewrite H, Ht. reflexivity.
  - intros spec data H Ht. rewrite H, Ht. reflexivity.
Qed.

(* ================================================================== *)
(** ** The command line *)

Lemma replace_leaves_none (old new : ascii) (s : string) :
  old <> new -> str_contains (String old "") (replace old new s) = false.
Proof.
  intros Hne. induction s as [|c rest IH]; [reflexivity|].
  cbn [replace].
  change (str_contains (String old "")
            (String (if Ascii.eqb c old then new else c) (replace old new rest)))
    with (if String.prefix (String old "")
               (String (if Ascii.eqb c old then new else c) (replace old new rest))
          then true else str_contains (String old "") (replace old new rest)).
  rewrite IH. cbn [String.prefix].
  destruct (Ascii.eqb c old) eqn:E.
  - destruct (ascii_dec old new) as [H|H]; [contradiction|reflexivity].
  - destruct (ascii_dec old c) as [H|H]; [|reflexivity].
    subst c. rewrite Ascii.eqb_refl in E. discriminate.
Qed.

(** X24.  When the output file can be written, [init] returns 0 and
    writes one file, the template.  For every name and category the
    template constructs a tool, and loading the written file gives that
    tool: its id is [com.company.] followed by the name with every
    underscore replaced by a hyphen, so that it has no underscore; it
    has the given name and category, no recovery rule, and the endpoint
    [your.module.<name>]. *)
Theorem init_writes_a_loadable_template fs name output category :
  writable fs output = None ->
  exists records tool,
    Cli.cmd_init fs name output category =
      (Return 0%Z,
       {| Cli.logged := records;
          Cli.printed := [];
          Cli.written := [(output, ToolFile (Cli.template name category))] |}) /\
    Tool.from_dict (Cli.template name category) = Return tool /\
    (forall fs',
       read fs' output = Some (ToolFile (Cli.template name category)) ->
       load_tool fs' output = Return tool) /\
    id_of tool = ("com.company." ++ replace "_" "-" name)%string /\
    str_contains "_" (replace "_" "-" name) = false /\
    name_of tool = name /\
    category_of tool = category /\
    Tool.error_handlers tool = [] /\
    Doc.endpoint (Tool.execution tool) =
      Some {| Doc.type := Some "python_function";
              Doc.module := Some "your.module";
              Doc.function := Some name |}.
Proof.
  intros Hw. unfold Cli.cmd_init. rewrite Hw.
  eexists _, _. split; [reflexivity|]. split; [reflexivity|]. split.
  - intros fs' Hread. unfold load_tool, Tool.from_file. rewrite Hread. reflexivity.
  - split; [reflexivity|]. split; [apply replace_leaves_none; discriminate|].
    repeat split; reflexivity.
Qed.

Lemma print_tools_run (tools : list Tool.t) (lines : list string) :
  Cli.print_tools
    (map (fun tool =>
            [("id", Some (ToolManifest.id (Tool.manifest tool)));
             ("name", Some (ToolManifest.name (Tool.manifest tool)));
             ("display_name", ToolManifest.display_name (Tool.manifest tool));
             ("category", Some (ToolManifest.category (Tool.manifest tool)));
             ("description", Some (ToolManifest.description (Tool.manifest tool)))])
       tools)
    lines
  = (Return tt, lines ++ flat_map listing tools).
Proof.
  revert lines. induction tools as [|tool rest IH]; intros lines.
  - simpl. rewrite app_nil_r. reflexivity.
  - cbn [map Cli.print_tools flat_map].
    change (Cli.item "name" _) with (Return (Some (ToolManifest.name (Tool.manifest tool)))).
    change (Cli.item "category" _)
      with (Return (Some (ToolManifest.category (Tool.manifest tool)))).
    change (Cli.item "description" _)
      with (Return (Some (ToolManifest.description (Tool.manifest tool)))).
    change (Cli.item_or "version" (Some "unknown") _) with (Some "unknown").
    cbv iota beta. rewrite IH. unfold listing at 2, name_of, category_of.
    cbn [Cli.format]. rewrite <- !app_assoc. reflexivity.
Qed.

(** X25.  When the registry of the directory loads, [list] returns 0,
    logs one more record and prints four lines for every tool of the
    registry, in the registry's order: the name followed by
    [(vunknown)], since the entries of [list_tools] have no version;
    the category; the first 80 characters of the description followed
    by [...]; and an empty line.  When loading raises an exception,
    [list] prints nothing, logs the failure and returns 1. *)
Theorem list_prints_no_version fs directory :
  (forall registry records,
     load_registry fs directory = (Return registry, records) ->
     exists record,
       Cli.cmd_list fs directory =
         (Return 0%Z,
          {| Cli.logged := records ++ [(INFO, record)];
             Cli.printed := flat_map listing (registered registry);
             Cli.written := [] |})) /\
  (forall e records,
     load_registry fs directory = (Raise e, records) ->
     isinstance e Exception = true ->
     Cli.cmd_list fs directory =
       (Return 1%Z,
        {| Cli.logged := records ++ [(ERROR, ("Failed to list tools: " ++ exn_str e)%string)];
           Cli.printed := [];
           Cli.written := [] |})).
Proof.
  split.
  - intros registry records H. unfold Cli.cmd_list. rewrite H.
    unfold ToolRegistry.list_tools. fold (registered registry).
    destruct (registered registry) as [|tool rest] eqn:R.
    + eexists. reflexivity.
    + rewrite <- R. clear R.
      destruct (map _ (registered registry)) as [|x l] eqn:M.
      * eexists. simpl. apply map_eq_nil in M. rewrite M. reflexivity.
      * rewrite <- M. rewrite print_tools_run. eexists. reflexivity.
  - intros e records H He. unfold Cli.cmd_list. rewrite H, He. reflexivity.
Qed.

Lemma from_file_after_write fs fs' path content filepath :
  after_write fs path content fs' -> filepath <> path ->
  Tool.from_file fs' filepath = Tool.from_file fs filepath.
Proof.
  intros (_ & Hother & _) Hne. unfold Tool.from_file.
  rewrite (Hother filepath Hne). reflexivity.
Qed.

(** The entries that [registry update] collects lead back to the files
    that loaded. *)
Lemma collect_run fs directory registry_file tool_files :
  failures_are_exceptions fs tool_files ->
  (forall tool_file,
     In tool_file tool_files ->
     join fs directory ("./" ++ name fs tool_file) = tool_file /\
     tool_file <> registry_file) ->
  forall entries records,
    exists entries' records',
      Cli.collect fs tool_files entries records =
        (Return (entries ++ entries'), records') /\
      Forall entry_complete entries' /\
      forall fs' content,
        after_write fs registry_file content fs' ->
        constructed fs' (active_files fs' directory entries') =
          constructed fs tool_files /\
        failures_are_exceptions fs' (active_files fs' directory entries').
Proof.
  induction tool_files as [|tool_file rest IH]; intros Hexc Hpaths entries records.
  - exists [], records. rewrite app_nil_r. split; [reflexivity|].
    split; [constructor|]. intros fs' content _. split; [reflexivity|].
    intros filepath e [].
  - cbn [Cli.collect constructed]. unfold load_tool.
    destruct (Hpaths tool_file (or_introl eq_refl)) as (Hjoin & Hne).
    assert (Hrest : forall f, In f rest ->
                      join fs directory ("./" ++ name fs f) = f /\ f <> registry_file)
      by (intros f Hin; apply Hpaths; right; exact Hin).
    specialize (IH (failures_are_exceptions_cons _ _ _ Hexc) Hrest).
    destruct (Tool.from_file fs tool_file) as [tool|e] eqn:F.
    + destruct (IH (entries ++ [Cli.entry_of fs tool_file tool]) records)
        as (entries' & records' & E & Hc & Hfs).
      exists (Cli.entry_of fs tool_file tool :: entries'), records'.
      rewrite E, <- app_assoc. split; [reflexivity|]. split.
      * constructor; [|exact Hc]. exists "active". split; [reflexivity|].
        intros _. split; discriminate.
      * intros fs' content Hw. destruct (Hfs fs' content Hw) as (Hcon & Hfail).
        pose proof Hw as (_ & _ & Hj & _).
        cbn [active_files Cli.entry_of RegistryDoc.status RegistryDoc.aitool_file].
        change ("active" =? "active") with true. cbv iota.
        rewrite Hj, Hjoin. cbn [constructed].
        rewrite (from_file_after_write fs fs' registry_file content tool_file Hw Hne), F.
        split; [rewrite Hcon; reflexivity|].
        intros filepath e [<-|Hin] H.
        -- rewrite (from_file_after_write fs fs' registry_file content tool_file Hw Hne),
             F in H. discriminate.
        -- exact (Hfail filepath e Hin H).
    + rewrite (Hexc tool_file e (or_introl eq_refl) F).
      destruct (IH entries
                  (records ++ [(WARNING, ("Skipped " ++ name fs tool_file ++ ": "
                                            ++ exn_str e)%string)]))
        as (entries' & records' & E & Hc & Hfs).
      exists entries', records'. split; [exact E|]. split; [exact Hc|exact Hfs].
Qed.

(** X26.  [registry update] in a directory whose [registry.json] is
    absent or holds a JSON object returns 0 and writes one file, the
    index.  Loading the directory afterwards gives the tools of the
    files that the pattern [*.aitool.json] finds in the directory itself
    and that load, the last one winning for an id; the files of
    subdirectories, which a directory without index would have loaded,
    are left out.  The categories are those of the old index, none when
    there was no index: the update does not compute them. *)
Theorem registry_update_then_load fs output directory :
  let registry_file := join fs directory "registry.json" in
  let tool_files := glob fs directory "*.aitool.json" in
  read fs registry_file = None \/
    (exists spec data, read fs registry_file = Some (Json spec data)) ->
  writable fs registry_file = None ->
  failures_are_exceptions fs tool_files ->
  parent fs registry_file = directory ->
  (forall tool_file,
     In tool_file tool_files ->
     join fs directory ("./" ++ name fs tool_file) = tool_file /\
     tool_file <> registry_file) ->
  exists records content,
    Cli.cmd_registry fs (Some "update") output directory =
      (Return (Some 0%Z),
       {| Cli.logged := records;
          Cli.printed := [];
          Cli.written := [(registry_file, content)] |}) /\
    forall fs',
      after_write fs registry_file content fs' ->
      exists records',
        load_registry fs' directory =
          (Return
             {| ToolRegistry.tools :=
                  ToolRegistry.tools (registry_of (constructed fs tool_files));
                ToolRegistry.categories :=
                  match read fs registry_file with
                  | Some (Json _ registry_data) =>
                      get (RegistryDoc.categories registry_data) []
                  | _ => []
                  end |},
           records').
Proof.
  intros registry_file tool_files Hold Hw Hexc Hparent Hpaths.
  destruct (collect_run fs directory registry_file tool_files Hexc Hpaths []
              [(INFO, ("Found " ++ str_of_int (Z.of_nat (length tool_files))
                         ++ " tool files")%string)])
    as (entries & records & E & Hc & Hfs).
  cbn [app] in E.
  assert (Hdata : exists spec data,
            match read fs registry_file with
            | Some (Json spec registry_data) => Return (spec, registry_data)
            | Some (Unreadable e) => Raise e
            | None =>
                Return (no_document,
                        {| RegistryDoc.tools := Some [];
                           RegistryDoc.categories := Some [] |})
            end = Return (spec, data) /\
            get (RegistryDoc.categories data) [] =
              match read fs registry_file with
              | Some (Json _ registry_data) =>
                  get (RegistryDoc.categories registry_data) []
              | _ => []
              end).
  { destruct Hold as [H|(spec & data & H)]; rewrite H; eexists _, _;
      split; reflexivity. }
  destruct Hdata as (spec & data & Hread & Hcat).
  unfold Cli.cmd_registry.
  change (eq_opt_str (Some "update") "create") with false.
  change (eq_opt_str (Some "update") "update") with true. cbv iota.
  fold registry_file tool_files. rewrite Hread, E, Hw.
  eexists _, _. split; [reflexivity|].
  intros fs' Hafter. pose proof Hafter as (Hr & _ & Hj & Hp).
  destruct (Hfs fs' _ Hafter) as (Hcon & Hfail).
  unfold load_registry, ToolRegistry.from_directory.
  rewrite Hj. fold registry_file. rewrite Hr.
  unfold ToolRegistry.load_from_registry_file. rewrite Hr.
  cbn [RegistryDoc.tools getitem RegistryDoc.categories].
  rewrite Hp, Hparent.
  destruct (load_entries_run fs' directory entries Hc Hfail [] ToolRegistry.__init__ [])
    as (logged & L).
  rewrite app_nil_r in L. rewrite L. cbn [ToolRegistry.load_entries].
  rewrite Hcon, Hcat. exists logged. reflexivity.
Qed.

(** X27.  [registry create] returns 0 and writes an index without tools.
    A directory with that index as its [registry.json] loads as the
    empty registry, whatever tool files it holds, and [list] prints
    nothing for it.  Without a subcommand, [registry] does nothing and
    returns [None]. *)
Theorem registry_create_hides_the_tools fs output directory :
  writable fs output = None ->
  exists content,
    Cli.cmd_registry fs (Some "create") output directory =
      (Return (Some 0%Z),
       {| Cli.logged := [(INFO, ("✓ Created registry: " ++ output)%string)];
          Cli.printed := [];
          Cli.written := [(output, content)] |}) /\
    (forall fs' loaded,
       read fs' (join fs' loaded "registry.json") = Some content ->
       load_registry fs' loaded = (Return ToolRegistry.__init__, []) /\
       fst (Cli.cmd_list fs' loaded) = Return 0%Z /\
       Cli.printed (snd (Cli.cmd_list fs' loaded)) = []) /\
    Cli.cmd_registry fs None output directory =
      (Return None, {| Cli.logged := []; Cli.printed := []; Cli.written := [] |}).
Proof.
  intros Hw. unfold Cli.cmd_registry at 1.
  change (eq_opt_str (Some "create") "create") with true. cbv iota. rewrite Hw.
  eexists. split; [reflexivity|]. split; [|reflexivity].
  intros fs' loaded Hread.
  assert (L : load_registry fs' loaded = (Return ToolRegistry.__init__, [])).
  { unfold load_registry, ToolRegistry.from_directory,
      ToolRegistry.load_from_registry_file.
    rewrite Hread. reflexivity. }
  split; [exact L|]. unfold Cli.cmd_list. rewrite L. split; reflexivity.
Qed.

(* ================================================================== *)
(** ** The further statements at the sample tools and files *)

Lemma other_strategies_reraise_witness :
  let run := Tool.execute Sample.accepting (Sample.importing (Sample.flaky 1))
               Case.prompt_tool [] true true true Tool.initial in
  fst run = Raise (Sample.ConnectionError "connection reset") /\
  call_count (new_events Tool.initial (snd run)) = 1%nat /\
  delays (new_events Tool.initial (snd run)) = [] /\
  warnings (new_events Tool.initial (snd run)) = ["Please check the connection"].
Proof.
  exact (other_strategies_reraise Sample.accepting (Sample.importing (Sample.flaky 1))
           Case.prompt_tool [] true true Tool.initial (Sample.flaky 1)
           (Sample.resolved (Sample.flaky 1))
           (Sample.ConnectionError "connection reset")
           (Case.handler PROMPT_USER None None None (Some "Please check the connection"))
           eq_refl eq_refl eq_refl eq_refl eq_refl).
Defined.

Lemma negative_max_retries_swallows_failure_witness :
  let run := Tool.execute Sample.accepting (Sample.importing (Sample.flaky 1))
               Sample.negative_retries_tool [] true true true Tool.initial in
  fst run = Return JNull /\
  call_count (new_events Tool.initial (snd run)) = 1%nat /\
  delays (new_events Tool.initial (snd run)) = [].
Proof.
  exact (negative_max_retries_swallows_failure Sample.accepting
           (Sample.importing (Sample.flaky 1)) Sample.negative_retries_tool []
           true true Tool.initial (Sample.flaky 1) (Sample.resolved (Sample.flaky 1))
           (Sample.ConnectionError "connection reset")
           (Case.handler RETRY_WITH_BACKOFF (Some (-1)%Z) None None None)
           eq_refl eq_refl eq_refl eq_refl eq_refl eq_refl).
Defined.



Lemma unhandled_execute_is_one_attempt_witness :
  let run := Tool.execute Sample.accepting (Sample.importing (Sample.constant (JStr "ok")))
               Sample.backoff_tool [] true true false Tool.initial in
  fst run = Return (JStr "ok") /\
  Tool.execute Sample.accepting (Sample.importing (Sample.constant (JStr "ok")))
    Sample.backoff_tool [] true true true Tool.initial = run.
Proof.
  split; [reflexivity|].
  exact (proj2 (proj2 (unhandled_execute_is_one_attempt Sample.accepting
                         (Sample.importing (Sample.constant (JStr "ok")))
                         Sample.backoff_tool [] true true Tool.initial))
           (JStr "ok") eq_refl).
Defined.

Lemma unresolvable_function_raises_witness :
  let run := Tool.execute Sample.accepting Case.nothing_installed Sample.backoff_tool []
               true true true Tool.initial in
  fst run = Raise (ToolExecutionError
                     "Could not load function shop.search.search_database: No module named 'shop.search'") /\
  _cached_function (snd run) = None /\
  call_count (new_events Tool.initial (snd run)) = 0%nat /\
  delays (new_events Tool.initial (snd run)) = [] /\
  import_count (new_events Tool.initial (snd run)) = 1%nat.
Proof.
  assert (Hin : true = true -> accepts_input Sample.accepting Sample.backoff_tool []).
  { intros _. eexists. split; reflexivity. }
  exact (unresolvable_function_raises Sample.accepting Case.nothing_installed
           Sample.backoff_tool [] true true true Tool.initial
           (Sample.endpoint "python_function") "shop.search" "search_database"
           {| exn_name := "ModuleNotFoundError";
              exn_bases := [Exception; ImportError];
              exn_str := "No module named 'shop.search'" |}
           eq_refl Hin eq_refl eq_refl eq_refl eq_refl eq_refl).
Defined.

Lemma validator_errors_are_not_wrapped_witness :
  Tool.execute Case.misconfigured (Sample.importing (Sample.constant (JStr "ok")))
    Sample.plain_tool [] true true true Tool.initial
  = (Raise (Case.SchemaError "'strnig' is not valid under any of the given schemas"),
     Tool.initial) /\
  let run := Tool.execute Case.misconfigured
               (Sample.importing (Sample.constant (JStr "ok")))
               Sample.plain_tool [] false true true Tool.initial in
  fst run = Raise (Case.SchemaError
                     "'strnig' is not valid under any of the given schemas") /\
  call_count (new_events Tool.initial (snd run)) = 1%nat /\
  delays (new_events Tool.initial (snd run)) = [].
Proof.
  pose proof (validator_errors_are_not_wrapped Case.misconfigured
                (Sample.importing (Sample.constant (JStr "ok"))) Sample.plain_tool []
                true true true Tool.initial
                (Case.SchemaError "'strnig' is not valid under any of the given schemas")
                eq_refl) as (Hinput & _).
  pose proof (validator_errors_are_not_wrapped Case.misconfigured
                (Sample.importing (Sample.constant (JStr "ok"))) Sample.plain_tool []
                false true true Tool.initial
                (Case.SchemaError "'strnig' is not valid under any of the given schemas")
                eq_refl) as (_ & Houtput).
  split.
  - exact (Hinput (JObj [("type", JStr "object")]) eq_refl eq_refl eq_refl).
  - exact (Houtput (Sample.constant (JStr "ok"))
             (Sample.resolved (Sample.constant (JStr "ok"))) (JStr "ok")
             {| Doc.success_schema := Some (JObj [("type", JStr "string")]) |}
             (JObj [("type", JStr "string")])
             eq_refl eq_refl eq_refl eq_refl eq_refl eq_refl eq_refl
             (or_intror eq_refl)).
Defined.

Lemma refused_backoff_stops_retrying_witness :
  (let run := Tool.execute Sample.accepting (Sample.importing (Sample.flaky 2))
                Case.negative_backoff_tool [] true true true Tool.initial in
   exists refusal,
     delay_error (-100) = Some refusal /\
     fst run = Raise refusal /\
     call_count (new_events Tool.initial (snd run)) = 2%nat /\
     delays (new_events Tool.initial (snd run)) = [] /\
     ((- 9223372036854 <= -100 < 0)%Z ->
      refusal = ValueError "sleep length must be non-negative") /\
     ((-100 < - 9223372036854 \/ 9223372036854 < -100)%Z ->
      exn_name refusal = "OverflowError")) /\
  (let run := Tool.execute Sample.accepting (Sample.importing (Sample.flaky 2))
                Case.endless_backoff_tool [] true true true Tool.initial in
   exists refusal,
     delay_error (10 ^ 16) = Some refusal /\
     fst run = Raise refusal /\
     call_count (new_events Tool.initial (snd run)) = 2%nat /\
     delays (new_events Tool.initial (snd run)) = [] /\
     ((- 9223372036854 <= 10 ^ 16 < 0)%Z ->
      refusal = ValueError "sleep length must be non-negative") /\
     ((10 ^ 16 < - 9223372036854 \/ 9223372036854 < 10 ^ 16)%Z ->
      exn_name refusal = "OverflowError")) /\
  delay_error (10 ^ 16) =
    Some (OverflowError "timestamp too large to convert to C _PyTime_t").
Proof.
  assert (Hin : forall tool,
             Doc.parameters (Tool.execution tool) = Some (JObj [("type", JStr "object")]) ->
             accepts_input Sample.accepting tool []).
  { intros tool H. eexists. split; [exact H|reflexivity]. }
  split; [|split; [|reflexivity]].
  - refine (refused_backoff_stops_retrying Sample.accepting
              (Sample.importing (Sample.flaky 2)) Case.negative_backoff_tool []
              true true Tool.initial (Sample.flaky 2) (Sample.resolved (Sample.flaky 2))
              (Sample.ConnectionError "connection reset")
              (Sample.ConnectionError "connection reset")
              (Case.handler RETRY_WITH_BACKOFF (Some 3%Z) (Some [-100]%Z) None None)
              eq_refl (Hin Case.negative_backoff_tool eq_refl) eq_refl eq_refl eq_refl eq_refl _ _
              eq_refl eq_refl).
    + discriminate.
    + repeat constructor. discriminate.
  - refine (refused_backoff_stops_retrying Sample.accepting
              (Sample.importing (Sample.flaky 2)) Case.endless_backoff_tool []
              true true Tool.initial (Sample.flaky 2) (Sample.resolved (Sample.flaky 2))
              (Sample.ConnectionError "connection reset")
              (Sample.ConnectionError "connection reset")
              (Case.handler RETRY_WITH_BACKOFF (Some 3%Z) (Some [10 ^ 16]%Z) None None)
              eq_refl (Hin Case.endless_backoff_tool eq_refl) eq_refl eq_refl eq_refl eq_refl _ _
              eq_refl eq_refl).
    + discriminate.
    + repeat constructor. discriminate.
Defined.

Lemma strategy_value_round_trip_witness :
  RecoveryStrategy_of_value "wait_and_retry" = Return WAIT_AND_RETRY /\
  strategy_value WAIT_AND_RETRY = "wait_and_retry" /\
  unrecognized "retry-with-backoff" /\
  exn_str (ValueError "'retry-with-backoff' is not a valid RecoveryStrategy") =
    "'retry-with-backoff' is not a valid RecoveryStrategy" /\
  forall e,
    RecoveryStrategy_of_value "don't retry" = Raise e ->
    exn_str e =
      String double_quote
        ("don't retry" ++ String double_quote " is not a valid RecoveryStrategy").
Proof.
  destruct strategy_value_round_trip as (Hto & Hfrom & Hraise).
  split; [exact (Hto WAIT_AND_RETRY)|].
  split; [exact (Hfrom "wait_and_retry" WAIT_AND_RETRY eq_refl)|].
  destruct (Hraise "retry-with-backoff"
              (ValueError "'retry-with-backoff' is not a valid RecoveryStrategy")
              eq_refl) as (Hu & _ & Hmsg).
  split; [exact Hu|]. split; [exact (Hmsg eq_refl)|].
  intros e He. destruct (Hraise "don't retry" e He) as (_ & _ & Hquote).
  exact (Hquote eq_refl).
Defined.

Lemma well_formed_documents_construct_witness :
  document_well_formed (Sample.document "python_function" []) /\
  ~ document_well_formed Sample.hyphenated_document.
Proof.
  split.
  - exact (proj1 (well_formed_documents_construct
                    (Sample.document "python_function" []))
             (ex_intro _ Sample.plain_tool eq_refl)).
  - intros H.
    destruct (proj2 (well_formed_documents_construct Sample.hyphenated_document) H)
      as (tool & Htool).
    discriminate Htool.
Defined.

Lemma to_dict_round_trip_witness :
  Tool.from_dict (Tool.to_dict Sample.weather_tool) = Return Sample.weather_tool /\
  Tool.to_dict Sample.backoff_tool =
    Sample.document "python_function"
      [Sample.rule "ConnectionError" "retry_with_backoff" (Some 3%Z)
         (Some [100; 200]%Z) None] /\
  Forall2 (fun rule handler => ErrorRecovery.from_dict rule = Return handler)
    [Sample.rule "ConnectionError" "retry_with_backoff" (Some 3%Z)
       (Some [100; 200]%Z) None]
    [Sample.backoff_handler].
Proof.
  split.
  - exact (proj1 (proj2 (to_dict_round_trip (Tool.to_dict Sample.weather_tool)
                           Sample.weather_tool eq_refl))).
  - pose proof (to_dict_round_trip
                  (Sample.document "python_function"
                     [Sample.rule "ConnectionError" "retry_with_backoff" (Some 3%Z)
                        (Some [100; 200]%Z) None])
                  Sample.backoff_tool eq_refl) as (Hd & _ & Hrules & _).
    split; [exact Hd|exact Hrules].
Defined.

Lemma get_tool_returns_last_registration_witness :
  ToolRegistry.get_tool
    (ToolRegistry.register_tool Sample.registry Sample.backoff_tool)
    "com.example.search" = Some Sample.backoff_tool /\
  ToolRegistry.get_tool
    (ToolRegistry.register_tool Sample.registry Sample.backoff_tool)
    "com.example.mail" = ToolRegistry.get_tool Sample.registry "com.example.mail" /\
  ToolRegistry.get_tool (registry_of [Sample.plain_tool; Sample.backoff_tool])
    "com.example.search" = Some Sample.backoff_tool.
Proof.
  split.
  - exact (proj1 (get_tool_returns_last_registration [] "com.example.search")
             Sample.registry Sample.backoff_tool).
  - split.
    + refine (proj1 (proj2 (get_tool_returns_last_registration [] "com.example.mail"))
                Sample.registry Sample.backoff_tool _).
      discriminate.
    + exact (proj1 (proj2 (proj2 (get_tool_returns_last_registration
                                    [Sample.plain_tool; Sample.backoff_tool]
                                    "com.example.search")))).
Defined.

Lemma registered_ids_are_unique_witness :
  NoDup (map id_of (registered (registry_of [Sample.plain_tool; Sample.backoff_tool]))) /\
  registered (registry_of [Sample.plain_tool; Sample.backoff_tool])
    = [Sample.backoff_tool] /\
  ~ In Sample.plain_tool (registered (registry_of [Sample.plain_tool; Sample.backoff_tool])).
Proof.
  destruct (registered_ids_are_unique [Sample.plain_tool; Sample.backoff_tool])
    as (Hnd & Hget & _).
  split; [exact Hnd|]. split; [reflexivity|].
  intros Hin. apply Hget in Hin. discriminate Hin.
Defined.

Lemma tool_found_by_name_is_registered_witness :
  name_of Sample.weather_tool = "get_weather" /\
  ToolRegistry.get_tool Sample.registry "com.example.weather" = Some Sample.weather_tool /\
  exists before after,
    registered Sample.registry = before ++ Sample.weather_tool :: after /\
    forall other, In other before -> name_of other <> "get_weather".
Proof.
  exact (tool_found_by_name_is_registered
           [Sample.plain_tool; Sample.mail_tool; Sample.weather_tool] "get_weather").
Defined.

Lemma category_counts_registrations_witness :
  ToolRegistry.get_categories (registry_of [Sample.plain_tool; Sample.plain_tool])
    = [("data", 2%nat)] /\
  length (registered (registry_of [Sample.plain_tool; Sample.plain_tool])) = 1%nat /\
  ToolRegistry.lookup "data"
    (ToolRegistry.get_categories (registry_of [Sample.plain_tool; Sample.plain_tool]))
    = option_map S
        (ToolRegistry.lookup "data"
           (ToolRegistry.get_categories (registry_of [Sample.plain_tool]))).
Proof.
  split; [reflexivity|]. split; [reflexivity|].
  exact (proj1 (proj2 (proj2 (category_counts_registrations [Sample.plain_tool] "data"))
                  Sample.plain_tool (or_introl eq_refl) eq_refl)).
Defined.

Lemma sample_plain_ascii_guidance : ascii_guidance Sample.plain_tool.
Proof.
  intros trigger_spec [<-|[]].
  split; [intros trigger E; inversion E; reflexivity|].
  intros ex [<-|[]]. reflexivity.
Qed.

Lemma query_match_survives_case_and_context_witness :
  Tool.matches_trigger Sample.plain_tool "SEARCH" = Return true /\
  ascii_guidance Sample.plain_tool /\
  Tool.matches_trigger Sample.plain_tool "please SEARCH for shoes" = Return true /\
  Tool.matches_trigger Sample.plain_tool "Search" =
    Tool.matches_trigger Sample.plain_tool "SEARCH".
Proof.
  destruct (query_match_survives_case_and_context Sample.plain_tool "SEARCH")
    as (Hcase & Hcontext).
  split; [reflexivity|].
  split; [exact sample_plain_ascii_guidance|].
  split; [exact (Hcontext "please " " for shoes" sample_plain_ascii_guidance
                   eq_refl eq_refl eq_refl eq_refl)|].
  exact (Hcase "Search" eq_refl).
Defined.

Lemma empty_example_matches_every_query_witness :
  Tool.matches_trigger Case.catch_all_tool "what time is it" = Return true.
Proof.
  refine (empty_example_matches_every_query Case.catch_all_tool
            {| Doc.trigger := Some "Search Products";
               Doc.examples := Some ["Find red shirts"; ""] |}
            _ (or_introl eq_refl) (or_intror (or_introl eq_refl))
            "what time is it").
  intros trigger_spec [<-|[]]. discriminate.
Defined.

Lemma empty_filters_select_everything_witness :
  ToolRegistry.find_tools Sample.registry (Some "") (Some []) None =
    Return [Sample.plain_tool; Sample.mail_tool; Sample.weather_tool].
Proof.
  exact (empty_filters_select_everything Sample.registry (Some "") (Some []) None
           (or_intror eq_refl) (or_intror eq_refl) (or_introl eq_refl)).
Defined.

Lemma directory_scan_skips_failures_witness :
  exists logged,
    ToolRegistry.from_directory Case.disk "tools" =
      (Return (registry_of [Sample.plain_tool; Sample.weather_tool]), logged) /\
    map fst logged = [INFO; ERROR; INFO].
Proof.
  refine (directory_scan_skips_failures Case.disk "tools" eq_refl _).
  intros filepath e [<-|[<-|[<-|[]]]] H; vm_compute in H;
    first [discriminate H | inversion H; reflexivity].
Defined.

Lemma registry_file_loads_active_entries_witness :
  exists logged,
    ToolRegistry.load_from_registry_file Case.disk ToolRegistry.__init__
      "indexed/registry.json" =
      (Return tt,
       ({| ToolRegistry.tools := [("com.example.search", Sample.plain_tool)];
           ToolRegistry.categories :=
             [("data", ["com.example.search"; "com.example.weather"])] |},
        logged)).
Proof.
  refine (registry_file_loads_active_entries Case.disk ToolRegistry.__init__
            "indexed/registry.json" no_document Case.index _ eq_refl eq_refl _ _).
  - repeat constructor; eexists; (split; [reflexivity|]);
      intros _; split; discriminate.
  - intros filepath e [<-|[<-|[]]] H; vm_compute in H;
      first [discriminate H | inversion H; reflexivity].
Defined.

Lemma incomplete_entry_aborts_load_witness :
  exists logged,
    ToolRegistry.load_from_registry_file Case.disk ToolRegistry.__init__
      "partial/registry.json" =
      (Raise (KeyError "status"), (registry_of [Sample.plain_tool], logged)).
Proof.
  refine (proj1 (incomplete_entry_aborts_load Case.disk ToolRegistry.__init__
                   "partial/registry.json" no_document Case.incomplete_index
                   [Case.entry "com.example.search" "search_database"
                      "./search.aitool.json" "active"]
                   _ [Case.entry "com.example.mail" "send_mail"
                        "./mail.aitool.json" "active"]
                   eq_refl eq_refl _ _) eq_refl).
  - repeat constructor; eexists; (split; [reflexivity|]);
      intros _; split; discriminate.
  - intros filepath e [<-|[]] H; vm_compute in H; discriminate H.
Defined.

Lemma registry_file_is_no_fallback_witness :
  ToolRegistry.from_directory Case.disk "stale" =
    (Raise (Case.JSONDecodeError "Expecting value: line 1 column 1 (char 0)"), []) /\
  Tool.from_file Case.disk "stale/search.aitool.json" = Return Sample.plain_tool.
Proof.
  split; [|reflexivity].
  exact (proj1 (registry_file_is_no_fallback Case.disk "stale")
           (Case.JSONDecodeError "Expecting value: line 1 column 1 (char 0)") eq_refl).
Defined.

Lemma init_writes_a_loadable_template_witness :
  writable Case.disk "tools/get_weather.aitool.json" = None /\
  exists records tool,
    Cli.cmd_init Case.disk "get_weather" "tools/get_weather.aitool.json" "data_retrieval" =
      (Return 0%Z,
       {| Cli.logged := records;
          Cli.printed := [];
          Cli.written :=
            [("tools/get_weather.aitool.json",
              ToolFile (Cli.template "get_weather" "data_retrieval"))] |}) /\
    Tool.from_dict (Cli.template "get_weather" "data_retrieval") = Return tool /\
    (forall fs',
       read fs' "tools/get_weather.aitool.json" =
         Some (ToolFile (Cli.template "get_weather" "data_retrieval")) ->
       load_tool fs' "tools/get_weather.aitool.json" = Return tool) /\
    id_of tool = "com.company.get-weather" /\
    str_contains "_" "get-weather" = false /\
    name_of tool = "get_weather" /\
    category_of tool = "data_retrieval" /\
    Tool.error_handlers tool = [] /\
    Doc.endpoint (Tool.execution tool) =
      Some {| Doc.type := Some "python_function";
              Doc.module := Some "your.module";
              Doc.function := Some "get_weather" |}.
Proof.
  split; [reflexivity|].
  exact (init_writes_a_loadable_template Case.disk "get_weather"
           "tools/get_weather.aitool.json" "data_retrieval" eq_refl).
Defined.

Lemma list_prints_no_version_witness :
  exists record,
    Cli.cmd_list Case.disk "indexed" =
      (Return 0%Z,
       {| Cli.logged :=
            [(ERROR, "Failed to load send_mail: Tool file not found: indexed/mail.aitool.json");
             (INFO, record)];
          Cli.printed :=
            ["  search_database (vunknown)";
             "    Category: data";
             "    Search the product database...";
             ""];
          Cli.written := [] |}).
Proof.
  exact (proj1 (list_prints_no_version Case.disk "indexed")
           {| ToolRegistry.tools := [("com.example.search", Sample.plain_tool)];
              ToolRegistry.categories :=
                [("data", ["com.example.search"; "com.example.weather"])] |}
           [(ERROR, "Failed to load send_mail: Tool file not found: indexed/mail.aitool.json")]
           eq_refl).
Defined.

Lemma registry_update_then_load_witness :
  (forall content,
     after_write Case.disk "tools/registry.json" content
       (Case.write Case.disk "tools/registry.json" content)) /\
  exists records content,
    Cli.cmd_registry Case.disk (Some "update") "registry.json" "tools" =
      (Return (Some 0%Z),
       {| Cli.logged := records;
          Cli.printed := [];
          Cli.written := [("tools/registry.json", content)] |}) /\
    forall fs',
      after_write Case.disk "tools/registry.json" content fs' ->
      exists records',
        load_registry fs' "tools" =
          (Return {| ToolRegistry.tools := [("com.example.search", Sample.plain_tool)];
                     ToolRegistry.categories := [] |},
           records').
Proof.
  split.
  - intros content. unfold after_write, Case.write. cbn [read join parent].
    rewrite String.eqb_refl. split; [reflexivity|]. split; [|split; reflexivity].
    intros other Hne. apply String.eqb_neq in Hne. rewrite Hne. reflexivity.
  - refine (registry_update_then_load Case.disk "registry.json" "tools"
              (or_introl eq_refl) eq_refl _ eq_refl _).
    + intros filepath e [<-|[<-|[]]] H; vm_compute in H;
        first [discriminate H | inversion H; reflexivity].
    + intros tool_file [<-|[<-|[]]]; (split; [reflexivity|discriminate]).
Defined.

Lemma registry_create_hides_the_tools_witness :
  writable Case.disk "tools/registry.json" = None /\
  exists content,
    Cli.cmd_registry Case.disk (Some "create") "tools/registry.json" "" =
      (Return (Some 0%Z),
       {| Cli.logged := [(INFO, "✓ Created registry: tools/registry.json")];
          Cli.printed := [];
          Cli.written := [("tools/registry.json", content)] |}) /\
    (forall fs' loaded,
       read fs' (join fs' loaded "registry.json") = Some content ->
       load_registry fs' loaded = (Return ToolRegistry.__init__, []) /\
       fst (Cli.cmd_list fs' loaded) = Return 0%Z /\
       Cli.printed (snd (Cli.cmd_list fs' loaded)) = []) /\
    Cli.cmd_registry Case.disk None "tools/registry.json" "" =
      (Return None, {| Cli.logged := []; Cli.printed := []; Cli.written := [] |}).
Proof.
  split; [reflexivity|].
  exact (registry_create_hides_the_tools Case.disk "tools/registry.json" "" eq_refl).
Defined.
